(** * makehtml: DOCX to HTML converter

  A shallow embedding of [makehtml.py] (class [DocxToHtmlConverter]) and
  the properties of its structural synthesis engine: the nested list
  builder, the run consolidator, the hyperlink extractor, the block
  dispatcher and the post-pass transformer.

  Conventions of the embedding.
  - A Python [str] is a [string] holding its UTF-8 encoding.  Substring
    search, replacement and counting on valid UTF-8 agree with the same
    operations on code points, because UTF-8 is self-synchronising.
  - A Python list that is only appended to is a [list] extended with
    [++ [x]].
  - Python integers are [Z]; indices into lists are [nat].
  - A [while] loop whose index may jump is a function on a fuel argument
    returning [option]; [None] means the fuel ran out, and the theorems
    show that the fuel the callers pass is always enough.
  - A definition gives the value of the call it embeds, for a call that
    returns.  The exceptions the properties speak of are embedded where
    they arise: the RecursionError of the list builder in
    [_build_nested_list_within], which counts the frames left, and the
    errors of [re] in the two passes as [None].  The ValueError of [int]
    is not embedded: [NumPr] holds the level of [w:ilvl] as a number, so a
    document whose [w:ilvl] is not a number is outside the embedding, and
    [int_of_digits] gives the value of a digit string of any length, where
    the interpreter refuses one of more than 4300 digits. *)

From Stdlib Require Import String Ascii List ZArith NArith Lia Bool Arith
  DecimalString DecimalNat.
Import ListNotations.
Local Open Scope string_scope.

(* ================================================================= *)
(** ** Python string primitives *)

Module PyStr.

(** [sep.join(parts)] *)
Definition join (sep : string) (parts : list string) : string :=
  String.concat sep parts.

(** [s.startswith(p)] *)
Definition startswith (s p : string) : bool := String.prefix p s.

(** [needle in s] *)
Fixpoint contains (needle s : string) : bool :=
  String.prefix needle s ||
  match s with
  | EmptyString => false
  | String _ rest => contains needle rest
  end.

(** A byte that continues a UTF-8 sequence (10xxxxxx). *)
Definition is_continuation (c : ascii) : bool :=
  let n := nat_of_ascii c in Nat.leb 128 n && Nat.ltb n 192.

(** [len(s)]: the number of code points. *)
Fixpoint py_len (s : string) : nat :=
  match s with
  | EmptyString => 0
  | String c rest => (if is_continuation c then 0 else 1) + py_len rest
  end.

(** [s.replace(old, new)] for a non-empty [old]: scan left to right,
    [skip] counts the bytes of a match that remain to be dropped. *)
Fixpoint replace_from (old new : string) (skip : nat) (s : string) : string :=
  match s with
  | EmptyString => EmptyString
  | String c rest =>
      match skip with
      | S k => replace_from old new k rest
      | O =>
          if String.prefix old s
          then new ++ replace_from old new (String.length old - 1) rest
          else String c (replace_from old new 0 rest)
      end
  end.

(** [s.replace(old, new)] for the empty [old]: [new] goes before every code point and at the
    end. *)
Fixpoint intersperse (new s : string) : string :=
  match s with
  | EmptyString => new
  | String c rest =>
      if is_continuation c then String c (intersperse new rest)
      else new ++ String c (intersperse new rest)
  end.

Definition replace (s old new : string) : string :=
  match old with
  | EmptyString => intersperse new s
  | _ => replace_from old new 0 s
  end.

(** [s.count(sub)] for a non-empty [sub]: non-overlapping occurrences. *)
Fixpoint count_from (sub : string) (skip : nat) (s : string) : nat :=
  match s with
  | EmptyString => 0
  | String _ rest =>
      match skip with
      | S k => count_from sub k rest
      | O =>
          if String.prefix sub s
          then S (count_from sub (String.length sub - 1) rest)
          else count_from sub 0 rest
      end
  end.

Definition count (s sub : string) : nat :=
  match sub with
  | EmptyString => S (py_len s)
  | _ => count_from sub 0 s
  end.

(** [s.split(c)] for a one-character separator. *)
Fixpoint split (c : ascii) (s : string) : list string :=
  match s with
  | EmptyString => [EmptyString]
  | String a rest =>
      if Ascii.eqb a c then EmptyString :: split c rest
      else match split c rest with
           | [] => [String a EmptyString]
           | h :: t => String a h :: t
           end
  end.

Definition newline : ascii := ascii_of_nat 10.
Definition nl : string := String newline EmptyString.

(** Truthiness of a string: [if s:]. *)
Definition nonempty (s : string) : bool :=
  match s with EmptyString => false | _ => true end.

Definition of_bytes (l : list nat) : string :=
  string_of_list_ascii (map ascii_of_nat l).

(** The code points for which [str.isspace] holds, which are also the
    ones [str.strip()], [str.split(None)] and the pattern [\s] use, in
    UTF-8: U+0009..000D, U+001C..001F, U+0020, U+0085, U+00A0, U+1680,
    U+2000..200A, U+2028, U+2029, U+202F, U+205F, U+3000. *)
Definition whitespace : list string :=
  map of_bytes
    ([[9]; [10]; [11]; [12]; [13]; [28]; [29]; [30]; [31]; [32];
      [194; 133]; [194; 160]; [225; 154; 128]] ++
     map (fun k => [226; 128; 128 + k]) (seq 0 11) ++
     [[226; 128; 168]; [226; 128; 169]; [226; 128; 175];
      [226; 129; 159]; [227; 128; 128]])%list.

Fixpoint drop (n : nat) (s : string) : string :=
  match n, s with
  | S k, String _ rest => drop k rest
  | _, _ => s
  end.

Fixpoint rev (s : string) : string :=
  match s with
  | EmptyString => EmptyString
  | String c rest => rev rest ++ String c EmptyString
  end.

(** The whitespace code point [s] starts with, if any. *)
Definition leading_space (s : string) : option string :=
  find (fun w => String.prefix w s) whitespace.

Fixpoint lstrip_fuel (fuel : nat) (s : string) : string :=
  match fuel with
  | O => s
  | S k =>
      match leading_space s with
      | Some w => lstrip_fuel k (drop (String.length w) s)
      | None => s
      end
  end.

(** [s.lstrip()]; at most [length s] code points can be removed. *)
Definition lstrip (s : string) : string := lstrip_fuel (String.length s) s.

Fixpoint rstrip_fuel (fuel : nat) (reversed : string) : string :=
  match fuel with
  | O => reversed
  | S k =>
      match find (fun w => String.prefix (rev w) reversed) whitespace with
      | Some w => rstrip_fuel k (drop (String.length w) reversed)
      | None => reversed
      end
  end.

(** [s.rstrip()], computed on the reversed string. *)
Definition rstrip (s : string) : string :=
  rev (rstrip_fuel (String.length s) (rev s)).

(** [s.strip()] *)
Definition strip (s : string) : string := rstrip (lstrip s).

(** [s.lower()] restricted to what the converter observes: the result is
    only searched for ASCII needles, and no code point outside A-Z lowers
    to a sequence in which such a needle can start or continue. *)
Definition lower_char (c : ascii) : ascii :=
  let n := nat_of_ascii c in
  if Nat.leb 65 n && Nat.leb n 90 then ascii_of_nat (n + 32) else c.

Fixpoint lower (s : string) : string :=
  match s with
  | EmptyString => EmptyString
  | String c rest => String (lower_char c) (lower rest)
  end.

Definition is_digit (c : ascii) : bool :=
  let n := nat_of_ascii c in Nat.leb 48 n && Nat.leb n 57.

(** The code points of a string, each as the bytes that encode it: a byte
    that does not continue a sequence, with the continuation bytes that
    follow it. *)
Fixpoint chars (s : string) : list string :=
  match s with
  | EmptyString => []
  | String c rest =>
      match rest with
      | String d _ =>
          if is_continuation d then
            match chars rest with
            | h :: t => String c h :: t
            | [] => [String c EmptyString]
            end
          else String c EmptyString :: chars rest
      | EmptyString => [String c EmptyString]
      end
  end.

(** The number of the code point that the bytes encode. *)
Definition code_point (ch : string) : N :=
  match ch with
  | EmptyString => 0%N
  | String c rest =>
      let n := N_of_ascii c in
      let lead := if (n <? 128)%N then n
                  else if (n <? 224)%N then (n - 192)%N
                  else if (n <? 240)%N then (n - 224)%N
                  else (n - 240)%N in
      fold_left (fun acc d => (acc * 64 + (N_of_ascii d - 128))%N)
                (list_ascii_of_string rest) lead
  end.

(** The decimal digits of Unicode (category Nd), which are what [\d]
    matches in a [str] pattern and what [int] reads: they come in ranges of
    ten, in the order of their values, and this is the list of the zero of
    each range in version 14.0 of the Unicode database, the one of
    CPython 3.11. *)
Definition decimal_zeros : list N :=
  [48; 1632; 1776; 1984; 2406; 2534; 2662; 2790; 2918; 3046; 3174; 3302; 3430;
   3558; 3664; 3792; 3872; 4160; 4240; 6112; 6160; 6470; 6608; 6784; 6800; 6992;
   7088; 7232; 7248; 42528; 43216; 43264; 43472; 43504; 43600; 44016; 65296;
   66720; 68912; 69734; 69872; 69942; 70096; 70384; 70736; 70864; 71248; 71360;
   71472; 71904; 72016; 72784; 73040; 73120; 92768; 92864; 93008; 120782; 120792;
   120802; 120812; 120822; 123200; 123632; 125264; 130032]%N.

(** The value of a code point that is a decimal digit. *)
Definition decimal_value (ch : string) : option N :=
  let cp := code_point ch in
  match find (fun zero => (zero <=? cp)%N && (cp <? zero + 10)%N) decimal_zeros with
  | Some zero => Some (cp - zero)%N
  | None => None
  end.

Definition is_decimal (ch : string) : bool :=
  match decimal_value ch with Some _ => true | None => false end.

(** [str(n)] for a non-negative integer. *)
Definition of_nat (n : nat) : string :=
  DecimalString.NilZero.string_of_uint (Nat.to_uint n).

End PyStr.

(* ================================================================= *)
(** ** Python list primitives *)

Module PyList.

(** [l.append(x)] *)
Definition append {A : Type} (l : list A) (x : A) : list A := (l ++ [x])%list.

(** [l.extend(xs)] *)
Definition extend {A : Type} (l xs : list A) : list A := (l ++ xs)%list.

End PyList.

(* ================================================================= *)
(** ** List Builder *)

Module ListBuilder.

(** The second component of a list item: ['bullet'] or ['number']. *)
Inductive list_type : Type := bullet | number.

Definition list_type_eqb (a b : list_type) : bool :=
  match a, b with
  | bullet, bullet | number, number => true
  | _, _ => false
  end.

(** An item is the tuple [(level, list_type, text)]. *)
Definition item : Type := (Z * list_type * string)%type.

Definition item_level (it : item) : Z := fst (fst it).

(** ['ul' if current_list_type == 'bullet' else 'ol'] *)
Definition list_tag (t : list_type) : string :=
  match t with bullet => "ul" | number => "ol" end.

(** The closing line that both exits of the loop append:
    [if list_started and current_list_type: html_parts.append(f'</{tag}>')]. *)
Definition close_list (list_started : bool) (current_list_type : option list_type)
  : list string :=
  match list_started, current_list_type with
  | true, Some t => ["</" ++ list_tag t ++ ">"]
  | _, _ => []
  end.

(** The opening lines of the same-level branch. *)
Definition open_list (list_started : bool) (current_list_type : option list_type)
           (item_type : list_type) : list string :=
  if negb list_started then ["<" ++ list_tag item_type ++ ">"]
  else match current_list_type with
       | Some t =>
           if list_type_eqb t item_type then []
           else ["</" ++ list_tag t ++ ">"; "<" ++ list_tag item_type ++ ">"]
       | None => ["</ol>"; "<" ++ list_tag item_type ++ ">"]
       end.

(** ['\n'.join('    ' + line for line in nested_html.split('\n'))] *)
Definition indent_nested (nested_html : string) : string :=
  PyStr.join PyStr.nl
    (map (fun line => "    " ++ line) (PyStr.split PyStr.newline nested_html)).

(** [_build_nested_list] and its [while] loop.  The loop state is
    [html_parts], [i], [current_list_type] and [list_started].  This is
    the value of a call that the interpreter does not cut short: the
    recursion limit is counted in [_build_nested_list_within] below, which
    gives the same value whenever it returns one. *)
Fixpoint _build_nested_list (fuel : nat) (items : list item)
         (start_index : nat) (current_level : Z) {struct fuel}
  : option (string * nat) :=
  match fuel with
  | O => None
  | S fuel' =>
      if Nat.leb (length items) start_index then Some (EmptyString, start_index)
      else build_while fuel' items current_level [] start_index None false
  end
with build_while (fuel : nat) (items : list item) (current_level : Z)
         (html_parts : list string) (i : nat)
         (current_list_type : option list_type) (list_started : bool)
         {struct fuel} : option (string * nat) :=
  match fuel with
  | O => None
  | S fuel' =>
      match nth_error items i with
      | None =>
          Some (PyStr.join PyStr.nl
                  (PyList.extend html_parts (close_list list_started current_list_type)), i)
      | Some (level, item_type, text) =>
          if (level <? current_level)%Z then
            Some (PyStr.join PyStr.nl
                    (PyList.extend html_parts (close_list list_started current_list_type)), i)
          else if (level =? current_level)%Z then
            let parts1 :=
              PyList.extend html_parts (open_list list_started current_list_type item_type) in
            let nested :=
              match nth_error items (i + 1) with
              | Some next => if (item_level next >? level)%Z
                             then Some (item_level next) else None
              | None => None
              end in
            match nested with
            | Some next_level =>
                match _build_nested_list fuel' items (i + 1) next_level with
                | None => None
                | Some (nested_html, next_i) =>
                    build_while fuel' items current_level
                      (PyList.append
                         (PyList.append
                            (PyList.append parts1 ("  <li>" ++ text))
                            (indent_nested nested_html))
                         "  </li>")
                      next_i (Some item_type) true
                end
            | None =>
                build_while fuel' items current_level
                  (PyList.append parts1 ("  <li>" ++ text ++ "</li>"))
                  (i + 1) (Some item_type) true
            end
          else
            Some (PyStr.join PyStr.nl
                    (PyList.extend html_parts (close_list list_started current_list_type)), i)
      end
  end.

(** [min(item[0] for item in items)] on a non-empty list. *)
Definition min_level (first : item) (others : list item) : Z :=
  fold_left (fun m it => Z.min m (item_level it)) others (item_level first).

(** Fuel that always suffices for a buffer of the given length. *)
Definition build_fuel (items : list item) : nat := 2 * length items + 3.

(** [_create_list_html]; the [list_type] argument is unused by the code.
    The recursion is run with [build_fuel items], which never runs out. *)
Definition _create_list_html (items : list item) (list_type_arg : option list_type)
  : string :=
  match items with
  | [] => EmptyString
  | first :: others =>
      match _build_nested_list (build_fuel items) items 0 (min_level first others) with
      | Some (html, _) => html
      | None => EmptyString
      end
  end.

(** What a call gives back under the recursion limit of the interpreter: a
    value, or the [RecursionError] raised when a call finds no frame left. *)
Inductive outcome (A : Type) : Type :=
| Returned (value : A)
| RecursionError.

Arguments Returned {A} value.
Arguments RecursionError {A}.

(** [_build_nested_list] with the frames counted.  [frames] is the number
    of nested calls of [_build_nested_list] that the interpreter can still
    enter: a call with no frame left raises [RecursionError], the call of
    line 273 runs with one frame less, and an exception raised by it ends
    the calling frame as well.  Nothing else in the body enters a frame
    beyond the one of that call: the generator of line 275 runs after the
    nested call has returned, one frame above the current one. *)
Fixpoint _build_nested_list_within (frames fuel : nat) (items : list item)
         (start_index : nat) (current_level : Z) {struct fuel}
  : option (outcome (string * nat)) :=
  match fuel with
  | O => None
  | S fuel' =>
      match frames with
      | O => Some RecursionError
      | S frames' =>
          if Nat.leb (length items) start_index
          then Some (Returned (EmptyString, start_index))
          else build_while_within frames' fuel' items current_level [] start_index
                 None false
      end
  end
with build_while_within (frames fuel : nat) (items : list item) (current_level : Z)
         (html_parts : list string) (i : nat)
         (current_list_type : option list_type) (list_started : bool)
         {struct fuel} : option (outcome (string * nat)) :=
  match fuel with
  | O => None
  | S fuel' =>
      match nth_error items i with
      | None =>
          Some (Returned
                  (PyStr.join PyStr.nl
                     (PyList.extend html_parts
                        (close_list list_started current_list_type)), i))
      | Some (level, item_type, text) =>
          if (level <? current_level)%Z then
            Some (Returned
                    (PyStr.join PyStr.nl
                       (PyList.extend html_parts
                          (close_list list_started current_list_type)), i))
          else if (level =? current_level)%Z then
            let parts1 :=
              PyList.extend html_parts (open_list list_started current_list_type item_type) in
            let nested :=
              match nth_error items (i + 1) with
              | Some next => if (item_level next >? level)%Z
                             then Some (item_level next) else None
              | None => None
              end in
            match nested with
            | Some next_level =>
                match _build_nested_list_within frames fuel' items (i + 1) next_level with
                | None => None
                | Some RecursionError => Some RecursionError
                | Some (Returned (nested_html, next_i)) =>
                    build_while_within frames fuel' items current_level
                      (PyList.append
                         (PyList.append
                            (PyList.append parts1 ("  <li>" ++ text))
                            (indent_nested nested_html))
                         "  </li>")
                      next_i (Some item_type) true
                end
            | None =>
                build_while_within frames fuel' items current_level
                  (PyList.append parts1 ("  <li>" ++ text ++ "</li>"))
                  (i + 1) (Some item_type) true
            end
          else
            Some (Returned
                    (PyStr.join PyStr.nl
                       (PyList.extend html_parts
                          (close_list list_started current_list_type)), i))
      end
  end.

(** [_create_list_html] with the frames counted: [frames] is the number of
    calls of [_build_nested_list] that can still be entered at line 219. *)
Definition _create_list_html_within (frames : nat) (items : list item)
           (list_type_arg : option list_type) : outcome string :=
  match items with
  | [] => Returned EmptyString
  | first :: others =>
      match _build_nested_list_within frames (build_fuel items) items 0
              (min_level first others) with
      | Some (Returned (html, _)) => Returned html
      | Some RecursionError => RecursionError
      | None => Returned EmptyString
      end
  end.

End ListBuilder.



(* ================================================================= *)
(** ** The decoded document *)

Module Docx.

(** A [w:r] element as the extractor sees it.  [elem_id] stands for the
    identity of the lxml element, which is what [in] compares.
    [fldCharType] is [None] when the run has no [w:fldChar] descendant and
    otherwise the attribute of the first one (empty when the attribute is
    absent).  [instrText] is the text of the first [w:instrText]
    descendant, [None] when there is none (an element without text counts
    as the empty text: the code only tests it for truth).  [t_texts] are
    the texts of the [w:t] descendants, in document order. *)
Record RunElem : Type := {
  elem_id : nat;
  fldCharType : option string;
  instrText : option string;
  t_texts : list string
}.

(** A python-docx [Run]: [bold], [italic] and [underline] are tri-state. *)
Record Run : Type := {
  _element : RunElem;
  text : string;
  bold : option bool;
  italic : option bool;
  underline : option bool
}.

(** A [w:hyperlink] element: the [r:id] and [w:anchor] attributes, the
    [w:r] descendants and [hyperlink.text].  python-docx (1.x) computes
    this text as the joined text of the runs that are children of the
    element, so it is the empty text for an element without runs; the
    record does not tie the two fields together, and the properties that
    depend on it say so. *)
Record HyperlinkElem : Type := {
  r_id : option string;
  anchor : option string;
  h_runs : list RunElem;
  h_text : option string
}.

(** The numbering properties of a paragraph: [ilvl] is [None] when there
    is no [w:ilvl] element, [Some None] when it has no [w:val], and
    otherwise the decimal number the schema requires there.  A document
    whose [w:val] is not a number makes [int] raise ValueError at line 171;
    such a document has no counterpart here. *)
Record NumPr : Type := {
  ilvl : option (option Z);
  has_numId : bool
}.

(** A paragraph: [p_text] is [paragraph.text], [runs] is [paragraph.runs],
    [numPr] the [w:numPr] found under [w:pPr], [hyperlink_elements] and
    [all_runs] what [findall] returns for [w:hyperlink] and [w:r], and
    [rels] the relationship table of the part ([None]: the lookup
    raises). *)
Record Paragraph : Type := {
  style_name : string;
  p_text : string;
  runs : list Run;
  numPr : option NumPr;
  hyperlink_elements : list HyperlinkElem;
  all_runs : list RunElem;
  rels : string -> option string
}.

(** A table: rows of cell texts. *)
Definition Table : Type := list (list string).

(** An element of the document body. *)
Inductive Element : Type :=
| CT_P (p : Paragraph)
| CT_Tbl (t : Table)
| CT_Other.

End Docx.

(* ================================================================= *)
(** ** Hyperlink Extractor *)

Module HyperlinkExtractor.
Import Docx.

(** The tuple [(link_id, link_url, link_runs, link_text)]. *)
Definition span : Type := (string * string * list RunElem * string)%type.

Definition link_id (s : span) : string := fst (fst (fst s)).
Definition link_url (s : span) : string := snd (fst (fst s)).
Definition link_runs (s : span) : list RunElem := snd (fst s).
Definition link_text (s : span) : string := snd s.

(** [fld_char is not None and fld_char.get(fldCharType) == ty] *)
Definition is_fld (r : RunElem) (ty : string) : bool :=
  match fldCharType r with
  | Some t => String.eqb t ty
  | None => false
  end.

Definition quote : ascii := ascii_of_nat 34.

(** The longest prefix free of double quotes, and what follows it. *)
Fixpoint until_quote (s : string) : string * string :=
  match s with
  | EmptyString => (EmptyString, EmptyString)
  | String c rest =>
      if Ascii.eqb c quote then (EmptyString, s)
      else let '(g, after) := until_quote rest in (String c g, after)
  end.

(** The pattern of the field instruction tried at the start of [s]: the
    keyword HYPERLINK, one or more spaces, a double quote, one or more
    characters other than a double quote (group 1), a double quote.
    Both repetitions are forced: a space is not a quote, and the group
    must stop at the first quote. *)
Definition match_hyperlink_at (s : string) : option string :=
  if String.prefix "HYPERLINK" s then
    let after_kw := PyStr.drop 9 s in
    let after_ws := PyStr.lstrip after_kw in
    if String.eqb after_ws after_kw then None
    else match after_ws with
         | String c rest =>
             if Ascii.eqb c quote then
               match until_quote rest with
               | (String g0 g, String _ _) => Some (String g0 g)
               | _ => None
               end
             else None
         | EmptyString => None
         end
  else None.

(** [re.search] with that pattern: group 1 of the leftmost match. *)
Fixpoint search_hyperlink (s : string) : option string :=
  match match_hyperlink_at s with
  | Some url => Some url
  | None =>
      match s with
      | EmptyString => None
      | String _ rest => search_hyperlink rest
      end
  end.

(** What the first inner loop finds in one run: [Some url] when the run
    carries an instruction starting with [HYPERLINK] ([url] is [None] when
    the pattern does not match), [None] otherwise. *)
Definition hyperlink_instruction (instr_run : RunElem) : option (option string) :=
  match instrText instr_run with
  | Some t =>
      if PyStr.nonempty t then
        let instr_text := PyStr.strip t in
        if PyStr.startswith instr_text "HYPERLINK"
        then Some (search_hyperlink instr_text)
        else None
      else None
  | None => None
  end.

(** First inner loop, on the runs from index [j] on: look for the
    [HYPERLINK] instruction; returns [url] and the [j] it stopped at. *)
Fixpoint scan_instruction (rs : list RunElem) (j : nat) : option string * nat :=
  match rs with
  | [] => (None, j)
  | instr_run :: rest =>
      match hyperlink_instruction instr_run with
      | Some url => (url, j)
      | None =>
          if is_fld instr_run "separate" || is_fld instr_run "end" then (None, j)
          else scan_instruction rest (S j)
      end
  end.

(** Second inner loop: move [j] just past the next 'separate' marker. *)
Fixpoint skip_to_separate (rs : list RunElem) (j : nat) : nat :=
  match rs with
  | [] => j
  | sep_run :: rest =>
      if is_fld sep_run "separate" then S j else skip_to_separate rest (S j)
  end.

(** Third inner loop: collect runs up to the 'end' marker. *)
Fixpoint collect_link_runs (rs : list RunElem) (j : nat) : list RunElem * nat :=
  match rs with
  | [] => ([], j)
  | text_run :: rest =>
      if is_fld text_run "end" then ([], j)
      else let '(link_runs, j') := collect_link_runs rest (S j) in
           (text_run :: link_runs, j')
  end.

(** [''.join([t.text for t in t_elems if t.text])] over all link runs. *)
Definition field_link_text (link_runs : list RunElem) : string :=
  String.concat EmptyString (map (fun r => String.concat EmptyString (t_texts r)) link_runs).

(** The outer [while i < len(all_runs)] loop of
    [_extract_field_hyperlinks]. *)
Fixpoint field_loop (fuel : nat) (all_runs : list RunElem) (i field_idx : nat)
         (hyperlinks : list span) {struct fuel} : option (list span) :=
  match fuel with
  | O => None
  | S fuel' =>
      match nth_error all_runs i with
      | None => Some hyperlinks
      | Some run =>
          if is_fld run "begin" then
            let '(url, j) := scan_instruction (skipn (i + 1) all_runs) (i + 1) in
            match url with
            | Some url =>
                let j := skip_to_separate (skipn j all_runs) j in
                let '(link_runs, j) := collect_link_runs (skipn j all_runs) j in
                match link_runs with
                | [] => field_loop fuel' all_runs (j + 1) field_idx hyperlinks
                | _ :: _ =>
                    field_loop fuel' all_runs (j + 1) (field_idx + 1)
                      (PyList.append hyperlinks
                         ("field_" ++ PyStr.of_nat field_idx, url, link_runs,
                          field_link_text link_runs))
                end
            | None => field_loop fuel' all_runs (i + 1) field_idx hyperlinks
            end
          else field_loop fuel' all_runs (i + 1) field_idx hyperlinks
      end
  end.

(** [_extract_field_hyperlinks]: [i] grows in every iteration, so
    [length all_runs + 1] iterations always reach the end. *)
Definition _extract_field_hyperlinks (p : Paragraph) : list span :=
  match field_loop (S (length (all_runs p))) (all_runs p) 0 0 [] with
  | Some hyperlinks => hyperlinks
  | None => []
  end.

(** Truthiness of an optional string: [if x:]. *)
Definition truthy (x : option string) : bool :=
  match x with Some s => PyStr.nonempty s | None => false end.

(** One iteration of the loop over the hyperlink elements. *)
Definition explicit_span (rels : string -> option string)
           (idx : nat) (hyperlink : HyperlinkElem) : list span :=
  let url := if truthy (r_id hyperlink)
             then match r_id hyperlink with
                  | Some rid => rels rid
                  | None => None
                  end
             else None in
  let url := if negb (truthy url) && truthy (anchor hyperlink)
             then match anchor hyperlink with
                  | Some a => Some ("#" ++ a)
                  | None => url
                  end
             else url in
  match url with
  | Some u =>
      if PyStr.nonempty u then
        let name := if truthy (r_id hyperlink)
                    then match r_id hyperlink with Some r => r | None => "None" end
                    else match anchor hyperlink with Some a => a | None => "None" end in
        [(name ++ "_" ++ PyStr.of_nat idx, u, h_runs hyperlink,
          if truthy (h_text hyperlink)
          then match h_text hyperlink with Some t => t | None => EmptyString end
          else EmptyString)]
      else []
  | None => []
  end.

Fixpoint explicit_spans (rels : string -> option string) (idx : nat)
         (hs : list HyperlinkElem) : list span :=
  match hs with
  | [] => []
  | h :: rest => (explicit_span rels idx h ++ explicit_spans rels (S idx) rest)%list
  end.

(** [_extract_hyperlinks]: explicit wrappers first, field codes second. *)
Definition _extract_hyperlinks (p : Paragraph) : list span :=
  (explicit_spans (rels p) 0 (hyperlink_elements p)
   ++ _extract_field_hyperlinks p)%list.

End HyperlinkExtractor.

(* ================================================================= *)
(** ** Run Consolidator *)

Module RunConsolidator.
Import Docx HyperlinkExtractor.

(** A one-character string holding a double quote. *)
Definition dq : string := String quote EmptyString.

(** [_escape_html]: the five replacements, in the order of the dict. *)
Definition escape_table : list (string * string) :=
  [("&", "&amp;"); ("<", "&lt;"); (">", "&gt;"); (dq, "&quot;"); ("'", "&#39;")].

Definition _escape_html (text : string) : string :=
  fold_left (fun t ce => PyStr.replace t (fst ce) (snd ce)) escape_table text.

(** [_format_link] *)
Definition _format_link (url text : string) : string :=
  "<a href=" ++ dq ++ url ++ dq ++ ">" ++ text ++ "</a>".

(** [bool(x)] for a tri-state flag. *)
Definition py_bool (x : option bool) : bool :=
  match x with Some b => b | None => false end.

(** The tuple [(link_id, link_url, link_text)] kept in [run_hyperlink]
    and [current_hyperlink]. *)
Definition link : Type := (string * string * string)%type.

Definition link_eqb (a b : link) : bool :=
  let '(i1, u1, t1) := a in
  let '(i2, u2, t2) := b in
  String.eqb i1 i2 && String.eqb u1 u2 && String.eqb t1 t2.

Definition opt_link_eqb (a b : option link) : bool :=
  match a, b with
  | Some x, Some y => link_eqb x y
  | None, None => true
  | _, _ => false
  end.

Definition is_some {A : Type} (x : option A) : bool :=
  match x with Some _ => true | None => false end.

(** [current_group['k'] == v] for a flag that starts as [None]. *)
Definition flag_eqb (g : option bool) (v : bool) : bool :=
  match g with Some b => Bool.eqb b v | None => false end.

(** The dict [current_group]. *)
Record group : Type := {
  g_text : list string;
  g_bold : option bool;
  g_italic : option bool;
  g_underline : option bool;
  g_hyperlink : option link
}.

(** The variables the walk over the runs mutates. *)
Record walk_state : Type := {
  result : list string;
  current_hyperlink : option link;
  hyperlink_text : list string;
  processed_hyperlinks : list string;
  current_group : group
}.

Definition initial_state : walk_state :=
  {| result := [];
     current_hyperlink := None;
     hyperlink_text := [];
     processed_hyperlinks := [];
     current_group :=
       {| g_text := []; g_bold := None; g_italic := None;
          g_underline := None; g_hyperlink := None |} |}.

(** The tags of [flush_group], innermost first: u, em, strong. *)
Definition format_group (g : group) : string :=
  let combined_text := String.concat EmptyString (g_text g) in
  let formatted_text := combined_text in
  let formatted_text :=
    if py_bool (g_underline g) then "<u>" ++ formatted_text ++ "</u>"
    else formatted_text in
  let formatted_text :=
    if py_bool (g_italic g) then "<em>" ++ formatted_text ++ "</em>"
    else formatted_text in
  if py_bool (g_bold g) then "<strong>" ++ formatted_text ++ "</strong>"
  else formatted_text.

(** The closure [flush_group]. *)
Definition flush_group (st : walk_state) : walk_state :=
  let g := current_group st in
  match g_text g with
  | [] => st
  | _ :: _ =>
      let formatted_text := format_group g in
      let g' := {| g_text := []; g_bold := g_bold g; g_italic := g_italic g;
                   g_underline := g_underline g; g_hyperlink := g_hyperlink g |} in
      if is_some (g_hyperlink g) then
        {| result := result st;
           current_hyperlink := current_hyperlink st;
           hyperlink_text := PyList.append (hyperlink_text st) formatted_text;
           processed_hyperlinks := processed_hyperlinks st;
           current_group := g' |}
      else
        {| result := PyList.append (result st) formatted_text;
           current_hyperlink := current_hyperlink st;
           hyperlink_text := hyperlink_text st;
           processed_hyperlinks := processed_hyperlinks st;
           current_group := g' |}
  end.

(** The anchor that closes [current_hyperlink]: the accumulated inner
    text when the list [hyperlink_text] is not empty, else the fallback
    text, else the URL. *)
Definition closing_anchor (cur : link) (hyperlink_text : list string) : string :=
  let '(_, url, fallback) := cur in
  match hyperlink_text with
  | _ :: _ => _format_link url (String.concat EmptyString hyperlink_text)
  | [] => _format_link url (if PyStr.nonempty fallback then fallback else url)
  end.

(** The block that closes the open hyperlink (it occurs three times). *)
Definition close_hyperlink (st : walk_state) : walk_state :=
  match current_hyperlink st with
  | Some cur =>
      {| result := PyList.append (result st) (closing_anchor cur (hyperlink_text st));
         current_hyperlink := current_hyperlink st;
         hyperlink_text := [];
         processed_hyperlinks := processed_hyperlinks st;
         current_group := current_group st |}
  | None => st
  end.

Definition set_current_hyperlink (st : walk_state) (h : option link) : walk_state :=
  {| result := result st;
     current_hyperlink := h;
     hyperlink_text := hyperlink_text st;
     processed_hyperlinks := processed_hyperlinks st;
     current_group := current_group st |}.

Definition set_group (st : walk_state) (g : group) : walk_state :=
  {| result := result st;
     current_hyperlink := current_hyperlink st;
     hyperlink_text := hyperlink_text st;
     processed_hyperlinks := processed_hyperlinks st;
     current_group := g |}.

Definition mark_processed (st : walk_state) (h : option link) : walk_state :=
  match h with
  | Some (id, _, _) =>
      {| result := result st;
         current_hyperlink := current_hyperlink st;
         hyperlink_text := hyperlink_text st;
         processed_hyperlinks := id :: processed_hyperlinks st;
         current_group := current_group st |}
  | None => st
  end.

(** [run._element in link_runs] *)
Definition elem_in (e : RunElem) (link_runs : list RunElem) : bool :=
  existsb (fun r => Nat.eqb (elem_id r) (elem_id e)) link_runs.

(** The first span that has the run among its members. *)
Definition owning_link (hyperlinks : list span) (e : RunElem) : option link :=
  match find (fun s => elem_in e (link_runs s)) hyperlinks with
  | Some s => Some (link_id s, link_url s, link_text s)
  | None => None
  end.

(** The first part of the loop body: a hyperlink starts, changes or
    ends.  The open group is flushed and the open hyperlink closed. *)
Definition switch_hyperlink (st : walk_state) (run_hyperlink : option link)
  : walk_state :=
  if is_some run_hyperlink
     && negb (opt_link_eqb run_hyperlink (current_hyperlink st))
  then
    let st := flush_group st in
    let st := close_hyperlink st in
    set_current_hyperlink st run_hyperlink
  else if negb (is_some run_hyperlink) && is_some (current_hyperlink st)
  then
    let st := flush_group st in
    let st := close_hyperlink st in
    set_current_hyperlink st None
  else st.

(** The last part of the loop body: compare the signature of the run with
    the one of the open group, flush on a difference, adopt the signature
    when the group is empty, append the text. *)
Definition add_to_group (st : walk_state) (run_bold run_italic run_underline : bool)
           (run_hyperlink : option link) (escaped_text : string) : walk_state :=
  let g := current_group st in
  let formatting_matches :=
    flag_eqb (g_bold g) run_bold
    && flag_eqb (g_italic g) run_italic
    && flag_eqb (g_underline g) run_underline
    && opt_link_eqb (g_hyperlink g) run_hyperlink in
  let st :=
    match g_text g with
    | _ :: _ => if negb formatting_matches then flush_group st else st
    | [] => st
    end in
  let g := current_group st in
  let g :=
    match g_text g with
    | [] => {| g_text := []; g_bold := Some run_bold; g_italic := Some run_italic;
               g_underline := Some run_underline; g_hyperlink := run_hyperlink |}
    | _ :: _ => g
    end in
  set_group st
    {| g_text := PyList.append (g_text g) escaped_text;
       g_bold := g_bold g; g_italic := g_italic g;
       g_underline := g_underline g; g_hyperlink := g_hyperlink g |}.

(** The body of [for run in paragraph.runs]. *)
Definition walk_run (hyperlinks : list span) (st : walk_state) (run : Run)
  : walk_state :=
  let text := text run in
  let run_hyperlink := owning_link hyperlinks (_element run) in
  let st := mark_processed st run_hyperlink in
  if negb (PyStr.nonempty text) && negb (is_some run_hyperlink) then st
  else
    let st := switch_hyperlink st run_hyperlink in
    let escaped_text :=
      if negb (PyStr.nonempty text) && is_some run_hyperlink then EmptyString
      else _escape_html text in
    let run_bold := py_bool (bold run) in
    let run_italic := py_bool (italic run) in
    let run_underline := py_bool (underline run) && negb (is_some run_hyperlink) in
    add_to_group st run_bold run_italic run_underline run_hyperlink escaped_text.

(** [link_id not in processed_hyperlinks] *)
Definition processed (ids : list string) (id : string) : bool :=
  existsb (String.eqb id) ids.

(** The final loop: the spans the walk never met, in extraction order. *)
Fixpoint unprocessed_links (ids : list string) (hyperlinks : list span)
  : list string :=
  match hyperlinks with
  | [] => []
  | s :: rest =>
      if negb (processed ids (link_id s)) && PyStr.nonempty (link_text s)
      then " " :: _format_link (link_url s) (link_text s)
               :: unprocessed_links ids rest
      else unprocessed_links ids rest
  end.

(** The state after the loop over the runs, the last flush and the
    closing of a hyperlink that is still open. *)
Definition walk (hyperlinks : list span) (rs : list Run) : walk_state :=
  close_hyperlink (flush_group (fold_left (walk_run hyperlinks) rs initial_state)).

(** [_process_runs] after the extraction of the hyperlinks. *)
Definition process_runs_with (hyperlinks : list span) (rs : list Run) : string :=
  let st := walk hyperlinks rs in
  String.concat EmptyString
    (PyList.extend (result st)
       (unprocessed_links (processed_hyperlinks st) hyperlinks)).

(** [_process_runs] *)
Definition _process_runs (p : Paragraph) : string :=
  process_runs_with (_extract_hyperlinks p) (runs p).

End RunConsolidator.


(* ================================================================= *)
(** ** Configuration *)

Module Config.

(** Every option may be absent: the code reads it with [.get(key, default)]. *)
Record Output : Type := {
  heading_tag : option string;
  paragraph_tag : option string
}.

Record QuoteDetection : Type := {
  enabled : option bool;
  threshold : option Z;
  wrap_tag : option string;
  quote_types : option (list string)
}.

Record Replacement : Type := {
  search : option string;
  replace : option string;
  case_sensitive : option bool
}.

Record CharConfig : Type := {
  char_enabled : option bool;
  character : option string;
  char_wrap_tag : option string
}.

(** An entry of the legacy dict form of [special_characters]. *)
Record LegacyChar : Type := {
  legacy_enabled : option bool;
  legacy_wrap_tag : option string
}.

Inductive SpecialCharacters : Type :=
| LegacyDict (copyright_symbol registered_symbol : option LegacyChar)
| ModernList (configs : list CharConfig)
| NeitherDictNorList.

Record t : Type := {
  output : Output;
  special_characters : SpecialCharacters;
  replacements : list Replacement;
  quote_detection : QuoteDetection
}.

(** [d.get(key, default)] *)
Definition get {A : Type} (x : option A) (default : A) : A :=
  match x with Some a => a | None => default end.

End Config.

(* ================================================================= *)
(** ** Block Dispatcher, Table Renderer and Post-pass Transformer *)

Module Converter.
Import Docx HyperlinkExtractor RunConsolidator ListBuilder.

(** The default of [quote_types] as the source has it: the double quote
    three times and the apostrophe twice. *)
Definition default_quote_types : list string := [dq; dq; dq; "'"; "'"].

(** [_count_quotes]: [sum(text.count(qt) for qt in quote_types)] *)
Definition _count_quotes (cfg : Config.t) (text : string) : nat :=
  let quote_types :=
    Config.get (Config.quote_types (Config.quote_detection cfg))
               default_quote_types in
  list_sum (map (PyStr.count text) quote_types).

(** The first word of a string that starts with a non-space:
    [wrap_tag.split(None, 1)[0]]. *)
Fixpoint first_word (s : string) : string :=
  match s with
  | EmptyString => EmptyString
  | String c rest =>
      match PyStr.leading_space s with
      | Some _ => EmptyString
      | None => String c (first_word rest)
      end
  end.

(** [_parse_wrap_tag] *)
Definition _parse_wrap_tag (wrap_tag : string) : string * string :=
  let wrap_tag := PyStr.strip wrap_tag in
  if PyStr.contains " " wrap_tag then
    let tag_name := first_word wrap_tag in
    ("<" ++ wrap_tag ++ ">", "</" ++ tag_name ++ ">")
  else
    ("<" ++ wrap_tag ++ ">", "</" ++ wrap_tag ++ ">").

(** [_convert_paragraph] *)
Definition _convert_paragraph (cfg : Config.t) (paragraph : Paragraph) : string :=
  let text := PyStr.strip (p_text paragraph) in
  if negb (PyStr.nonempty text) then EmptyString
  else if PyStr.startswith (style_name paragraph) "Heading" then
    let tag := Config.get (Config.heading_tag (Config.output cfg)) "h3" in
    "<" ++ tag ++ ">" ++ _escape_html text ++ "</" ++ tag ++ ">"
  else
    let tag := Config.get (Config.paragraph_tag (Config.output cfg)) "p" in
    let html_text := _process_runs paragraph in
    let qd := Config.quote_detection cfg in
    if Config.get (Config.enabled qd) false
       && (Z.of_nat (_count_quotes cfg text) >=? Config.get (Config.threshold qd) 3)%Z
    then
      let wrap_tag := Config.get (Config.wrap_tag qd) "blockquote" in
      let '(opening_tag, closing_tag) := _parse_wrap_tag wrap_tag in
      opening_tag ++ "<" ++ tag ++ ">" ++ html_text ++ "</" ++ tag ++ ">" ++ closing_tag
    else
      "<" ++ tag ++ ">" ++ html_text ++ "</" ++ tag ++ ">".

(** [int(s)] for a string of decimal digits, of any script.  The limit
    that the interpreter sets on the number of digits [int] converts (4300
    unless configured otherwise) is not part of the embedding. *)
Definition int_of_digits (s : string) : Z :=
  fold_left
    (fun acc ch =>
       (10 * acc
        + Z.of_N (match PyStr.decimal_value ch with Some d => d | None => 0%N end))%Z)
    (PyStr.chars s) 0%Z.

(** The decimal digits a list of code points starts with. *)
Fixpoint take_digits (cs : list string) : list string :=
  match cs with
  | ch :: rest => if PyStr.is_decimal ch then ch :: take_digits rest else []
  | [] => []
  end.

(** [re.search(r'\d+$', name)]: the decimal digits, of any script, that
    end the name, where the end is also found before one final newline. *)
Definition trailing_digits (name : string) : option string :=
  let reversed := List.rev (PyStr.chars name) in
  let reversed :=
    match reversed with
    | ch :: rest => if String.eqb ch PyStr.nl then rest else reversed
    | [] => reversed
    end in
  match take_digits reversed with
  | [] => None
  | digits => Some (String.concat EmptyString (List.rev digits))
  end.

(** The level the style name gives: its trailing number minus one. *)
Definition style_level (name : string) : Z :=
  match trailing_digits name with
  | Some digits => (int_of_digits digits - 1)%Z
  | None => 0%Z
  end.

(** [_get_list_info]: [(list_type, level, text)] or [None]. *)
Definition _get_list_info (paragraph : Paragraph)
  : option (list_type * Z * string) :=
  let by_numbering :=
    match numPr paragraph with
    | Some np =>
        if has_numId np then
          let text := _process_runs paragraph in
          let level :=
            match ilvl np with
            | Some val => Config.get val 0%Z
            | None => 0%Z
            end in
          Some (bullet, level, text)
        else None
    | None => None
    end in
  match by_numbering with
  | Some info => Some info
  | None =>
      let name := style_name paragraph in
      let lowered := PyStr.lower name in
      if PyStr.contains "list bullet" lowered || PyStr.startswith name "List Bullet"
      then Some (bullet, style_level name, _process_runs paragraph)
      else if PyStr.contains "list number" lowered
              || PyStr.startswith name "List Number"
      then Some (number, style_level name, _process_runs paragraph)
      else None
  end.

(** One row of [_convert_table]: a [tr] line, a line per cell, a closing
    line. *)
Definition table_cell (cell_tag cell_text : string) : string :=
  "      <" ++ cell_tag ++ ">" ++ _escape_html (PyStr.strip cell_text)
  ++ "</" ++ cell_tag ++ ">".

Definition table_row (cell_tag : string) (cells : list string) : list string :=
  "    <tr>" :: PyList.append (map (table_cell cell_tag) cells) "    </tr>".

(** [_convert_table] *)
Definition _convert_table (table : Table) : string :=
  match table with
  | [] => EmptyString
  | header_row :: body_rows =>
      let html_parts := ["<table>"] in
      let html_parts :=
        PyList.append
          (PyList.extend (PyList.append html_parts "  <thead>")
                         (table_row "th" header_row))
          "  </thead>" in
      let html_parts :=
        match body_rows with
        | [] => html_parts
        | _ :: _ =>
            PyList.append
              (PyList.extend (PyList.append html_parts "  <tbody>")
                             (flat_map (table_row "td") body_rows))
              "  </tbody>"
        end in
      PyStr.join PyStr.nl (PyList.append html_parts "</table>")
  end.

(** The variables of the loop of [convert_docx_to_html]. *)
Record dispatch_state : Type := {
  html_parts : list string;
  current_list_items : list item;
  current_list_type : option list_type
}.

Definition idle : dispatch_state :=
  {| html_parts := []; current_list_items := []; current_list_type := None |}.

(** [if current_list_items: html_parts.append(_create_list_html(...))],
    followed by the reset of the buffer. *)
Definition close_open_list (st : dispatch_state) : dispatch_state :=
  match current_list_items st with
  | [] => st
  | _ :: _ =>
      {| html_parts :=
           PyList.append (html_parts st)
             (_create_list_html (current_list_items st) (current_list_type st));
         current_list_items := [];
         current_list_type := None |}
  end.

(** [if html: html_parts.append(html)] *)
Definition emit (st : dispatch_state) (html : string) : dispatch_state :=
  if PyStr.nonempty html then
    {| html_parts := PyList.append (html_parts st) html;
       current_list_items := current_list_items st;
       current_list_type := current_list_type st |}
  else st.

(** The body of [for element in doc.element.body]. *)
Definition dispatch (cfg : Config.t) (st : dispatch_state) (element : Element)
  : dispatch_state :=
  match element with
  | CT_P paragraph =>
      match _get_list_info paragraph with
      | Some (list_type, level, list_text) =>
          {| html_parts := html_parts st;
             current_list_items :=
               PyList.append (current_list_items st) (level, list_type, list_text);
             current_list_type :=
               match current_list_type st with
               | None => Some list_type
               | Some t => Some t
               end |}
      | None => emit (close_open_list st) (_convert_paragraph cfg paragraph)
      end
  | CT_Tbl table => emit (close_open_list st) (_convert_table table)
  | CT_Other => st
  end.

(** The fragments emitted for a document body, the last list closed. *)
Definition dispatch_all (cfg : Config.t) (body : list Element) : list string :=
  let st := fold_left (dispatch cfg) body idle in
  match current_list_items st with
  | [] => html_parts st
  | _ :: _ =>
      PyList.append (html_parts st)
        (_create_list_html (current_list_items st) (current_list_type st))
  end.

Section PostPass.

(** Python's [re] is outside the repository.  [re_sub ignorecase literal
    repl s] stands for
    [re.compile(re.escape(literal), flags).sub(repl, s)], where [repl]
    is a replacement template; [None] when [re] raises an error. *)
Variable re_sub : bool -> string -> string -> string -> option string.

(** The list form of [special_characters]. *)
Definition char_configs (sc : Config.SpecialCharacters) : list Config.CharConfig :=
  match sc with
  | Config.LegacyDict copyright_symbol registered_symbol =>
      let legacy (symbol : string) (entry : option Config.LegacyChar) :=
        match entry with
        | Some config =>
            if Config.get (Config.legacy_enabled config) true then
              [{| Config.char_enabled := Some true;
                  Config.character := Some symbol;
                  Config.char_wrap_tag :=
                    Some (Config.get (Config.legacy_wrap_tag config) "sup") |}]
            else []
        | None => []
        end in
      PyList.extend (legacy (PyStr.of_bytes [194; 169]) copyright_symbol)
                    (legacy (PyStr.of_bytes [194; 174]) registered_symbol)
  | Config.ModernList configs => configs
  | Config.NeitherDictNorList => []
  end.

(** [_apply_special_characters] *)
Fixpoint apply_char_configs (configs : list Config.CharConfig) (html : string)
  : option string :=
  match configs with
  | [] => Some html
  | config :: rest =>
      if negb (Config.get (Config.char_enabled config) true)
      then apply_char_configs rest html
      else
        let character := Config.get (Config.character config) EmptyString in
        let wrap_tag := Config.get (Config.char_wrap_tag config) "sup" in
        if negb (PyStr.nonempty character) then apply_char_configs rest html
        else
          match re_sub false character
                  ("<" ++ wrap_tag ++ ">" ++ character ++ "</" ++ wrap_tag ++ ">")
                  html with
          | Some html => apply_char_configs rest html
          | None => None
          end
  end.

Definition _apply_special_characters (cfg : Config.t) (html : string)
  : option string :=
  apply_char_configs (char_configs (Config.special_characters cfg)) html.

(** One iteration of the loop of [_apply_replacements]. *)
Definition apply_replacement (replacement : Config.Replacement) (html : string)
  : option string :=
  let search := Config.get (Config.search replacement) EmptyString in
  let replace := Config.get (Config.replace replacement) EmptyString in
  let case_sensitive := Config.get (Config.case_sensitive replacement) true in
  if negb (PyStr.nonempty search) then Some html
  else if case_sensitive then Some (PyStr.replace html search replace)
  else re_sub true search replace html.

(** [_apply_replacements], the loop over a list of rules. *)
Fixpoint apply_replacements (rules : list Config.Replacement) (html : string)
  : option string :=
  match rules with
  | [] => Some html
  | replacement :: rest =>
      match apply_replacement replacement html with
      | Some html => apply_replacements rest html
      | None => None
      end
  end.

Definition _apply_replacements (cfg : Config.t) (html : string) : option string :=
  apply_replacements (Config.replacements cfg) html.

(** [convert_docx_to_html] on the decoded body of the document: the value
    it returns when the loop over the body raises nothing.  [None] is an
    error raised by [re] in one of the two passes.  The loop itself can end
    in RecursionError, inside [_create_list_html]: see
    [_create_list_html_within]. *)
Definition convert_docx_to_html (cfg : Config.t) (body : list Element)
  : option string :=
  let full_html := PyStr.join PyStr.nl (dispatch_all cfg body) in
  match _apply_special_characters cfg full_html with
  | Some full_html => _apply_replacements cfg full_html
  | None => None
  end.

End PostPass.

End Converter.


(* ================================================================= *)
(** ** Markup notions of the specification *)

Module Markup.

(** The text without the layout the builders add: spaces and newlines. *)
Fixpoint without_layout (s : string) : string :=
  match s with
  | EmptyString => EmptyString
  | String c rest =>
      if Ascii.eqb c " "%char || Ascii.eqb c PyStr.newline
      then without_layout rest
      else String c (without_layout rest)
  end.

(** The formatting tags the run consolidator writes. *)
Inductive tag : Type := strong | em | u | a.

Definition tag_eqb (x y : tag) : bool :=
  match x, y with
  | strong, strong | em, em | u, u | a, a => true
  | _, _ => false
  end.

(** What stands between an opening and a closing angle bracket: an opening
    tag ([true]) or a closing tag ([false]) of one of the four kinds, or
    something else. *)
Definition classify (content : string) : option (bool * tag) :=
  if String.eqb content "strong" then Some (true, strong)
  else if String.eqb content "/strong" then Some (false, strong)
  else if String.eqb content "em" then Some (true, em)
  else if String.eqb content "/em" then Some (false, em)
  else if String.eqb content "u" then Some (true, u)
  else if String.eqb content "/u" then Some (false, u)
  else if String.eqb content "a" || String.prefix "a " content then Some (true, a)
  else if String.eqb content "/a" then Some (false, a)
  else None.

(** The stack of open tags after one more tag; [None] when a closing tag
    does not match the innermost open tag. *)
Definition after_tag (content : string) (stack : list tag) : option (list tag) :=
  match classify content with
  | None => Some stack
  | Some (true, t) => Some (t :: stack)
  | Some (false, t) =>
      match stack with
      | t' :: rest => if tag_eqb t t' then Some rest else None
      | [] => None
      end
  end.

(** Read a text from left to right.  [pending] holds, reversed, what was
    read since the last opening angle bracket; the result is the stack of
    tags still open at the end, [None] after a mismatch. *)
Fixpoint scan (s : string) (pending : option string) (stack : list tag)
  : option (list tag) :=
  match s with
  | EmptyString => Some stack
  | String c rest =>
      if Ascii.eqb c "<"%char then scan rest (Some EmptyString) stack
      else
        match pending with
        | None => scan rest None stack
        | Some content =>
            if Ascii.eqb c ">"%char then
              match after_tag (PyStr.rev content) stack with
              | Some stack' => scan rest None stack'
              | None => None
              end
            else scan rest (Some (String c content)) stack
        end
  end.

(** Every formatting tag that is opened is closed, properly nested. *)
Definition well_nested (s : string) : bool :=
  match scan s None [] with
  | Some [] => true
  | _ => false
  end.

End Markup.

(* ================================================================= *)
(** ** The wording of the specification, for comparison with the code *)

Module SpecWords.
Import Docx HyperlinkExtractor.

(** A run that carries a field instruction. *)
Definition is_instruction (r : RunElem) : bool :=
  match instrText r with Some t => PyStr.nonempty t | None => false end.

(** A run whose instruction gives a URL: the HYPERLINK match. *)
Definition is_hyperlink_match (r : RunElem) : bool :=
  match hyperlink_instruction r with Some (Some _) => true | _ => false end.

(** The specification's abort rule for the runs after a field-begin: an
    instruction or an end marker appears before any HYPERLINK match. *)
Fixpoint instruction_or_end_before_match (after_begin : list RunElem) : bool :=
  match after_begin with
  | [] => false
  | r :: rest =>
      if is_hyperlink_match r then false
      else if is_instruction r || is_fld r "end" then true
      else instruction_or_end_before_match rest
  end.

(** A body inside a tag pair when the flag is set, bare otherwise. *)
Definition tagged (on : bool) (tag body : string) : string :=
  if on then "<" ++ tag ++ ">" ++ body ++ "</" ++ tag ++ ">" else body.

(** One character in UTF-8: a lead byte followed by exactly the
    continuation bytes the lead byte announces. *)
Definition continuation_count (lead : ascii) : option nat :=
  let n := nat_of_ascii lead in
  if Nat.ltb n 128 then Some 0
  else if Nat.leb 192 n && Nat.ltb n 224 then Some 1
  else if Nat.leb 224 n && Nat.ltb n 240 then Some 2
  else if Nat.leb 240 n && Nat.ltb n 248 then Some 3
  else None.

Definition single_character (q : string) : bool :=
  match q with
  | EmptyString => false
  | String lead conts =>
      match continuation_count lead with
      | Some n =>
          Nat.eqb (String.length conts) n
          && forallb PyStr.is_continuation (list_ascii_of_string conts)
      | None => false
      end
  end.

(** The number of quote characters a text contains: the positions at which
    one of the quote characters stands. *)
Fixpoint quote_characters (quote_types : list string) (text : string) : nat :=
  match text with
  | EmptyString => 0
  | String _ rest =>
      (if existsb (fun q => String.prefix q text) quote_types then 1 else 0)
      + quote_characters quote_types rest
  end.

(** The positions of a text at which [q] starts. *)
Fixpoint occurrences (q text : string) : nat :=
  match text with
  | EmptyString => 0
  | String _ rest => (if String.prefix q text then 1 else 0) + occurrences q rest
  end.

(** The first [k] bytes of a text, as far as it has them, are continuation
    bytes. *)
Fixpoint continuation_prefix (k : nat) (text : string) : Prop :=
  match k, text with
  | S k', String c rest =>
      PyStr.is_continuation c = true /\ continuation_prefix k' rest
  | _, _ => True
  end.

End SpecWords.

(* ================================================================= *)
(** ** Example inputs *)

Module Examples.
Import Docx HyperlinkExtractor RunConsolidator ListBuilder.

Definition nested_example : list item :=
  [(0%Z, bullet, "A"); (1%Z, number, "B"); (1%Z, number, "C"); (0%Z, bullet, "D")].

(** A run element with a field character of the given type. *)
Definition marker (id : nat) (ty : string) : RunElem :=
  {| elem_id := id; fldCharType := Some ty; instrText := None; t_texts := [] |}.

(** A run element with a field instruction. *)
Definition instruction (id : nat) (code : string) : RunElem :=
  {| elem_id := id; fldCharType := None; instrText := Some code; t_texts := [] |}.

(** A run element with one text. *)
Definition text_elem (id : nat) (t : string) : RunElem :=
  {| elem_id := id; fldCharType := None; instrText := None; t_texts := [t] |}.

Definition no_rels : string -> option string := fun _ => None.

(** A paragraph that has only field-code runs, none of them listed in
    [paragraph.runs]. *)
Definition field_paragraph (elems : list RunElem) : Paragraph :=
  {| style_name := "Normal"; p_text := EmptyString; runs := []; numPr := None;
     hyperlink_elements := []; all_runs := elems; rels := no_rels |}.

Definition hyperlink_code (url : string) : string :=
  "HYPERLINK " ++ dq ++ url ++ dq.

(** A field whose first instruction run is not the HYPERLINK one. *)
Definition split_instruction_field : list RunElem :=
  [marker 0 "begin"; instruction 1 "PAGE"; instruction 2 (hyperlink_code "http://y");
   marker 3 "separate"; text_elem 4 "Go"; marker 5 "end"].

(** The field of the specification's example. *)
Definition go_field : list RunElem :=
  [marker 0 "begin"; instruction 1 (hyperlink_code "http://y");
   marker 2 "separate"; text_elem 3 "Go"; marker 4 "end"].

(** A run of [paragraph.runs] with the given text and bold flag. *)
Definition plain_run (id : nat) (t : string) (b : option bool) : Run :=
  {| _element := text_elem id t; text := t; bold := b; italic := None;
     underline := None |}.

(** The two bold runs of the specification's consolidation example. *)
Definition hello_world : Paragraph :=
  {| style_name := "Normal"; p_text := "Hello World";
     runs := [plain_run 0 "Hello " (Some true); plain_run 1 "World" (Some true)];
     numPr := None; hyperlink_elements := [];
     all_runs := [text_elem 0 "Hello "; text_elem 1 "World"]; rels := no_rels |}.

(** The relationships of a part with one hyperlink target. *)
Definition click_rels (rid : string) : option string :=
  if String.eqb rid "rId1" then Some "http://x" else None.

(** A configuration in which every option is absent. *)
Definition empty_config : Config.t :=
  {| Config.output := {| Config.heading_tag := None; Config.paragraph_tag := None |};
     Config.special_characters := Config.LegacyDict None None;
     Config.replacements := [];
     Config.quote_detection :=
       {| Config.enabled := None; Config.threshold := None;
          Config.wrap_tag := None; Config.quote_types := None |} |}.

(** A paragraph made of one run, without hyperlinks or fields. *)
Definition simple_paragraph (style : string) (t : string) (np : option NumPr)
  : Paragraph :=
  {| style_name := style; p_text := t; runs := [plain_run 0 t None];
     numPr := np; hyperlink_elements := []; all_runs := [text_elem 0 t];
     rels := no_rels |}.

(** A heading without numbering. *)
Definition plain_heading : Paragraph := simple_paragraph "Heading 1" " Q&A " None.

(** A heading that carries numbering properties, as numbered headings do. *)
Definition numbered_heading : Paragraph :=
  simple_paragraph "Heading 1" "Intro"
    (Some {| ilvl := Some (Some 0%Z); has_numId := true |}).

(** An item of a numbered list, encoded with numbering properties. *)
Definition numbered_item : Paragraph :=
  simple_paragraph "List Paragraph" "First"
    (Some {| ilvl := Some (Some 0%Z); has_numId := true |}).

(** A dispatcher state with one buffered list item. *)
Definition one_item_open : Converter.dispatch_state :=
  {| Converter.html_parts := ["<p>before</p>"];
     Converter.current_list_items := [(0%Z, bullet, "item")];
     Converter.current_list_type := Some bullet |}.

(** A case-sensitive search-replace rule. *)
Definition literal_rule (search replace : string) : Config.Replacement :=
  {| Config.search := Some search; Config.replace := Some replace;
     Config.case_sensitive := Some true |}.

(** The empty configuration with the given rules. *)
Definition config_with_rules (rules : list Config.Replacement) : Config.t :=
  {| Config.output := Config.output empty_config;
     Config.special_characters := Config.special_characters empty_config;
     Config.replacements := rules;
     Config.quote_detection := Config.quote_detection empty_config |}.

(** A stand-in for [re] that always raises; the case-sensitive path never
    calls it. *)
Definition re_raises : bool -> string -> string -> string -> option string :=
  fun _ _ _ _ => None.

(** Quote detection switched on, every other option absent. *)
Definition quotes_enabled : Config.t :=
  {| Config.output := Config.output empty_config;
     Config.special_characters := Config.special_characters empty_config;
     Config.replacements := [];
     Config.quote_detection :=
       {| Config.enabled := Some true; Config.threshold := None;
          Config.wrap_tag := None; Config.quote_types := None |} |}.

(** Quote detection switched on with the double quote and the apostrophe
    as quote types. *)
Definition quotes_configured : Config.t :=
  {| Config.output := Config.output empty_config;
     Config.special_characters := Config.special_characters empty_config;
     Config.replacements := [];
     Config.quote_detection :=
       {| Config.enabled := Some true; Config.threshold := None;
          Config.wrap_tag := None; Config.quote_types := Some [dq; "'"] |} |}.

(** A paragraph whose text is the word hi between two double quotes. *)
Definition quoted_hi : Paragraph :=
  simple_paragraph "Normal" (dq ++ "hi" ++ dq) None.

(** A hyperlink whose visible text is the three characters of a u tag.
    Its run is a child of the wrapper, so [paragraph.runs] does not list it,
    and the wrapper's text is that of its run. *)
Definition markup_link : Paragraph :=
  {| style_name := "Normal"; p_text := "<u>"; runs := []; numPr := None;
     hyperlink_elements :=
       [{| r_id := Some "rId1"; anchor := None; h_runs := [text_elem 0 "<u>"];
           h_text := Some "<u>" |}];
     all_runs := [text_elem 0 "<u>"]; rels := click_rels |}.

End Examples.

(* ================================================================= *)
(** ** Invariants used in the proofs *)

Module Invariants.
Import Docx HyperlinkExtractor RunConsolidator.

(** A run the first inner loop steps over: no HYPERLINK instruction, no
    'separate' marker, no 'end' marker. *)
Definition inert (r : RunElem) : Prop :=
  hyperlink_instruction r = None
  /\ is_fld r "separate" = false /\ is_fld r "end" = false.


(** The state of the walk while every run so far was outside all
    hyperlinks and had the flags [b], [i], [u]: nothing is emitted yet, and
    the open group holds the escaped non-empty texts. *)
Definition plain_inv (b i u : bool) (texts : list string) (st : walk_state) : Prop :=
  result st = [] /\ current_hyperlink st = None /\ hyperlink_text st = []
  /\ processed_hyperlinks st = []
  /\ g_text (current_group st) = map _escape_html texts
  /\ (texts <> [] ->
      g_bold (current_group st) = Some b /\ g_italic (current_group st) = Some i
      /\ g_underline (current_group st) = Some u
      /\ g_hyperlink (current_group st) = None).

(** [c] occurs in [s]. *)
Fixpoint has_char (c : ascii) (s : string) : bool :=
  match s with
  | EmptyString => false
  | String x rest => Ascii.eqb x c || has_char c rest
  end.

(** A text without an opening angle bracket. *)
Definition no_lt (s : string) : Prop := has_char "<"%char s = false.

(** The character that starts an escape in a replacement template of
    [re]. *)
Definition backslash : ascii := ascii_of_nat 92.

(** A text without angle brackets. *)
Definition no_brackets (s : string) : Prop :=
  has_char "<"%char s = false /\ has_char ">"%char s = false.

(** A fragment that, read outside a tag, leaves the stack of open tags as
    it found it and ends outside a tag. *)
Definition neutral (x : string) : Prop :=
  forall rest stack,
    Markup.scan (x ++ rest) None stack = Markup.scan rest None stack.

(** A span whose URL and fallback text carry no markup of their own. *)
Definition plain_span (s : span) : Prop :=
  no_brackets (link_url s) /\ no_lt (link_text s).

Definition plain_link (l : link) : Prop :=
  no_brackets (snd (fst l)) /\ no_lt (snd l).

(** What the walk maintains when every span is plain: the emitted
    fragments and the pieces of the open hyperlink are neutral, the texts of
    the open group have no opening angle bracket, and the open hyperlink is
    plain. *)
Definition nesting_inv (st : walk_state) : Prop :=
  Forall neutral (result st)
  /\ Forall neutral (hyperlink_text st)
  /\ Forall no_lt (g_text (current_group st))
  /\ (forall l, current_hyperlink st = Some l -> plain_link l).

End Invariants.

(* ================================================================= *)
(** ** Reference functions for the further properties *)

Module Reference.
Import Docx HyperlinkExtractor RunConsolidator ListBuilder.

(** The entity that stands for one character, or the character itself. *)
Definition escape_char (c : ascii) : string :=
  if Ascii.eqb c "&"%char then "&amp;"
  else if Ascii.eqb c "<"%char then "&lt;"
  else if Ascii.eqb c ">"%char then "&gt;"
  else if Ascii.eqb c quote then "&quot;"
  else if Ascii.eqb c "'"%char then "&#39;"
  else String c EmptyString.

(** Every character replaced at once by what [f] gives for it. *)
Fixpoint substitute (f : ascii -> string) (s : string) : string :=
  match s with
  | EmptyString => EmptyString
  | String c rest => f c ++ substitute f rest
  end.

(** One of the five characters that [_escape_html] replaces. *)
Definition is_special (c : ascii) : bool :=
  Ascii.eqb c "&"%char || Ascii.eqb c "<"%char || Ascii.eqb c ">"%char
  || Ascii.eqb c quote || Ascii.eqb c "'"%char.

(** A text holds one of the five characters. *)
Fixpoint has_special (s : string) : bool :=
  match s with
  | EmptyString => false
  | String c rest => is_special c || has_special rest
  end.

(** The kind and the text of a list item. *)
Definition item_kind (it : item) : list_type := snd (fst it).
Definition item_text (it : item) : string := snd it.

(** The line of a list item that has no nested list. *)
Definition li_line (it : item) : string := "  <li>" ++ item_text it ++ "</li>".

(** The lines of a list of one kind without nesting: the opening tag, a
    line per item, the closing tag. *)
Definition list_block (kind : list_type) (items : list item) : list string :=
  ("<" ++ list_tag kind ++ ">")
    :: PyList.append (map li_line items) ("</" ++ list_tag kind ++ ">").

(** An item at the given level and of the given kind. *)
Definition flat_item (level : Z) (kind : list_type) (it : item) : Prop :=
  item_level it = level /\ item_kind it = kind.

(** The identity of the field span with the given number. *)
Definition field_name (k : nat) : string := "field_" ++ PyStr.of_nat k.

(** What every span extracted from a field code satisfies: a URL that is
    not empty, at least one member run, members that are runs of the
    paragraph and no end markers, and the joined member texts as text. *)
Definition field_span_ok (all_runs : list RunElem) (s : span) : Prop :=
  PyStr.nonempty (link_url s) = true
  /\ link_runs s <> []
  /\ Forall (fun r => In r all_runs /\ is_fld r "end" = false) (link_runs s)
  /\ link_text s = field_link_text (link_runs s).

(** The text of a field instruction for a URL. *)
Definition hyperlink_instruction_text (url : string) : string :=
  "HYPERLINK " ++ dq ++ url ++ dq.

(** The state of the walk after one or more runs that all belong to the
    link [l] and have the flags [b] and [i]: nothing is emitted yet, the
    link is open and marked, and the open group holds the escaped texts,
    without underline. *)
Definition link_inv (l : link) (b i : bool) (texts : list string) (n : nat)
           (st : walk_state) : Prop :=
  result st = [] /\ current_hyperlink st = Some l /\ hyperlink_text st = []
  /\ processed_hyperlinks st = repeat (fst (fst l)) n
  /\ current_group st
     = {| g_text := map _escape_html texts; g_bold := Some b; g_italic := Some i;
          g_underline := Some false; g_hyperlink := Some l |}.

(** The item a list paragraph is buffered as. *)
Definition list_item_of (p : Paragraph) : option item :=
  match Converter._get_list_info p with
  | Some (list_type, level, list_text) => Some (level, list_type, list_text)
  | None => None
  end.

(** The buffered items of a sequence of list paragraphs. *)
Fixpoint list_items_of (ps : list Paragraph) : list item :=
  match ps with
  | [] => []
  | p :: rest =>
      match list_item_of p with
      | Some it => it :: list_items_of rest
      | None => list_items_of rest
      end
  end.

(** A character configuration that the special-character pass skips. *)
Definition skipped_char (config : Config.CharConfig) : bool :=
  negb (Config.get (Config.char_enabled config) true)
  || negb (PyStr.nonempty (Config.get (Config.character config) EmptyString)).

(** A replacement rule that does not reach the regular-expression
    library: no search term, or a case-sensitive one. *)
Definition literal_only (rule : Config.Replacement) : bool :=
  negb (PyStr.nonempty (Config.get (Config.search rule) EmptyString))
  || Config.get (Config.case_sensitive rule) true.

(** What a literal rule does to a text. *)
Definition apply_literal (html : string) (rule : Config.Replacement) : string :=
  let search := Config.get (Config.search rule) EmptyString in
  if PyStr.nonempty search
  then PyStr.replace html search (Config.get (Config.replace rule) EmptyString)
  else html.

(** A fragment in which no tbody tag starts, whatever follows it. *)
Definition tbody_free (x : string) : Prop :=
  forall rest, PyStr.contains "<tbody>" (x ++ rest) = PyStr.contains "<tbody>" rest.

(** A text made of decimal digits only. *)
Fixpoint all_digits (s : string) : bool :=
  match s with
  | EmptyString => true
  | String c rest => PyStr.is_digit c && all_digits rest
  end.

(** A text that is empty or ends with an ASCII character other than a
    decimal digit. *)
Definition no_final_digit (s : string) : bool :=
  match PyStr.rev s with
  | EmptyString => true
  | String c _ => negb (PyStr.is_digit c) && Nat.ltb (nat_of_ascii c) 128
  end.

(** The level that numbering properties give: the value of ilvl, 0 when
    the element or its value is absent. *)
Definition numbering_level (np : NumPr) : Z :=
  match ilvl np with
  | Some (Some level) => level
  | _ => 0%Z
  end.

(** A paragraph that is a list item through its numbering properties. *)
Definition numbered (p : Paragraph) : Prop :=
  exists np, numPr p = Some np /\ has_numId np = true.

(** The line of a paragraph in a list without nesting. *)
Definition paragraph_line (p : Paragraph) : string :=
  "  <li>" ++ RunConsolidator._process_runs p ++ "</li>".

(** A paragraph without numbering properties that hold a numId. *)
Definition unnumbered (p : Paragraph) : bool :=
  match numPr p with
  | Some np => negb (has_numId np)
  | None => true
  end.

(** The list builder as it works on a buffer of bullet items, written
    without the kinds: every list opens with [<ul>] and closes with
    [</ul>], and no other list tag is written. *)
Fixpoint build_bullets (fuel : nat) (items : list item)
         (start_index : nat) (current_level : Z) {struct fuel}
  : option (string * nat) :=
  match fuel with
  | O => None
  | S fuel' =>
      if Nat.leb (length items) start_index then Some (EmptyString, start_index)
      else bullets_while fuel' items current_level [] start_index false
  end
with bullets_while (fuel : nat) (items : list item) (current_level : Z)
         (html_parts : list string) (i : nat) (list_started : bool)
         {struct fuel} : option (string * nat) :=
  match fuel with
  | O => None
  | S fuel' =>
      let closed :=
        PyStr.join PyStr.nl
          (PyList.extend html_parts (if list_started then ["</ul>"] else [])) in
      match nth_error items i with
      | None => Some (closed, i)
      | Some (level, _, text) =>
          if (level <? current_level)%Z then Some (closed, i)
          else if (level =? current_level)%Z then
            let parts1 :=
              PyList.extend html_parts (if list_started then [] else ["<ul>"]) in
            let nested :=
              match nth_error items (i + 1) with
              | Some next => if (item_level next >? level)%Z
                             then Some (item_level next) else None
              | None => None
              end in
            match nested with
            | Some next_level =>
                match build_bullets fuel' items (i + 1) next_level with
                | None => None
                | Some (nested_html, next_i) =>
                    bullets_while fuel' items current_level
                      (PyList.append
                         (PyList.append
                            (PyList.append parts1 ("  <li>" ++ text))
                            (indent_nested nested_html))
                         "  </li>")
                      next_i true
                end
            | None =>
                bullets_while fuel' items current_level
                  (PyList.append parts1 ("  <li>" ++ text ++ "</li>"))
                  (i + 1) true
            end
          else Some (closed, i)
      end
  end.

(** The lists of a buffer of bullet items, from its minimum level on. *)
Definition bullet_lists (items : list item) : string :=
  match items with
  | [] => EmptyString
  | first :: others =>
      match build_bullets (build_fuel items) items 0 (min_level first others) with
      | Some (html, _) => html
      | None => EmptyString
      end
  end.

(** The identity of a span taken from a hyperlink element at position [k]:
    a name, an underscore, the position. *)
Definition explicit_id (k : nat) (id : string) : Prop :=
  exists name, id = name ++ "_" ++ PyStr.of_nat k.

(** What the loop of [convert_docx_to_html] keeps true of its two list
    variables: the type is unset exactly when the buffer is empty, and it is
    the kind of the first buffered item otherwise. *)
Definition buffer_inv (st : Converter.dispatch_state) : Prop :=
  match Converter.current_list_items st with
  | [] => Converter.current_list_type st = None
  | it :: _ => Converter.current_list_type st = Some (item_kind it)
  end.

End Reference.

(* ================================================================= *)
(** ** The built-in configuration *)

Module Defaults.
Import RunConsolidator.

(** [get_default_config]; the key [code_snippets] is not read by the
    converter. *)
Definition get_default_config : Config.t :=
  {| Config.output :=
       {| Config.heading_tag := Some "h3"; Config.paragraph_tag := Some "p" |};
     Config.special_characters := Config.ModernList [];
     Config.replacements := [];
     Config.quote_detection :=
       {| Config.enabled := Some false; Config.threshold := Some 3%Z;
          Config.wrap_tag := Some ("div class=" ++ dq ++ "blockquote" ++ dq);
          Config.quote_types := Some [] |} |}.

End Defaults.

(* ================================================================= *)
(** ** Further example inputs *)

Module FurtherExamples.
Import Docx HyperlinkExtractor RunConsolidator ListBuilder Examples.

(** A run of [paragraph.runs] on a given element, without formatting. *)
Definition elem_run (e : RunElem) (t : string) : Run :=
  {| _element := e; text := t; bold := None; italic := None; underline := None |}.

(** A link to the bookmark named field: a hyperlink element without
    relationship id.  Its run is a child of the element. *)
Definition bookmark_wrapper : HyperlinkElem :=
  {| r_id := None; anchor := Some "field"; h_runs := [text_elem 7 "Top"];
     h_text := Some "Top" |}.

(** The runs of a paragraph that holds the field of [go_field]. *)
Definition go_field_runs : list Run :=
  [elem_run (marker 0 "begin") EmptyString;
   elem_run (instruction 1 (hyperlink_code "http://y")) EmptyString;
   elem_run (marker 2 "separate") EmptyString;
   elem_run (text_elem 3 "Go") "Go";
   elem_run (marker 4 "end") EmptyString].

(** A paragraph with the bookmark link followed by a field-code link. *)
Definition bookmark_and_field : Paragraph :=
  {| style_name := "Normal"; p_text := "TopGo"; runs := go_field_runs;
     numPr := None; hyperlink_elements := [bookmark_wrapper];
     all_runs := text_elem 7 "Top" :: go_field; rels := no_rels |}.

(** The same paragraph with the bookmark named top. *)
Definition top_and_field : Paragraph :=
  {| style_name := "Normal"; p_text := "TopGo"; runs := go_field_runs;
     numPr := None;
     hyperlink_elements :=
       [{| r_id := None; anchor := Some "top"; h_runs := [text_elem 7 "Top"];
           h_text := Some "Top" |}];
     all_runs := text_elem 7 "Top" :: go_field; rels := no_rels |}.





(** Two spans with one identity, and a run of the second. *)
Definition shared_spans : list span :=
  [("field_0", "#field", [text_elem 7 "Top"], "Top");
   ("field_0", "http://y", [text_elem 3 "Go"], "Go")].

(** A paragraph that has only blanks. *)
Definition blank_paragraph : Paragraph := simple_paragraph "Normal" "   " None.

(** A paragraph with numbering properties at level 1. *)
Definition numbered_subitem : Paragraph :=
  simple_paragraph "List Paragraph" "Second"
    (Some {| ilvl := Some (Some 1%Z); has_numId := true |}).

(** A search-replace rule that ignores case. *)
Definition insensitive_rule (search replace : string) : Config.Replacement :=
  {| Config.search := Some search; Config.replace := Some replace;
     Config.case_sensitive := Some false |}.

(** The horizontal tab. *)
Definition tab : ascii := ascii_of_nat 9.

(** A replacement string with a backslash in it, [C:\temp], and what [re]
    makes of it as a template: backslash-t is a tab. *)
Definition temp_path : string := "C:" ++ String Invariants.backslash "temp".
Definition temp_expanded : string := "C:" ++ String tab "emp".

(** A replacement string that [re] reads as a reference to group 1. *)
Definition group_reference : string := String Invariants.backslash "1".

(** The escapes of a template of [re] that the examples use: backslash-t is
    a tab, backslash-n a line feed, two backslashes are one; a backslash and
    a digit refer to a group, which an escaped search term does not have,
    so [re] raises.  The other escapes are left out and raise here. *)
Fixpoint expand_template (repl : string) : option string :=
  match repl with
  | EmptyString => Some EmptyString
  | String c rest =>
      if Ascii.eqb c Invariants.backslash then
        match rest with
        | String e rest' =>
            if Ascii.eqb e "t"%char
            then option_map (String tab) (expand_template rest')
            else if Ascii.eqb e "n"%char
            then option_map (String (ascii_of_nat 10)) (expand_template rest')
            else if Ascii.eqb e Invariants.backslash
            then option_map (String Invariants.backslash) (expand_template rest')
            else None
        | EmptyString => None
        end
      else option_map (String c) (expand_template rest)
  end.

(** A stand-in for [re] that knows what happens to a text that is the search
    term itself: the whole text is replaced by the template, as it stands
    when it has no backslash, and expanded by [expand_template] when it has
    one.  It raises on everything else. *)
Definition re_whole (ignorecase : bool) (literal repl s : string) : option string :=
  if String.eqb s literal
  then if negb (Invariants.has_char Invariants.backslash repl)
       then Some repl else expand_template repl
  else None.


End FurtherExamples.

(* ================================================================= *)
(** * Properties *)

(** ** List Builder *)

Module ListBuilderFacts.
Import ListBuilder.

(** The three exits of one loop iteration that return at once. *)
Lemma build_while_end fuel items cur parts i ty started :
  nth_error items i = None ->
  build_while (S fuel) items cur parts i ty started
  = Some (PyStr.join PyStr.nl (PyList.extend parts (close_list started ty)), i).
Proof. intros H. simpl. now rewrite H. Qed.

Lemma build_while_lower fuel items cur parts i ty started it :
  nth_error items i = Some it ->
  (item_level it < cur)%Z ->
  build_while (S fuel) items cur parts i ty started
  = Some (PyStr.join PyStr.nl (PyList.extend parts (close_list started ty)), i).
Proof.
  intros H Hlt. simpl. rewrite H.
  destruct it as [[level item_type] text]. unfold item_level in Hlt. simpl in Hlt.
  apply Z.ltb_lt in Hlt. now rewrite Hlt.
Qed.

Lemma build_while_higher fuel items cur parts i ty started it :
  nth_error items i = Some it ->
  (cur < item_level it)%Z ->
  build_while (S fuel) items cur parts i ty started
  = Some (PyStr.join PyStr.nl (PyList.extend parts (close_list started ty)), i).
Proof.
  intros H Hgt. simpl. rewrite H.
  destruct it as [[level item_type] text]. unfold item_level in Hgt. simpl in Hgt.
  destruct (level <? cur)%Z eqn:E1; [reflexivity|].
  destruct (level =? cur)%Z eqn:E2; [|reflexivity].
  apply Z.eqb_eq in E2. lia.
Qed.


(** More fuel never changes a result. *)
Lemma build_fuel_mono fuel :
  forall items,
    (forall start cur r fuel',
        _build_nested_list fuel items start cur = Some r -> fuel <= fuel' ->
        _build_nested_list fuel' items start cur = Some r)
    /\ (forall cur parts i ty started r fuel',
          build_while fuel items cur parts i ty started = Some r -> fuel <= fuel' ->
          build_while fuel' items cur parts i ty started = Some r).
Proof.
  induction fuel as [|fuel IH]; intros items.
  - split; intros; discriminate.
  - destruct (IH items) as [IHb IHw]. split.
    + intros start cur r fuel' H Hle.
      destruct fuel' as [|fuel']; [lia|]. simpl in *.
      destruct (Nat.leb (length items) start); [exact H|].
      apply IHw with (fuel' := fuel') in H; [exact H|lia].
    + intros cur parts i ty started r fuel' H Hle.
      destruct fuel' as [|fuel']; [lia|]. simpl in *.
      destruct (nth_error items i) as [[[level item_type] text]|]; [|exact H].
      destruct (level <? cur)%Z; [exact H|].
      destruct (level =? cur)%Z; [|exact H].
      destruct (match nth_error items (i + 1) with
                | Some next => if (item_level next >? level)%Z
                               then Some (item_level next) else None
                | None => None
                end) as [next_level|].
      * destruct (_build_nested_list fuel items (i + 1) next_level)
          as [[nested ni]|] eqn:Hb; [|discriminate].
        rewrite (IHb _ _ _ fuel' Hb) by lia.
        apply IHw with (fuel' := fuel') in H; [exact H|lia].
      * apply IHw with (fuel' := fuel') in H; [exact H|lia].
Qed.

Lemma min_level_fold others :
  forall m,
    (fold_left (fun m it => Z.min m (item_level it)) others m <= m)%Z
    /\ (forall it, In it others ->
                   (fold_left (fun m it => Z.min m (item_level it)) others m
                    <= item_level it)%Z)
    /\ (fold_left (fun m it => Z.min m (item_level it)) others m = m
        \/ exists it, In it others
                      /\ fold_left (fun m it => Z.min m (item_level it)) others m
                         = item_level it).
Proof.
  induction others as [|x xs IH]; intros m; simpl.
  - split; [lia|]. split; [intros it []|now left].
  - destruct (IH (Z.min m (item_level x))) as (H1 & H2 & H3).
    split; [lia|]. split.
    + intros it [<-|Hin]; [lia|now apply H2].
    + destruct H3 as [H3|(it & Hin & H3)].
      * destruct (Z.min_spec m (item_level x)) as [[_ E]|[_ E]].
        -- left. congruence.
        -- right. exists x. split; [now left|congruence].
      * right. exists it. split; [now right|exact H3].
Qed.

End ListBuilderFacts.

(** ** List Builder under the recursion limit *)

Module ListBuilderLimits.
Import ListBuilder ListBuilderFacts FurtherExamples.

(** Enough fuel: with any number of frames both functions end, with a
    value or with [RecursionError], and a returned index never moves back. *)
Lemma within_ends fuel :
  forall items,
    (forall frames start cur,
        2 * (length items - start) + 3 <= fuel ->
        exists o,
          _build_nested_list_within frames fuel items start cur = Some o
          /\ forall html next, o = Returned (html, next) -> start <= next)
    /\ (forall frames cur parts i ty started,
          2 * (length items - i) + 2 <= fuel ->
          exists o,
            build_while_within frames fuel items cur parts i ty started = Some o
            /\ forall html next, o = Returned (html, next) -> i <= next).
Proof.
  induction fuel as [|fuel IH]; intros items.
  - split; intros; lia.
  - destruct (IH items) as [IHb IHw]. split.
    + intros frames start cur Hf. cbn [_build_nested_list_within].
      destruct frames as [|frames].
      * eexists. split; [reflexivity|]. intros html next [=].
      * destruct (Nat.leb (length items) start) eqn:E.
        -- eexists. split; [reflexivity|]. intros html next [= _ <-]. lia.
        -- apply Nat.leb_gt in E. apply IHw. lia.
    + intros frames cur parts i ty started Hf. cbn [build_while_within].
      destruct (nth_error items i) as [[[level item_type] text]|] eqn:Hi.
      2:{ eexists. split; [reflexivity|]. intros html next [= _ <-]. lia. }
      assert (Hlen : i < length items) by (apply nth_error_Some; congruence).
      destruct (level <? cur)%Z;
        [eexists; split; [reflexivity|]; intros html next [= _ <-]; lia|].
      destruct (level =? cur)%Z;
        [|eexists; split; [reflexivity|]; intros html next [= _ <-]; lia].
      assert (Hsimple : forall parts',
                 exists o,
                   build_while_within frames fuel items cur parts' (i + 1)
                     (Some item_type) true = Some o
                   /\ forall html next, o = Returned (html, next) -> i <= next).
      { intros parts'.
        destruct (IHw frames cur parts' (i + 1) (Some item_type) true)
          as (o & Ho & Hle); [lia|].
        exists o. split; [exact Ho|]. intros html next E.
        specialize (Hle html next E). lia. }
      destruct (nth_error items (i + 1)) as [next|] eqn:Hn; [|apply Hsimple].
      destruct (item_level next >? level)%Z; [|apply Hsimple].
      destruct (IHb frames (i + 1) (item_level next)) as (o & Hb & Hle); [lia|].
      rewrite Hb. destruct o as [[nested ni]|].
      * specialize (Hle nested ni eq_refl).
        destruct (IHw frames cur
                    (PyList.append
                       (PyList.append
                          (PyList.append
                             (PyList.extend parts (open_list started ty item_type))
                             ("  <li>" ++ text))
                          (indent_nested nested)) "  </li>")
                    ni (Some item_type) true) as (o & Hw & Hle'); [lia|].
        exists o. split; [exact Hw|]. intros html n E.
        specialize (Hle' html n E). lia.
      * eexists. split; [reflexivity|]. intros html n [=].
Qed.

(** A value returned under the limit is the value of the call. *)
Lemma within_agrees fuel :
  forall items,
    (forall frames start cur r,
        _build_nested_list_within frames fuel items start cur = Some (Returned r) ->
        _build_nested_list fuel items start cur = Some r)
    /\ (forall frames cur parts i ty started r,
          build_while_within frames fuel items cur parts i ty started
          = Some (Returned r) ->
          build_while fuel items cur parts i ty started = Some r).
Proof.
  induction fuel as [|fuel IH]; intros items.
  - split; intros; discriminate.
  - destruct (IH items) as [IHb IHw]. split.
    + intros frames start cur r. cbn [_build_nested_list_within _build_nested_list].
      destruct frames as [|frames]; [discriminate|].
      destruct (Nat.leb (length items) start); [now intros [= <-]|].
      apply IHw.
    + intros frames cur parts i ty started r.
      cbn [build_while_within build_while].
      destruct (nth_error items i) as [[[level item_type] text]|];
        [|now intros [= <-]].
      destruct (level <? cur)%Z; [now intros [= <-]|].
      destruct (level =? cur)%Z; [|now intros [= <-]].
      destruct (match nth_error items (i + 1) with
                | Some next => if (item_level next >? level)%Z
                               then Some (item_level next) else None
                | None => None
                end) as [next_level|]; [|apply IHw].
      destruct (_build_nested_list_within frames fuel items (i + 1) next_level)
        as [[[nested ni]|]|] eqn:Hb; try discriminate.
      rewrite (IHb _ _ _ _ Hb). apply IHw.
Qed.











(** A value returned under the limit is the value of [_create_list_html]. *)
Lemma create_within_agrees (frames : nat) (items : list item)
      (ty : option list_type) (html : string) :
  _create_list_html_within frames items ty = Returned html ->
  _create_list_html items ty = html.
Proof.
  unfold _create_list_html_within, _create_list_html.
  destruct items as [|first others]; [now intros [= <-]|].
  destruct (proj1 (within_ends (build_fuel (first :: others)) (first :: others))
              frames 0 (min_level first others)) as (o & Ho & _).
  { unfold build_fuel. lia. }
  rewrite Ho. destruct o as [[h n]|]; [|discriminate].
  intros [= <-].
  now rewrite (proj1 (within_agrees _ _) _ _ _ _ Ho).
Qed.

End ListBuilderLimits.

Module ListBuilderClaims.
Import ListBuilder ListBuilderFacts ListBuilderLimits Examples FurtherExamples.

(** C2: the items (0,Bullet,A), (1,Number,B), (1,Number,C), (0,Bullet,D)
    give a ul whose li for A nests an ol with the li of B and of C,
    followed by the sibling li of D; the frame for level 1 returns at
    index 3, the index of D; and every frame that meets an item of a level
    strictly below its own closes its open list tag and returns the index
    of that item. *)
Theorem C2_list_nesting :
  _create_list_html nested_example (Some bullet)
  = PyStr.join PyStr.nl
      ["<ul>"; "  <li>A"; "    <ol>"; "      <li>B</li>"; "      <li>C</li>";
       "    </ol>"; "  </li>"; "  <li>D</li>"; "</ul>"]
  /\ Markup.without_layout (_create_list_html nested_example (Some bullet))
     = "<ul><li>A<ol><li>B</li><li>C</li></ol></li><li>D</li></ul>"
  /\ _build_nested_list (build_fuel nested_example) nested_example 1 1
     = Some (PyStr.join PyStr.nl ["<ol>"; "  <li>B</li>"; "  <li>C</li>"; "</ol>"], 3)
  /\ forall fuel items cur parts i ty started it,
      nth_error items i = Some it ->
      (item_level it < cur)%Z ->
      build_while (S fuel) items cur parts i ty started
      = Some (PyStr.join PyStr.nl (PyList.extend parts (close_list started ty)), i).
Proof.
  repeat split; try reflexivity.
  intros. eapply build_while_lower; eassumption.
Qed.

Lemma C2_list_nesting_witness :
  build_while 1 nested_example 1 ["<ol>"; "  <li>B</li>"; "  <li>C</li>"] 3
    (Some number) true
  = Some (PyStr.join PyStr.nl ["<ol>"; "  <li>B</li>"; "  <li>C</li>"; "</ol>"], 3).
Proof.
  exact (proj2 (proj2 (proj2 C2_list_nesting)) 0 nested_example 1%Z
           ["<ol>"; "  <li>B</li>"; "  <li>C</li>"] 3 (Some number) true
           (0%Z, bullet, "D") eq_refl eq_refl).
Defined.




End ListBuilderClaims.


(** ** Hyperlink Extractor *)

Module HyperlinkFacts.
Import Docx HyperlinkExtractor Invariants.


Lemma scan_instruction_inert mid :
  Forall inert mid ->
  forall rest j,
    scan_instruction (mid ++ rest) j = scan_instruction rest (j + length mid).
Proof.
  induction 1 as [|r mid (Hi & Hs & He) _ IH]; intros rest j; simpl.
  - now rewrite Nat.add_0_r.
  - rewrite Hi, Hs, He. simpl. rewrite IH. f_equal. lia.
Qed.

Lemma scan_instruction_bounds rs :
  forall j, j <= snd (scan_instruction rs j) <= j + length rs.
Proof.
  induction rs as [|r rs IH]; intros j; simpl; [lia|].
  destruct (hyperlink_instruction r); simpl; [lia|].
  destruct (is_fld r "separate" || is_fld r "end"); simpl; [lia|].
  specialize (IH (S j)). lia.
Qed.

Lemma skip_to_separate_ge rs : forall j, j <= skip_to_separate rs j.
Proof.
  induction rs as [|r rs IH]; intros j; simpl; [lia|].
  destruct (is_fld r "separate"); [lia|]. specialize (IH (S j)). lia.
Qed.

Lemma collect_link_runs_ge rs : forall j, j <= snd (collect_link_runs rs j).
Proof.
  induction rs as [|r rs IH]; intros j; simpl; [lia|].
  destruct (is_fld r "end"); simpl; [lia|].
  specialize (IH (S j)). destruct (collect_link_runs rs (S j)). simpl in *. lia.
Qed.

(** The outer loop returns as soon as the fuel exceeds the runs left. *)
Lemma field_loop_returns fuel :
  forall all_runs i field_idx hyperlinks,
    length all_runs - i < fuel ->
    exists spans, field_loop fuel all_runs i field_idx hyperlinks = Some spans.
Proof.
  induction fuel as [|fuel IH]; intros all_runs i field_idx hyperlinks Hf; [lia|].
  simpl. destruct (nth_error all_runs i) as [run|] eqn:Hi; [|now eexists].
  assert (i < length all_runs) by (apply nth_error_Some; congruence).
  destruct (is_fld run "begin"); [|apply IH; lia].
  pose proof (scan_instruction_bounds (skipn (i + 1) all_runs) (i + 1)) as Hs.
  destruct (scan_instruction (skipn (i + 1) all_runs) (i + 1)) as [[url|] j];
    [|apply IH; lia].
  simpl in Hs.
  pose proof (skip_to_separate_ge (skipn j all_runs) j) as Hk.
  pose proof (collect_link_runs_ge
                (skipn (skip_to_separate (skipn j all_runs) j) all_runs)
                (skip_to_separate (skipn j all_runs) j)) as Hc.
  destruct (collect_link_runs _ _) as [[|r l] j2]; simpl in Hc; apply IH; lia.
Qed.

(** More fuel never changes the result of the outer loop. *)
Lemma field_loop_mono fuel :
  forall all_runs i field_idx hyperlinks spans fuel',
    field_loop fuel all_runs i field_idx hyperlinks = Some spans ->
    fuel <= fuel' ->
    field_loop fuel' all_runs i field_idx hyperlinks = Some spans.
Proof.
  induction fuel as [|fuel IH]; intros all_runs i field_idx hyperlinks spans fuel' H Hle;
    [discriminate|].
  destruct fuel' as [|fuel']; [lia|]. simpl in *.
  destruct (nth_error all_runs i) as [run|]; [|exact H].
  destruct (is_fld run "begin");
    [|apply IH with (fuel' := fuel') in H; [exact H|lia]].
  destruct (scan_instruction (skipn (i + 1) all_runs) (i + 1)) as [[url|] j];
    [|apply IH with (fuel' := fuel') in H; [exact H|lia]].
  destruct (collect_link_runs _ _) as [[|r l] j2];
    apply IH with (fuel' := fuel') in H; try exact H; lia.
Qed.

Lemma nth_error_middle {A : Type} (pre : list A) (x : A) (post : list A) :
  nth_error (pre ++ x :: post) (length pre) = Some x.
Proof. rewrite nth_error_app2, Nat.sub_diag by lia. reflexivity. Qed.

Lemma skipn_middle {A : Type} (pre : list A) (x : A) (post : list A) :
  skipn (length pre + 1) (pre ++ x :: post) = post.
Proof.
  induction pre as [|a pre IH]; simpl; [reflexivity|exact IH].
Qed.

(** A field with no URL: the loop goes on just after the begin marker, with
    the same spans and the same field counter. *)
Lemma field_loop_no_url fuel pre begin_run mid m post field_idx hyperlinks :
  is_fld begin_run "begin" = true ->
  Forall inert mid ->
  fst (scan_instruction (m :: post) (length pre + 1 + length mid)) = None ->
  field_loop (S fuel) (pre ++ begin_run :: mid ++ m :: post) (length pre)
    field_idx hyperlinks
  = field_loop fuel (pre ++ begin_run :: mid ++ m :: post) (length pre + 1)
      field_idx hyperlinks.
Proof.
  intros Hb Hmid Hscan.
  cbn [field_loop]. rewrite nth_error_middle, Hb, skipn_middle.
  rewrite scan_instruction_inert by exact Hmid.
  destruct (scan_instruction (m :: post) (length pre + 1 + length mid)) as [url j].
  simpl in Hscan. now subst url.
Qed.

End HyperlinkFacts.

Module HyperlinkClaims.
Import Docx HyperlinkExtractor Invariants HyperlinkFacts Examples.

(** C3, as the code has it: a field is dropped, with the spans and the
    field counter unchanged, (1) when its scan meets a 'separate' or an
    'end' marker before any instruction that starts with HYPERLINK
    (instruction runs that do not start with HYPERLINK are stepped over),
    or when the HYPERLINK instruction has no quoted URL: the scan resumes
    just after the begin marker; (2) when a URL was found and the collected
    member-run list is empty: the scan resumes just after the run at which
    the collection stopped.  (3) The extraction returns for every run
    sequence, with the fuel the code is given and with any larger one. *)
Theorem C3_malformed_field_dropped
        (pre : list RunElem) (begin_run : RunElem) (mid : list RunElem)
        (m : RunElem) (post : list RunElem)
        (Hbegin : is_fld begin_run "begin" = true)
        (Hmid : Forall inert mid) :
  let all_runs := (pre ++ begin_run :: mid ++ m :: post)%list in
  let i := length pre in
  (forall fuel field_idx hyperlinks,
      (hyperlink_instruction m = None
       /\ is_fld m "separate" || is_fld m "end" = true)
      \/ hyperlink_instruction m = Some None ->
      field_loop (S fuel) all_runs i field_idx hyperlinks
      = field_loop fuel all_runs (i + 1) field_idx hyperlinks)
  /\ (forall fuel field_idx hyperlinks url j j2,
        scan_instruction (skipn (i + 1) all_runs) (i + 1) = (Some url, j) ->
        collect_link_runs
          (skipn (skip_to_separate (skipn j all_runs) j) all_runs)
          (skip_to_separate (skipn j all_runs) j) = ([], j2) ->
        field_loop (S fuel) all_runs i field_idx hyperlinks
        = field_loop fuel all_runs (j2 + 1) field_idx hyperlinks)
  /\ (forall p : Paragraph,
        exists spans,
          (forall fuel, S (length (Docx.all_runs p)) <= fuel ->
                        field_loop fuel (Docx.all_runs p) 0 0 [] = Some spans)
          /\ _extract_field_hyperlinks p = spans).
Proof.
  cbv zeta. split; [|split].
  - intros fuel field_idx hyperlinks H.
    apply field_loop_no_url; try assumption.
    simpl. destruct H as [[Hi Hm]|Hi]; rewrite Hi; [|reflexivity].
    now rewrite Hm.
  - intros fuel field_idx hyperlinks url j j2 Hscan Hcollect.
    cbn [field_loop]. rewrite nth_error_middle, Hbegin, Hscan, Hcollect.
    reflexivity.
  - intros p.
    destruct (field_loop_returns (S (length (Docx.all_runs p))) (Docx.all_runs p) 0 0 [])
      as [spans Hs]; [lia|].
    exists spans. split.
    + intros fuel Hle. exact (field_loop_mono _ _ _ _ _ _ fuel Hs Hle).
    + unfold _extract_field_hyperlinks. now rewrite Hs.
Qed.

(** A begin marker, a PAGE instruction and an end marker: dropped. *)
Lemma C3_malformed_field_dropped_witness :
  field_loop 4 [marker 0 "begin"; instruction 1 "PAGE"; marker 2 "end"] 0 0 []
  = field_loop 3 [marker 0 "begin"; instruction 1 "PAGE"; marker 2 "end"] 1 0 [].
Proof.
  refine (proj1 (C3_malformed_field_dropped [] (marker 0 "begin")
                   [instruction 1 "PAGE"] (marker 2 "end") [] eq_refl _)
            3 0 [] (or_introl (conj eq_refl eq_refl))).
  repeat constructor.
Defined.

(** The claim as worded fails: in this field an instruction run (PAGE) comes
    before the HYPERLINK match, and the field still yields its span. *)
Lemma C3_counterexample :
  SpecWords.instruction_or_end_before_match (tl split_instruction_field) = true
  /\ _extract_field_hyperlinks (field_paragraph split_instruction_field)
     = [("field_0", "http://y", [text_elem 4 "Go"], "Go")].
Proof. split; reflexivity. Qed.

End HyperlinkClaims.

(** ** Run Consolidator *)

Module RunFacts.
Import Docx HyperlinkExtractor RunConsolidator Invariants.

#[local] Arguments _escape_html : simpl never.

Lemma append_empty_r (s : string) : s ++ EmptyString = s.
Proof. induction s as [|c s IH]; simpl; [reflexivity|now rewrite IH]. Qed.

Lemma append_assoc (a b c : string) : (a ++ b) ++ c = a ++ b ++ c.
Proof. induction a as [|x a IH]; simpl; [reflexivity|now rewrite IH]. Qed.

(** [''.join] of a list with one more element in front. *)
Lemma concat_cons (x : string) (l : list string) :
  String.concat EmptyString (x :: l) = x ++ String.concat EmptyString l.
Proof.
  destruct l as [|y l]; simpl; [now rewrite append_empty_r|reflexivity].
Qed.


Lemma format_group_tagged texts b i u h :
  format_group {| g_text := texts; g_bold := Some b; g_italic := Some i;
                  g_underline := Some u; g_hyperlink := h |}
  = SpecWords.tagged b "strong"
      (SpecWords.tagged i "em"
         (SpecWords.tagged u "u" (String.concat EmptyString texts))).
Proof. destruct b, i, u; reflexivity. Qed.


















Lemma plain_inv_step hyperlinks b i u texts st run :
  plain_inv b i u texts st ->
  owning_link hyperlinks (_element run) = None ->
  py_bool (bold run) = b -> py_bool (italic run) = i -> py_bool (underline run) = u ->
  plain_inv b i u (texts ++ filter PyStr.nonempty [text run]) (walk_run hyperlinks st run).
Proof.
  intros (Hr & Hc & Hh & Hp & Hg & Hf) Hown Hb Hi Hu.
  unfold walk_run. rewrite Hown. cbn [mark_processed is_some negb andb].
  destruct (text run) as [|c t] eqn:Ht.
  - cbn. rewrite app_nil_r. repeat split; try assumption; now apply Hf.
  - cbn [PyStr.nonempty negb andb filter].
    unfold switch_hyperlink. rewrite Hc. cbn [is_some negb andb].
    rewrite Hb, Hi, Hu, andb_true_r.
    unfold add_to_group.
    destruct st as [res cur ht pr [gt gb gi gu gh]]. cbn in *. subst.
    destruct texts as [|t0 texts].
    + cbn. repeat split; reflexivity.
    + destruct Hf as (-> & -> & -> & ->); [discriminate|].
      unfold plain_inv, PyList.append. cbn. rewrite !Bool.eqb_reflx. cbn.
      rewrite map_app. repeat split; reflexivity.
Qed.

Lemma plain_inv_walk hyperlinks b i u rs :
  (forall r, In r rs -> owning_link hyperlinks (_element r) = None) ->
  (forall r, In r rs ->
             py_bool (bold r) = b /\ py_bool (italic r) = i
             /\ py_bool (underline r) = u) ->
  forall texts st,
    plain_inv b i u texts st ->
    plain_inv b i u (texts ++ filter PyStr.nonempty (map text rs))
              (fold_left (walk_run hyperlinks) rs st).
Proof.
  induction rs as [|r rs IH]; intros Hown Hflags texts st Hinv.
  - cbn. now rewrite app_nil_r.
  - cbn [fold_left map].
    change (text r :: map text rs) with ([text r] ++ map text rs)%list.
    rewrite filter_app, app_assoc. apply IH.
    + intros r' Hin. apply Hown. now right.
    + intros r' Hin. apply Hflags. now right.
    + destruct (Hflags r (or_introl eq_refl)) as (Hb & Hi & Hu).
      apply plain_inv_step; try assumption. apply Hown. now left.
Qed.

End RunFacts.

(** ** Nesting of the tags the run consolidator writes *)

Module NestingFacts.
Import Docx HyperlinkExtractor RunConsolidator Invariants RunFacts.

#[local] Arguments _escape_html : simpl never.

Lemma has_char_app c (x y : string) :
  has_char c (x ++ y) = has_char c x || has_char c y.
Proof.
  induction x as [|k x IH]; [reflexivity|]. cbn. now rewrite IH, orb_assoc.
Qed.

Lemma no_brackets_app (x y : string) :
  no_brackets x -> no_brackets y -> no_brackets (x ++ y).
Proof.
  intros [H1 H2] [H3 H4]. split; rewrite has_char_app; [now rewrite H1|now rewrite H2].
Qed.

(** Outside a tag, a text without an opening bracket is passed over. *)
Lemma neutral_text (t : string) : no_lt t -> neutral t.
Proof.
  unfold no_lt, neutral. induction t as [|c t IH]; intros H rest stack; [reflexivity|].
  cbn in H. apply orb_false_elim in H. destruct H as [Hc Ht].
  cbn [String.append Markup.scan]. rewrite Hc. now apply IH.
Qed.

(** Inside a tag, everything up to the closing bracket is collected. *)
Lemma scan_tag_body (content : string) :
  no_brackets content ->
  forall acc rest stack,
    Markup.scan (content ++ String ">" rest) (Some acc) stack
    = match Markup.after_tag (PyStr.rev acc ++ content) stack with
      | Some stack' => Markup.scan rest None stack'
      | None => None
      end.
Proof.
  induction content as [|c content IH]; intros [Hl Hg] acc rest stack.
  - cbn [String.append Markup.scan]. cbn. now rewrite append_empty_r.
  - cbn in Hl, Hg. apply orb_false_elim in Hl. apply orb_false_elim in Hg.
    destruct Hl as [Hl1 Hl2], Hg as [Hg1 Hg2].
    cbn [String.append Markup.scan]. rewrite Hl1, Hg1.
    rewrite IH by now split.
    cbn [PyStr.rev]. now rewrite append_assoc.
Qed.

Lemma scan_tag (content : string) pending rest stack :
  no_brackets content ->
  Markup.scan (String "<" (content ++ String ">" rest)) pending stack
  = match Markup.after_tag content stack with
    | Some stack' => Markup.scan rest None stack'
    | None => None
    end.
Proof.
  intros H. cbn [Markup.scan]. cbn [Ascii.eqb Bool.eqb].
  now rewrite scan_tag_body.
Qed.

Lemma neutral_app (x y : string) : neutral x -> neutral y -> neutral (x ++ y).
Proof.
  intros Hx Hy rest stack. now rewrite append_assoc, Hx, Hy.
Qed.

Lemma neutral_concat (l : list string) :
  Forall neutral l -> neutral (String.concat EmptyString l).
Proof.
  induction 1 as [|x l Hx _ IH].
  - intros rest stack. reflexivity.
  - rewrite concat_cons. now apply neutral_app.
Qed.

(** A neutral body between an opening and its closing tag is neutral. *)
Lemma neutral_wrap (opening closing : string) (t : Markup.tag) (x : string) :
  no_brackets opening -> no_brackets closing ->
  (forall stack, Markup.after_tag opening stack = Some (t :: stack)) ->
  (forall stack, Markup.after_tag closing (t :: stack) = Some stack) ->
  neutral x ->
  neutral ("<" ++ opening ++ ">" ++ x ++ "<" ++ closing ++ ">").
Proof.
  intros Ho Hc Hopen Hclose Hx rest stack.
  assert (E : ("<" ++ opening ++ ">" ++ x ++ "<" ++ closing ++ ">") ++ rest
              = String "<" (opening ++ String ">"
                              (x ++ String "<" (closing ++ String ">" rest)))).
  { cbn [String.append]. f_equal. rewrite append_assoc. f_equal.
    cbn [String.append]. f_equal. rewrite append_assoc. f_equal.
    cbn [String.append]. f_equal. rewrite append_assoc. reflexivity. }
  rewrite E, scan_tag, Hopen, Hx, scan_tag, Hclose by assumption.
  reflexivity.
Qed.

Lemma no_lt_concat (l : list string) :
  Forall no_lt l -> no_lt (String.concat EmptyString l).
Proof.
  unfold no_lt. induction 1 as [|x l Hx _ IH]; [reflexivity|].
  rewrite concat_cons, has_char_app, Hx. exact IH.
Qed.

Lemma neutral_strong x : neutral x -> neutral ("<strong>" ++ x ++ "</strong>").
Proof.
  intros Hx. apply (neutral_wrap "strong" "/strong" Markup.strong x);
    try (split; reflexivity); try reflexivity; exact Hx.
Qed.

Lemma neutral_em x : neutral x -> neutral ("<em>" ++ x ++ "</em>").
Proof.
  intros Hx. apply (neutral_wrap "em" "/em" Markup.em x);
    try (split; reflexivity); try reflexivity; exact Hx.
Qed.

Lemma neutral_u x : neutral x -> neutral ("<u>" ++ x ++ "</u>").
Proof.
  intros Hx. apply (neutral_wrap "u" "/u" Markup.u x);
    try (split; reflexivity); try reflexivity; exact Hx.
Qed.

(** The anchor around a neutral inner text is neutral when the URL has no
    angle bracket. *)
Lemma neutral_anchor (url inner : string) :
  no_brackets url -> neutral inner -> neutral (_format_link url inner).
Proof.
  intros Hu Hi.
  assert (E : _format_link url inner
              = "<" ++ ("a href=" ++ dq ++ url ++ dq) ++ ">" ++ inner ++ "<" ++ "/a" ++ ">").
  { unfold _format_link. cbn [String.append]. do 8 f_equal.
    now rewrite !append_assoc. }
  rewrite E. apply (neutral_wrap _ "/a" Markup.a inner).
  - apply (no_brackets_app "a href="); [split; reflexivity|].
    apply (no_brackets_app dq); [split; reflexivity|].
    apply no_brackets_app; [exact Hu|split; reflexivity].
  - split; reflexivity.
  - reflexivity.
  - reflexivity.
  - exact Hi.
Qed.

(** What [flush_group] writes is neutral. *)
Lemma neutral_format_group (g : group) :
  Forall no_lt (g_text g) -> neutral (format_group g).
Proof.
  intros H. unfold format_group. cbv zeta.
  pose proof (neutral_text _ (no_lt_concat _ H)) as N.
  destruct (py_bool (g_underline g)), (py_bool (g_italic g)), (py_bool (g_bold g));
    repeat first [apply neutral_strong | apply neutral_em | apply neutral_u];
    exact N.
Qed.

Lemma prefix_empty (s : string) : String.prefix EmptyString s = true.
Proof. destruct s; reflexivity. Qed.

(** Replacing one character: it disappears when the replacement does not
    hold it, and no other character comes in that the replacement does not
    hold. *)
Lemma replace_char_removes (c : ascii) (new s : string) :
  has_char c new = false ->
  has_char c (PyStr.replace s (String c EmptyString) new) = false.
Proof.
  intros Hn. unfold PyStr.replace.
  induction s as [|x s IH]; [reflexivity|].
  cbn [PyStr.replace_from String.prefix String.length Nat.sub].
  destruct (ascii_dec c x) as [->|Hne].
  - now rewrite prefix_empty, has_char_app, Hn.
  - cbn [has_char]. rewrite IH, orb_false_r.
    apply Ascii.eqb_neq. congruence.
Qed.

Lemma replace_char_keeps (d c : ascii) (new s : string) :
  has_char d new = false -> has_char d s = false ->
  has_char d (PyStr.replace s (String c EmptyString) new) = false.
Proof.
  intros Hn. unfold PyStr.replace.
  induction s as [|x s IH]; intros Hs; [reflexivity|].
  cbn in Hs. apply orb_false_elim in Hs. destruct Hs as [Hx Hs].
  cbn [PyStr.replace_from String.prefix String.length Nat.sub].
  destruct (ascii_dec c x) as [->|Hne].
  - rewrite prefix_empty, has_char_app, Hn. now apply IH.
  - cbn [has_char]. now rewrite Hx, IH.
Qed.

(** An escaped text has no opening angle bracket. *)
Lemma escape_no_lt (t : string) : no_lt (_escape_html t).
Proof.
  unfold no_lt, _escape_html, escape_table, dq. cbn [fold_left fst snd].
  do 3 (apply replace_char_keeps; [reflexivity|]).
  now apply replace_char_removes.
Qed.

Lemma owning_link_plain hyperlinks e l :
  Forall plain_span hyperlinks -> owning_link hyperlinks e = Some l -> plain_link l.
Proof.
  intros Hall. unfold owning_link.
  destruct (find _ hyperlinks) as [s|] eqn:Hf; [|discriminate].
  intros [= <-]. apply find_some in Hf. destruct Hf as [Hin _].
  rewrite Forall_forall in Hall. exact (Hall s Hin).
Qed.

Lemma nesting_flush st : nesting_inv st -> nesting_inv (flush_group st).
Proof.
  intros Hinv. unfold flush_group.
  destruct (g_text (current_group st)) eqn:Et; [exact Hinv|].
  destruct Hinv as (Hr & Hh & Hg & Hc).
  pose proof (neutral_format_group (current_group st) Hg) as N.
  destruct (is_some (g_hyperlink (current_group st)));
    (split; [|split; [|split]]); cbn; unfold PyList.append;
    try assumption; try constructor;
    apply Forall_app; split; try assumption; now constructor.
Qed.

Lemma neutral_closing_anchor cur hyperlink_text :
  plain_link cur -> Forall neutral hyperlink_text ->
  neutral (closing_anchor cur hyperlink_text).
Proof.
  destruct cur as [[id url] fallback]. intros [Hu Hf] Hh. cbn in Hu, Hf.
  unfold closing_anchor. destruct hyperlink_text as [|x l].
  - apply neutral_anchor; [exact Hu|]. apply neutral_text.
    destruct (PyStr.nonempty fallback); [exact Hf|exact (proj1 Hu)].
  - apply neutral_anchor; [exact Hu|]. now apply neutral_concat.
Qed.

Lemma nesting_close st : nesting_inv st -> nesting_inv (close_hyperlink st).
Proof.
  intros Hinv. unfold close_hyperlink.
  destruct (current_hyperlink st) as [cur|] eqn:Ec; [|exact Hinv].
  destruct Hinv as (Hr & Hh & Hg & Hc).
  split; [|split; [|split]]; cbn; unfold PyList.append.
  - apply Forall_app. split; [exact Hr|]. constructor; [|constructor].
    apply neutral_closing_anchor; [now apply Hc|exact Hh].
  - constructor.
  - exact Hg.
  - intros l [= <-]. now apply Hc.
Qed.

Lemma nesting_set_current st h :
  nesting_inv st -> (forall l, h = Some l -> plain_link l) ->
  nesting_inv (set_current_hyperlink st h).
Proof.
  intros (Hr & Hh & Hg & Hc) Hl. split; [|split; [|split]]; cbn; assumption.
Qed.

Lemma nesting_switch st h :
  nesting_inv st -> (forall l, h = Some l -> plain_link l) ->
  nesting_inv (switch_hyperlink st h).
Proof.
  intros Hinv Hl. unfold switch_hyperlink.
  destruct (is_some h && negb _).
  - apply nesting_set_current; [|exact Hl]. now apply nesting_close, nesting_flush.
  - destruct (negb (is_some h) && is_some _); [|exact Hinv].
    apply nesting_set_current; [|discriminate]. now apply nesting_close, nesting_flush.
Qed.

Lemma nesting_add st b i u h t :
  nesting_inv st -> no_lt t -> nesting_inv (add_to_group st b i u h t).
Proof.
  intros Hinv Ht. unfold add_to_group. cbv zeta.
  set (st' := match g_text (current_group st) with
              | [] => st
              | _ :: _ => if negb _ then flush_group st else st
              end).
  assert (Hinv' : nesting_inv st').
  { unfold st'. destruct (g_text (current_group st)); [exact Hinv|].
    destruct (negb _); [now apply nesting_flush|exact Hinv]. }
  destruct Hinv' as (Hr & Hh & Hg & Hc).
  split; [|split; [|split]]; cbn; try assumption.
  unfold PyList.append. apply Forall_app. split; [|now constructor].
  destruct (g_text (current_group st')) eqn:Et; cbn; [constructor|].
  rewrite ?Et. exact Hg.
Qed.

Lemma nesting_mark st h : nesting_inv st -> nesting_inv (mark_processed st h).
Proof.
  intros Hinv. destruct h as [[[id url] txt]|]; [|exact Hinv].
  destruct Hinv as (Hr & Hh & Hg & Hc).
  split; [|split; [|split]]; cbn; assumption.
Qed.

Lemma nesting_walk_run hyperlinks st run :
  Forall plain_span hyperlinks ->
  nesting_inv st -> nesting_inv (walk_run hyperlinks st run).
Proof.
  intros Hall Hinv. unfold walk_run. cbv zeta.
  destruct (negb (PyStr.nonempty (text run)) && negb _); [now apply nesting_mark|].
  apply nesting_add.
  - apply nesting_switch; [now apply nesting_mark|].
    intros l Hl. eapply owning_link_plain; eassumption.
  - destruct (negb (PyStr.nonempty (text run)) && is_some _);
      [reflexivity|apply escape_no_lt].
Qed.

Lemma nesting_walk hyperlinks rs :
  Forall plain_span hyperlinks -> nesting_inv (walk hyperlinks rs).
Proof.
  intros Hall. unfold walk. apply nesting_close, nesting_flush.
  assert (H : forall st, nesting_inv st ->
                         nesting_inv (fold_left (walk_run hyperlinks) rs st)).
  { induction rs as [|r rs IH]; intros st Hst; [exact Hst|].
    cbn [fold_left]. now apply IH, nesting_walk_run. }
  apply H.
  split; [constructor|split; [constructor|split; [constructor|intros lnk [=]]]].
Qed.

Lemma neutral_unprocessed ids hyperlinks :
  Forall plain_span hyperlinks -> Forall neutral (unprocessed_links ids hyperlinks).
Proof.
  induction 1 as [|s hyperlinks [Hu Ht] _ IH]; [constructor|].
  cbn [unprocessed_links].
  destruct (negb (processed ids (link_id s)) && PyStr.nonempty (link_text s));
    [|exact IH].
  constructor; [now apply neutral_text|].
  constructor; [|exact IH].
  apply neutral_anchor; [exact Hu|now apply neutral_text].
Qed.

(** When the URL of every span has no angle bracket and its fallback text
    no opening one, every tag the run consolidator opens is closed, properly
    nested, whatever the runs are. *)
Lemma well_nested_with_plain_spans hyperlinks rs :
  Forall plain_span hyperlinks ->
  Markup.well_nested (process_runs_with hyperlinks rs) = true.
Proof.
  intros Hall. unfold process_runs_with, PyList.extend. cbv zeta.
  destruct (nesting_walk hyperlinks rs Hall) as (Hr & _).
  assert (N : neutral (String.concat EmptyString
                         (result (walk hyperlinks rs)
                          ++ unprocessed_links
                               (processed_hyperlinks (walk hyperlinks rs)) hyperlinks))).
  { apply neutral_concat, Forall_app. split; [exact Hr|].
    now apply neutral_unprocessed. }
  unfold Markup.well_nested.
  rewrite <- (append_empty_r (String.concat _ _)), N. reflexivity.
Qed.

End NestingFacts.

Module RunClaims.
Import Docx HyperlinkExtractor RunConsolidator Invariants RunFacts Examples
  FurtherExamples.

(** C1: when no run of the paragraph belongs to a hyperlink span and all
    runs have the same bold, italic and underline flags, the output is one
    tag group around the concatenation of the escaped non-empty run texts
    (strong outside em outside u), whatever the number of runs, followed by
    the spans of the paragraph, none of which was visited; nothing is
    emitted for the runs when no run has text.  In particular the runs
    Hello and World, both bold, give one strong element. *)
Theorem C1_consolidation :
  (forall (hyperlinks : list span) (rs : list Run) (b i u : bool),
      (forall r, In r rs -> owning_link hyperlinks (_element r) = None) ->
      (forall r, In r rs ->
                 py_bool (bold r) = b /\ py_bool (italic r) = i
                 /\ py_bool (underline r) = u) ->
      process_runs_with hyperlinks rs
      = match filter PyStr.nonempty (map text rs) with
        | [] => EmptyString
        | texts =>
            SpecWords.tagged b "strong"
              (SpecWords.tagged i "em"
                 (SpecWords.tagged u "u"
                    (String.concat EmptyString (map _escape_html texts))))
        end
        ++ String.concat EmptyString (unprocessed_links [] hyperlinks))
  /\ _process_runs hello_world = "<strong>Hello World</strong>".
Proof.
  split; [|reflexivity].
  intros hyperlinks rs b i u Hown Hflags.
  assert (Hinit : plain_inv b i u [] initial_state).
  { unfold plain_inv. cbn. repeat (split; [reflexivity|]).
    intros Hne. now elim Hne. }
  pose proof (plain_inv_walk hyperlinks b i u rs Hown Hflags [] _ Hinit) as Hinv.
  cbn [app] in Hinv. unfold process_runs_with, walk.
  destruct (fold_left (walk_run hyperlinks) rs initial_state)
    as [res cur ht pr [gt gb gi gu gh]].
  destruct Hinv as (Hr & Hc & Hh & Hp & Hg & Hf). cbn in Hr, Hc, Hh, Hp, Hg, Hf. subst.
  destruct (filter PyStr.nonempty (map text rs)) as [|t texts].
  - reflexivity.
  - destruct Hf as (-> & -> & -> & ->); [discriminate|].
    unfold flush_group.
    cbn [current_group g_text map g_hyperlink is_some close_hyperlink
         current_hyperlink result processed_hyperlinks PyList.append PyList.extend app].
    rewrite concat_cons, format_group_tagged. reflexivity.
Qed.

Lemma C1_consolidation_witness :
  process_runs_with [] (runs hello_world) = "<strong>Hello World</strong>".
Proof.
  refine (eq_trans
            (proj1 C1_consolidation [] (runs hello_world) true false false _ _) _).
  - intros r _. reflexivity.
  - intros r [<-|[<-|[]]]; repeat split; reflexivity.
  - reflexivity.
Defined.




(** C5 holds as far as the spans are plain and fails beyond: when the URL
    of every span has no angle bracket and its fallback text no opening one,
    every strong, em, u and a tag in the output is closed, properly nested,
    whatever the runs and their flags are.  But the text of a hyperlink that
    the walk does not visit is written between the anchor tags as it is,
    without the escaping that run texts get, so a link whose text is a u tag
    gives an anchor with an opened and never closed u; the same text in a
    run of the paragraph is escaped and gives well nested output. *)
Theorem C5_unescaped_link_text :
  (forall (hyperlinks : list span) (rs : list Run),
      Forall plain_span hyperlinks ->
      Markup.well_nested (process_runs_with hyperlinks rs) = true)
  /\ _process_runs markup_link = " <a href=" ++ dq ++ "http://x" ++ dq ++ "><u></a>"
  /\ Markup.well_nested (_process_runs markup_link) = false
  /\ process_runs_with [] [plain_run 0 "<u>" (Some true)]
     = "<strong>&lt;u&gt;</strong>"
  /\ Markup.well_nested (process_runs_with [] [plain_run 0 "<u>" (Some true)]) = true.
Proof.
  split; [exact NestingFacts.well_nested_with_plain_spans|].
  repeat split; reflexivity.
Qed.

Lemma C5_unescaped_link_text_witness :
  Markup.well_nested
    (process_runs_with [("rId1_0", "http://x", [], "Click")]
                       [plain_run 0 "a<b" (Some true); plain_run 1 "c" None])
  = true.
Proof.
  refine (proj1 C5_unescaped_link_text [("rId1_0", "http://x", [], "Click")]
            [plain_run 0 "a<b" (Some true); plain_run 1 "c" None] _).
  constructor; [|constructor]. repeat split; reflexivity.
Defined.

End RunClaims.

(** ** Block Dispatcher *)

Module DispatcherClaims.
Import Docx HyperlinkExtractor RunConsolidator ListBuilder Converter Examples.

(** C7, as the code has it: a paragraph that is not classified as a list
    item, whose trimmed text is not empty and whose style name starts with
    Heading makes the dispatcher close and clear the open list, if there is
    one, and then emit the configured heading tag (h3 when none is
    configured) around the escaped trimmed text. *)
Theorem C7_heading_dispatch
        (cfg : Config.t) (st : dispatch_state) (p : Paragraph)
        (Hnolist : _get_list_info p = None)
        (Htext : PyStr.nonempty (PyStr.strip (p_text p)) = true)
        (Hstyle : PyStr.startswith (style_name p) "Heading" = true) :
  let tag := Config.get (Config.heading_tag (Config.output cfg)) "h3" in
  let heading :=
    "<" ++ tag ++ ">" ++ _escape_html (PyStr.strip (p_text p)) ++ "</" ++ tag ++ ">" in
  dispatch cfg st (CT_P p)
  = {| html_parts :=
         PyList.append
           match current_list_items st with
           | [] => html_parts st
           | _ :: _ =>
               PyList.append (html_parts st)
                 (_create_list_html (current_list_items st) (current_list_type st))
           end
           heading;
       current_list_items := [];
       current_list_type :=
         match current_list_items st with
         | [] => current_list_type st
         | _ :: _ => None
         end |}.
Proof.
  intros tag heading. unfold dispatch. rewrite Hnolist.
  unfold _convert_paragraph. rewrite Htext, Hstyle. cbn [negb].
  fold tag. fold heading.
  assert (Hh : PyStr.nonempty heading = true) by reflexivity.
  unfold emit. rewrite Hh. unfold close_open_list.
  destruct st as [parts [|it items] ty]; reflexivity.
Qed.

Lemma C7_heading_dispatch_witness :
  dispatch empty_config one_item_open (CT_P plain_heading)
  = {| html_parts :=
         ["<p>before</p>";
          PyStr.join PyStr.nl ["<ul>"; "  <li>item</li>"; "</ul>"];
          "<h3>Q&amp;A</h3>"];
       current_list_items := [];
       current_list_type := None |}.
Proof.
  exact (C7_heading_dispatch empty_config one_item_open plain_heading
           eq_refl eq_refl eq_refl).
Defined.

(** The claim as worded fails: a paragraph in the style Heading 1 that has
    numbering properties is buffered as a bullet item and comes out as a
    list, not as a heading. *)
Lemma C7_counterexample :
  PyStr.startswith (style_name numbered_heading) "Heading" = true
  /\ dispatch empty_config idle (CT_P numbered_heading)
     = {| html_parts := [];
          current_list_items := [(0%Z, bullet, "Intro")];
          current_list_type := Some bullet |}
  /\ dispatch_all empty_config [CT_P numbered_heading]
     = [PyStr.join PyStr.nl ["<ul>"; "  <li>Intro</li>"; "</ul>"]]
  /\ dispatch_all empty_config [CT_P numbered_heading] <> ["<h3>Intro</h3>"].
Proof. repeat split; try reflexivity. discriminate. Qed.

End DispatcherClaims.

(** ** Post-pass Transformer *)

Module PostPassFacts.

Lemma prefix_refl (s : string) : String.prefix s s = true.
Proof.
  induction s as [|c s IH]; [reflexivity|].
  cbn. destruct (ascii_dec c c) as [_|Hne]; [exact IH|now elim Hne].
Qed.

Lemma replace_from_skip_all old new (s : string) :
  forall k, String.length s <= k -> PyStr.replace_from old new k s = EmptyString.
Proof.
  induction s as [|c s IH]; intros k Hk; [reflexivity|].
  cbn in Hk. destruct k as [|k]; [lia|]. cbn. apply IH. lia.
Qed.

(** Replacing a non-empty string inside itself leaves the replacement. *)
Lemma replace_self (s r : string) :
  PyStr.nonempty s = true -> PyStr.replace s s r = r.
Proof.
  destruct s as [|c s]; [discriminate|]. intros _.
  unfold PyStr.replace. cbn [PyStr.replace_from].
  rewrite prefix_refl.
  rewrite replace_from_skip_all by (cbn; lia).
  apply RunFacts.append_empty_r.
Qed.

End PostPassFacts.

Module PostPassClaims.
Import Converter Invariants Examples FurtherExamples PostPassFacts.

Section Replacements.

Variable re_sub : bool -> string -> string -> string -> option string.

(** C9: the rules are applied one after the other in list order, each on
    the string the earlier ones produced: a list of rules split in two
    applies the second part to the result of the first; a rule with an empty
    search term leaves the string as it is and the remaining rules go on; a
    rule with a search term replaces literally when it is case-sensitive and
    through the case-insensitive replacement of the library when it is not;
    of any two rules, the second works on what the first gives.  The chain
    of the claim, rule 2 searching what rule 1 puts in, holds for two
    case-sensitive rules on every string, and for rules that are not
    case-sensitive when their replacement has no backslash (here the library
    replaces a text that is the search term itself by the template).  It
    fails for a rule that is not case-sensitive and has a backslash in its
    replacement: the search term is escaped before it goes to the library,
    the replacement is not, and the library reads it as a template.  With
    [todo] replaced by [C:\temp] and [C:\temp] by [done], the library turns
    backslash-t into a tab, rule 2 finds nothing and the result is not
    [done], while the same two rules, case-sensitive, give [done]; and when
    the library raises on the template, as it does on a group reference, no
    later rule applies and the pass raises. *)
Theorem C9_replacement_order :
  (forall rules1 rules2 html,
      apply_replacements re_sub (rules1 ++ rules2) html
      = match apply_replacements re_sub rules1 html with
        | Some html' => apply_replacements re_sub rules2 html'
        | None => None
        end)
  /\ (forall rule rules html,
        PyStr.nonempty (Config.get (Config.search rule) EmptyString) = false ->
        apply_replacement re_sub rule html = Some html
        /\ apply_replacements re_sub (rule :: rules) html
           = apply_replacements re_sub rules html)
  /\ (forall rule html,
        PyStr.nonempty (Config.get (Config.search rule) EmptyString) = true ->
        apply_replacement re_sub rule html
        = if Config.get (Config.case_sensitive rule) true
          then Some (PyStr.replace html
                       (Config.get (Config.search rule) EmptyString)
                       (Config.get (Config.replace rule) EmptyString))
          else re_sub true (Config.get (Config.search rule) EmptyString)
                 (Config.get (Config.replace rule) EmptyString) html)
  /\ (forall rule1 rule2 html,
        apply_replacements re_sub [rule1; rule2] html
        = match apply_replacement re_sub rule1 html with
          | Some html' => apply_replacement re_sub rule2 html'
          | None => None
          end)
  /\ ((forall s r,
          PyStr.nonempty s = true -> has_char backslash r = false ->
          re_sub true s r s = Some r) ->
      forall rule1 rule2 search1 middle replace2,
        Config.search rule1 = Some search1 -> Config.replace rule1 = Some middle ->
        Config.search rule2 = Some middle -> Config.replace rule2 = Some replace2 ->
        PyStr.nonempty search1 = true -> PyStr.nonempty middle = true ->
        (Config.get (Config.case_sensitive rule1) true = false ->
         has_char backslash middle = false) ->
        (Config.get (Config.case_sensitive rule2) true = false ->
         has_char backslash replace2 = false) ->
        apply_replacements re_sub [rule1; rule2] search1 = Some replace2)
  /\ (forall search1 middle replace2 html,
        PyStr.nonempty search1 = true ->
        PyStr.nonempty middle = true ->
        _apply_replacements re_sub
          (config_with_rules [literal_rule search1 middle; literal_rule middle replace2])
          html
        = Some (PyStr.replace (PyStr.replace html search1 middle) middle replace2))
  /\ (re_sub true "todo" temp_path "todo" = Some temp_expanded ->
      _apply_replacements re_sub
        (config_with_rules
           [insensitive_rule "todo" temp_path; literal_rule temp_path "done"])
        "todo"
      = Some temp_expanded
      /\ temp_expanded <> "done"
      /\ PyStr.contains temp_path temp_expanded = false
      /\ _apply_replacements re_sub
           (config_with_rules
              [literal_rule "todo" temp_path; literal_rule temp_path "done"])
           "todo"
         = Some "done")
  /\ (forall rule rules html,
        PyStr.nonempty (Config.get (Config.search rule) EmptyString) = true ->
        Config.get (Config.case_sensitive rule) true = false ->
        re_sub true (Config.get (Config.search rule) EmptyString)
          (Config.get (Config.replace rule) EmptyString) html = None ->
        _apply_replacements re_sub (config_with_rules (rule :: rules)) html = None).
Proof.
  assert (Hstep : forall rule html,
             PyStr.nonempty (Config.get (Config.search rule) EmptyString) = true ->
             apply_replacement re_sub rule html
             = if Config.get (Config.case_sensitive rule) true
               then Some (PyStr.replace html
                            (Config.get (Config.search rule) EmptyString)
                            (Config.get (Config.replace rule) EmptyString))
               else re_sub true (Config.get (Config.search rule) EmptyString)
                      (Config.get (Config.replace rule) EmptyString) html).
  { intros rule html Hs. unfold apply_replacement. now rewrite Hs. }
  assert (Hpair : forall rule1 rule2 html,
             apply_replacements re_sub [rule1; rule2] html
             = match apply_replacement re_sub rule1 html with
               | Some html' => apply_replacement re_sub rule2 html'
               | None => None
               end).
  { intros rule1 rule2 html. cbn [apply_replacements].
    destruct (apply_replacement re_sub rule1 html) as [html'|]; [|reflexivity].
    now destruct (apply_replacement re_sub rule2 html'). }
  split; [|split; [|split; [exact Hstep|split; [exact Hpair|split; [|split; [|split]]]]]].
  - induction rules1 as [|r rules1 IH]; intros rules2 html; [reflexivity|].
    cbn [app apply_replacements].
    destruct (apply_replacement re_sub r html); [apply IH|reflexivity].
  - intros rule rules html He.
    assert (H : apply_replacement re_sub rule html = Some html).
    { unfold apply_replacement. now rewrite He. }
    split; [exact H|]. cbn [apply_replacements]. now rewrite H.
  - intros Hre rule1 rule2 search1 middle replace2 Hs1 Hr1 Hs2 Hr2 Hn1 Hn2 Hb1 Hb2.
    assert (Hone : forall rule s r,
               Config.search rule = Some s -> Config.replace rule = Some r ->
               PyStr.nonempty s = true ->
               (Config.get (Config.case_sensitive rule) true = false ->
                has_char backslash r = false) ->
               apply_replacement re_sub rule s = Some r).
    { intros rule s r Hs Hr Hn Hb. rewrite Hstep by (now rewrite Hs).
      rewrite Hs, Hr. cbn [Config.get].
      destruct (Config.get (Config.case_sensitive rule) true) eqn:E.
      - rewrite replace_self by exact Hn. reflexivity.
      - apply Hre; [exact Hn|]. apply Hb. reflexivity. }
    rewrite Hpair, (Hone rule1 search1 middle Hs1 Hr1 Hn1 Hb1).
    exact (Hone rule2 middle replace2 Hs2 Hr2 Hn2 Hb2).
  - intros search1 middle replace2 html H1 H2.
    unfold _apply_replacements, config_with_rules, literal_rule.
    cbn [Config.replacements apply_replacements].
    unfold apply_replacement.
    cbn [Config.get Config.search Config.replace Config.case_sensitive].
    rewrite H1, H2. reflexivity.
  - intros Hre. split; [|split; [|split]].
    + unfold _apply_replacements, config_with_rules.
      cbn [Config.replacements]. rewrite Hpair.
      rewrite (Hstep (insensitive_rule "todo" temp_path) "todo" eq_refl).
      cbn [insensitive_rule Config.get Config.search Config.replace
           Config.case_sensitive].
      rewrite Hre. reflexivity.
    + intros H. vm_compute in H. discriminate H.
    + reflexivity.
    + reflexivity.
  - intros rule rules html Hs Hc Hre.
    unfold _apply_replacements, config_with_rules.
    cbn [Config.replacements apply_replacements].
    rewrite (Hstep rule html Hs), Hc, Hre. reflexivity.
Qed.

End Replacements.

Lemma C9_replacement_order_witness :
  _apply_replacements re_whole
    (config_with_rules [insensitive_rule "a" "b"; insensitive_rule "b" "c"]) "a"
  = Some "c"
  /\ _apply_replacements re_whole
       (config_with_rules [insensitive_rule "a" "b"; literal_rule "b" "c"]) "a"
     = Some "c"
  /\ _apply_replacements re_raises
       (config_with_rules [literal_rule "a" "b"; literal_rule "b" "c"]) "a"
     = Some "c"
  /\ re_whole true "todo" temp_path "todo" = Some temp_expanded
  /\ _apply_replacements re_whole
       (config_with_rules
          [insensitive_rule "todo" temp_path; literal_rule temp_path "done"])
       "todo"
     = Some temp_expanded
  /\ re_whole true "todo" group_reference "todo" = None
  /\ _apply_replacements re_whole
       (config_with_rules
          [insensitive_rule "todo" group_reference; literal_rule "1" "done"])
       "todo"
     = None.
Proof.
  assert (Hre : forall s r,
             PyStr.nonempty s = true -> has_char backslash r = false ->
             re_whole true s r s = Some r).
  { intros s r _ Hr. unfold re_whole. now rewrite String.eqb_refl, Hr. }
  split; [|split; [|split; [|split; [|split; [|split]]]]].
  - exact (proj1 (proj2 (proj2 (proj2 (proj2 (C9_replacement_order re_whole))))) Hre
             (insensitive_rule "a" "b") (insensitive_rule "b" "c") "a" "b" "c"
             eq_refl eq_refl eq_refl eq_refl eq_refl eq_refl
             (fun _ => eq_refl) (fun _ => eq_refl)).
  - exact (proj1 (proj2 (proj2 (proj2 (proj2 (C9_replacement_order re_whole))))) Hre
             (insensitive_rule "a" "b") (literal_rule "b" "c") "a" "b" "c"
             eq_refl eq_refl eq_refl eq_refl eq_refl eq_refl
             (fun _ => eq_refl) (fun _ => eq_refl)).
  - exact (proj1 (proj2 (proj2 (proj2 (proj2 (proj2
             (C9_replacement_order re_raises))))))
             "a" "b" "c" "a" eq_refl eq_refl).
  - reflexivity.
  - exact (proj1 (proj1 (proj2 (proj2 (proj2 (proj2 (proj2 (proj2
             (C9_replacement_order re_whole))))))) eq_refl)).
  - reflexivity.
  - exact (proj2 (proj2 (proj2 (proj2 (proj2 (proj2 (proj2
             (C9_replacement_order re_whole)))))))
             (insensitive_rule "todo" group_reference)
             [literal_rule "1" "done"] "todo" eq_refl eq_refl eq_refl).
Defined.

End PostPassClaims.


(** ** Quote detection *)

Module QuoteFacts.
Import Docx RunConsolidator Converter SpecWords.

Lemma prefix_cons a q c txt :
  String.prefix (String a q) (String c txt) = true ->
  a = c /\ String.prefix q txt = true.
Proof.
  cbn. destruct (ascii_dec a c) as [->|]; [now split|discriminate].
Qed.

Lemma prefix_same_length (a b : string) :
  forall txt,
    String.prefix a txt = true -> String.prefix b txt = true ->
    String.length a = String.length b -> a = b.
Proof.
  revert b. induction a as [|x a IH]; intros [|y b] txt Ha Hb Hlen;
    try discriminate; [reflexivity|].
  destruct txt as [|c txt]; [discriminate|].
  apply prefix_cons in Ha. apply prefix_cons in Hb.
  destruct Ha as [-> Ha], Hb as [-> Hb].
  f_equal. apply (IH b txt Ha Hb). now injection Hlen.
Qed.

Lemma lead_is_not_continuation lead n :
  continuation_count lead = Some n -> PyStr.is_continuation lead = false.
Proof.
  unfold continuation_count, PyStr.is_continuation.
  set (m := nat_of_ascii lead). cbv zeta.
  destruct (Nat.ltb m 128) eqn:E1;
    destruct (Nat.leb 128 m) eqn:E2;
    destruct (Nat.ltb m 192) eqn:E3;
    destruct (Nat.leb 192 m) eqn:E4;
    destruct (Nat.ltb m 224) eqn:E5;
    destruct (Nat.leb 224 m) eqn:E6;
    destruct (Nat.ltb m 240) eqn:E7;
    destruct (Nat.leb 240 m) eqn:E8;
    destruct (Nat.ltb m 248) eqn:E9;
    cbn; try discriminate; try reflexivity; intros _;
    repeat match goal with
           | H : Nat.ltb _ _ = true |- _ => apply Nat.ltb_lt in H
           | H : Nat.ltb _ _ = false |- _ => apply Nat.ltb_ge in H
           | H : Nat.leb _ _ = true |- _ => apply Nat.leb_le in H
           | H : Nat.leb _ _ = false |- _ => apply Nat.leb_gt in H
           end; lia.
Qed.

(** The shape of a single character. *)
Lemma single_character_shape q :
  single_character q = true ->
  exists lead conts n,
    q = String lead conts /\ continuation_count lead = Some n
    /\ String.length conts = n
    /\ forallb PyStr.is_continuation (list_ascii_of_string conts) = true.
Proof.
  destruct q as [|lead conts]; [discriminate|]. cbn.
  destruct (continuation_count lead) as [n|] eqn:En; [|discriminate].
  intros H. apply andb_prop in H. destruct H as [Hl Hc].
  apply Nat.eqb_eq in Hl. now exists lead, conts, n.
Qed.

Lemma prefix_continuation conts :
  forallb PyStr.is_continuation (list_ascii_of_string conts) = true ->
  forall txt,
    String.prefix conts txt = true ->
    continuation_prefix (String.length conts) txt.
Proof.
  induction conts as [|c conts IH]; intros Hall txt Hp; [exact I|].
  cbn in Hall. apply andb_prop in Hall. destruct Hall as [Hc Hall].
  destruct txt as [|x txt]; [discriminate|].
  apply prefix_cons in Hp. destruct Hp as [<- Hp].
  cbn. split; [exact Hc|now apply IH].
Qed.

(** For a single character, [str.count] finds every position at which it
    stands: the bytes skipped after a match are continuation bytes, at which
    no character starts. *)
Lemma count_from_occurrences q :
  single_character q = true ->
  forall txt k,
    continuation_prefix k txt ->
    PyStr.count_from q k txt = occurrences q txt.
Proof.
  intros Hq.
  destruct (single_character_shape q Hq) as (lead & conts & n & -> & Hn & Hlen & Hall).
  pose proof (lead_is_not_continuation lead n Hn) as Hlead.
  induction txt as [|c txt IH]; intros k Hk; [reflexivity|].
  destruct k as [|k].
  - cbn [PyStr.count_from occurrences].
    destruct (String.prefix (String lead conts) (String c txt)) eqn:Hp.
    + apply prefix_cons in Hp. destruct Hp as [_ Hp].
      cbn [String.length]. rewrite Nat.sub_succ, Nat.sub_0_r.
      rewrite IH by now apply prefix_continuation.
      reflexivity.
    + now rewrite IH.
  - destruct Hk as [Hc Hk].
    cbn [PyStr.count_from occurrences]. rewrite (IH k Hk).
    destruct (String.prefix (String lead conts) (String c txt)) eqn:Hp;
      [|reflexivity].
    apply prefix_cons in Hp. destruct Hp as [<- _]. congruence.
Qed.

Lemma count_occurrences q txt :
  single_character q = true -> PyStr.count txt q = occurrences q txt.
Proof.
  intros Hq. destruct q as [|lead conts]; [discriminate|].
  unfold PyStr.count. now apply count_from_occurrences.
Qed.

(** Two single characters that stand at the same position are equal. *)
Lemma same_position q1 q2 txt :
  single_character q1 = true -> single_character q2 = true ->
  String.prefix q1 txt = true -> String.prefix q2 txt = true ->
  q1 = q2.
Proof.
  intros H1 H2 P1 P2.
  destruct (single_character_shape q1 H1) as (l1 & c1 & n1 & -> & Hn1 & Hl1 & _).
  destruct (single_character_shape q2 H2) as (l2 & c2 & n2 & -> & Hn2 & Hl2 & _).
  destruct txt as [|c txt]; [discriminate|].
  destruct (prefix_cons _ _ _ _ P1) as [-> _].
  destruct (prefix_cons _ _ _ _ P2) as [-> _].
  apply (prefix_same_length _ _ (String c txt) P1 P2).
  cbn. congruence.
Qed.

Lemma list_sum_cons_eq (x : nat) (l : list nat) : list_sum (x :: l) = x + list_sum l.
Proof. reflexivity. Qed.

Lemma starts_sum (types : list string) (txt : string) :
  NoDup types ->
  Forall (fun q => single_character q = true) types ->
  list_sum (map (fun q => if String.prefix q txt then 1 else 0) types)
  = if existsb (fun q => String.prefix q txt) types then 1 else 0.
Proof.
  induction 1 as [|q types Hnotin Hnd IH]; intros Hall; [reflexivity|].
  inversion Hall as [|? ? Hq Hrest]; subst.
  cbn [map existsb]. rewrite list_sum_cons_eq, (IH Hrest).
  destruct (String.prefix q txt) eqn:Hp; [|reflexivity].
  destruct (existsb (fun q0 => String.prefix q0 txt) types) eqn:He; [|reflexivity].
  apply existsb_exists in He. destruct He as (q' & Hin & Hp').
  rewrite Forall_forall in Hrest.
  assert (q = q') by (eapply same_position; eauto).
  subst q'. contradiction.
Qed.

Lemma list_sum_map_add {A : Type} (f g : A -> nat) (l : list A) :
  list_sum (map (fun x => f x + g x) l) = list_sum (map f l) + list_sum (map g l).
Proof.
  induction l as [|x l IH]; [reflexivity|].
  cbn [map]. rewrite !list_sum_cons_eq, IH. lia.
Qed.

Lemma list_sum_zero {A : Type} (l : list A) : list_sum (map (fun _ => 0) l) = 0.
Proof. induction l as [|x l IH]; [reflexivity|exact IH]. Qed.

(** For a duplicate-free list of single characters, the count of the code
    is the number of quote characters of the txt. *)
Lemma count_quotes_character_set (cfg : Config.t) (types : list string) (txt : string) :
  Config.quote_types (Config.quote_detection cfg) = Some types ->
  NoDup types ->
  Forall (fun q => single_character q = true) types ->
  _count_quotes cfg txt = quote_characters types txt.
Proof.
  intros Hcfg Hnd Hall. unfold _count_quotes. rewrite Hcfg. cbn [Config.get].
  rewrite (map_ext_in (PyStr.count txt) (fun q => occurrences q txt)).
  2:{ intros q Hin. rewrite Forall_forall in Hall. now apply count_occurrences, Hall. }
  induction txt as [|c txt IH]; cbn [occurrences quote_characters].
  - apply list_sum_zero.
  - rewrite (list_sum_map_add
               (fun q => if String.prefix q (String c txt) then 1 else 0)
               (fun q => occurrences q txt)).
    now rewrite IH, starts_sum.
Qed.

(** The threshold test of [_convert_paragraph], on the count of the code. *)
Lemma quote_threshold (cfg : Config.t) (p : Paragraph) :
  let txt := PyStr.strip (p_text p) in
  let tag := Config.get (Config.paragraph_tag (Config.output cfg)) "p" in
  let qd := Config.quote_detection cfg in
  let inner := "<" ++ tag ++ ">" ++ _process_runs p ++ "</" ++ tag ++ ">" in
  PyStr.nonempty txt = true ->
  PyStr.startswith (style_name p) "Heading" = false ->
  Config.get (Config.enabled qd) false = true ->
  ((Config.get (Config.threshold qd) 3 <= Z.of_nat (_count_quotes cfg txt))%Z ->
   _convert_paragraph cfg p
   = fst (_parse_wrap_tag (Config.get (Config.wrap_tag qd) "blockquote"))
     ++ inner
     ++ snd (_parse_wrap_tag (Config.get (Config.wrap_tag qd) "blockquote")))
  /\ ((Z.of_nat (_count_quotes cfg txt) < Config.get (Config.threshold qd) 3)%Z ->
      _convert_paragraph cfg p = inner).
Proof.
  intros txt tag qd inner Htext Hstyle Hen.
  unfold _convert_paragraph. fold txt. rewrite Htext, Hstyle. cbn [negb].
  fold tag. fold qd. rewrite Hen. cbn [andb].
  split; intros Hc.
  - apply Z.geb_le in Hc. rewrite Hc.
    destruct (_parse_wrap_tag _) as [opening closing]. cbn [fst snd].
    unfold inner. now rewrite !RunFacts.append_assoc.
  - destruct (Z.of_nat (_count_quotes cfg txt) >=? Config.get (Config.threshold qd) 3)%Z
      eqn:E; [|reflexivity].
    apply Z.geb_le in E. lia.
Qed.

End QuoteFacts.

Module QuoteClaims.
Import Docx RunConsolidator Converter SpecWords Examples QuoteFacts.


(** When the configured quote types are distinct single characters, the
    paragraph is wrapped exactly when the number of those characters in its
    trimmed text reaches the threshold. *)
Lemma quote_wrapping_for_character_sets
      (cfg : Config.t) (p : Paragraph) (types : list string) :
  let txt := PyStr.strip (p_text p) in
  let tag := Config.get (Config.paragraph_tag (Config.output cfg)) "p" in
  let qd := Config.quote_detection cfg in
  let inner := "<" ++ tag ++ ">" ++ _process_runs p ++ "</" ++ tag ++ ">" in
  let wrapper := _parse_wrap_tag (Config.get (Config.wrap_tag qd) "blockquote") in
  Config.quote_types qd = Some types ->
  NoDup types ->
  Forall (fun q => single_character q = true) types ->
  PyStr.nonempty txt = true ->
  PyStr.startswith (style_name p) "Heading" = false ->
  Config.get (Config.enabled qd) false = true ->
  ((Config.get (Config.threshold qd) 3 <= Z.of_nat (quote_characters types txt))%Z ->
   _convert_paragraph cfg p = fst wrapper ++ inner ++ snd wrapper)
  /\ (Z.of_nat (quote_characters types txt) = (Config.get (Config.threshold qd) 3 - 1)%Z ->
      _convert_paragraph cfg p = inner).
Proof.
  intros txt tag qd inner wrapper Hty Hnd Hall Htxt Hstyle Hen.
  destruct (quote_threshold cfg p Htxt Hstyle Hen) as [Hwrap Hbare].
  rewrite (count_quotes_character_set cfg types _ Hty Hnd Hall) in Hwrap, Hbare.
  split; intros Hc; [now apply Hwrap|].
  apply Hbare. unfold txt, qd in Hc. rewrite Hc. lia.
Qed.

(** C8 holds for every configured list of distinct single characters and
    fails on the code when no quote types are configured.  For such a list,
    a regular paragraph is wrapped when the number of those characters in
    its trimmed text reaches the threshold and is not wrapped when that
    number is the threshold minus one.  The built-in list, however, names
    the double quote three times and the apostrophe twice, so every double
    quote counts three times: the text of two double quotes around hi has 2
    quote characters, one less than the threshold 3; its count is 6 and the
    paragraph is wrapped. *)
Theorem C8_default_quote_types_overcount :
  (forall (cfg : Config.t) (p : Paragraph) (types : list string),
      let txt := PyStr.strip (p_text p) in
      let tag := Config.get (Config.paragraph_tag (Config.output cfg)) "p" in
      let qd := Config.quote_detection cfg in
      let inner := "<" ++ tag ++ ">" ++ _process_runs p ++ "</" ++ tag ++ ">" in
      let wrapper := _parse_wrap_tag (Config.get (Config.wrap_tag qd) "blockquote") in
      Config.quote_types qd = Some types ->
      NoDup types ->
      Forall (fun q => single_character q = true) types ->
      PyStr.nonempty txt = true ->
      PyStr.startswith (style_name p) "Heading" = false ->
      Config.get (Config.enabled qd) false = true ->
      ((Config.get (Config.threshold qd) 3 <= Z.of_nat (quote_characters types txt))%Z ->
       _convert_paragraph cfg p = fst wrapper ++ inner ++ snd wrapper)
      /\ (Z.of_nat (quote_characters types txt)
          = (Config.get (Config.threshold qd) 3 - 1)%Z ->
          _convert_paragraph cfg p = inner))
  /\ Config.get (Config.quote_types (Config.quote_detection quotes_enabled))
                default_quote_types
     = [dq; dq; dq; "'"; "'"]
  /\ Config.get (Config.threshold (Config.quote_detection quotes_enabled)) 3%Z = 3%Z
  /\ PyStr.strip (p_text quoted_hi) = dq ++ "hi" ++ dq
  /\ quote_characters default_quote_types (PyStr.strip (p_text quoted_hi)) = 2
  /\ _count_quotes quotes_enabled (PyStr.strip (p_text quoted_hi)) = 6
  /\ _convert_paragraph quotes_enabled quoted_hi
     = "<blockquote><p>&quot;hi&quot;</p></blockquote>".
Proof.
  split; [exact quote_wrapping_for_character_sets|].
  repeat split; reflexivity.
Qed.

(** With the double quote and the apostrophe configured once each, the same
    text, which has 2 quote characters, is not wrapped at threshold 3. *)
Lemma C8_default_quote_types_overcount_witness :
  _convert_paragraph quotes_configured quoted_hi = "<p>&quot;hi&quot;</p>".
Proof.
  refine (eq_trans
            (proj2 (proj1 C8_default_quote_types_overcount quotes_configured quoted_hi
                      [dq; "'"] eq_refl _ _ eq_refl eq_refl eq_refl) eq_refl) _).
  - repeat constructor; cbn; intuition discriminate.
  - repeat constructor.
  - reflexivity.
Defined.

End QuoteClaims.

(* ================================================================= *)
(** * Further properties of the code *)

(** ** HTML escaping *)

Module EscapeFacts.
Import RunConsolidator Invariants Reference RunFacts NestingFacts.

(** Replacing one character is a substitution character by character. *)
Lemma replace_char_substitute (c : ascii) (new s : string) :
  PyStr.replace s (String c EmptyString) new
  = substitute (fun x => if Ascii.eqb x c then new else String x EmptyString) s.
Proof.
  unfold PyStr.replace. induction s as [|x s IH]; [reflexivity|].
  cbn [PyStr.replace_from String.prefix String.length Nat.sub substitute].
  rewrite prefix_empty, IH.
  destruct (ascii_dec c x) as [->|Hne].
  - rewrite Ascii.eqb_refl. reflexivity.
  - assert (E : Ascii.eqb x c = false) by (apply Ascii.eqb_neq; congruence).
    rewrite E. reflexivity.
Qed.

Lemma substitute_app (f : ascii -> string) (x y : string) :
  substitute f (x ++ y) = substitute f x ++ substitute f y.
Proof.
  induction x as [|c x IH]; [reflexivity|].
  cbn [String.append substitute]. now rewrite IH, append_assoc.
Qed.

Lemma replace_char_app (c : ascii) (new x y : string) :
  PyStr.replace (x ++ y) (String c EmptyString) new
  = PyStr.replace x (String c EmptyString) new
    ++ PyStr.replace y (String c EmptyString) new.
Proof. now rewrite !replace_char_substitute, substitute_app. Qed.

(** escaping distributes over concatenation. *)
Lemma escape_app (x y : string) :
  _escape_html (x ++ y) = _escape_html x ++ _escape_html y.
Proof.
  unfold _escape_html, escape_table, dq. cbn [fold_left fst snd].
  now rewrite !replace_char_app.
Qed.

Lemma escape_one (c : ascii) : _escape_html (String c EmptyString) = escape_char c.
Proof.
  destruct c as [[|] [|] [|] [|] [|] [|] [|] [|]]; reflexivity.
Qed.

(** the five replacements made one after the other, ampersand first,
    act as one substitution that replaces every character of the text by its
    entity at once: no entity written by an earlier replacement is touched
    by a later one. *)
Lemma escape_is_simultaneous (t : string) :
  _escape_html t = substitute escape_char t.
Proof.
  induction t as [|c t IH]; [reflexivity|].
  change (String c t) with (String c EmptyString ++ t).
  rewrite escape_app, escape_one, IH. reflexivity.
Qed.

Lemma has_char_substitute (c : ascii) (f : ascii -> string) (t : string) :
  (forall x, has_char c (f x) = false) -> has_char c (substitute f t) = false.
Proof.
  intros H. induction t as [|x t IH]; [reflexivity|].
  cbn [substitute]. now rewrite has_char_app, H, IH.
Qed.

(** an escaped text holds no angle bracket, no double quote and no
    apostrophe, whatever the text was. *)
Lemma escape_output_is_inert (t : string) :
  has_char "<"%char (_escape_html t) = false
  /\ has_char ">"%char (_escape_html t) = false
  /\ has_char HyperlinkExtractor.quote (_escape_html t) = false
  /\ has_char "'"%char (_escape_html t) = false.
Proof.
  rewrite escape_is_simultaneous.
  repeat split; apply has_char_substitute;
    intros [[|] [|] [|] [|] [|] [|] [|] [|]]; reflexivity.
Qed.

Lemma escape_char_plain (c : ascii) :
  is_special c = false -> escape_char c = String c EmptyString.
Proof.
  destruct c as [[|] [|] [|] [|] [|] [|] [|] [|]]; intros H;
    try reflexivity; discriminate H.
Qed.

(** a text with none of the five characters is left as it is. *)
Lemma escape_plain_text (t : string) :
  has_special t = false -> _escape_html t = t.
Proof.
  rewrite escape_is_simultaneous.
  induction t as [|c t IH]; intros H; [reflexivity|].
  cbn in H. apply orb_false_elim in H. destruct H as [Hc Ht].
  cbn [substitute]. now rewrite escape_char_plain, IH.
Qed.

Lemma length_app (x y : string) :
  String.length (x ++ y) = String.length x + String.length y.
Proof. induction x as [|c x IH]; [reflexivity|]. cbn. now rewrite IH. Qed.

Lemma escape_char_length (c : ascii) :
  1 <= String.length (escape_char c)
  /\ (is_special c = true -> 2 <= String.length (escape_char c)).
Proof.
  destruct c as [[|] [|] [|] [|] [|] [|] [|] [|]]; cbn; split;
    try lia; intros H; try lia; discriminate H.
Qed.

Lemma escape_length (t : string) :
  String.length t <= String.length (substitute escape_char t)
  /\ (has_special t = true ->
      String.length t < String.length (substitute escape_char t)).
Proof.
  induction t as [|c t [IH1 IH2]]; [split; [reflexivity|discriminate]|].
  cbn [substitute has_special String.length]. rewrite length_app.
  destruct (escape_char_length c) as [H1 H2]. split; [lia|].
  intros H. apply orb_prop in H. destruct H as [H|H].
  - specialize (H2 H). lia.
  - specialize (IH2 H). lia.
Qed.

Lemma has_special_app (x y : string) :
  has_special (x ++ y) = has_special x || has_special y.
Proof.
  induction x as [|c x IH]; [reflexivity|]. cbn. now rewrite IH, orb_assoc.
Qed.

Lemma escape_char_special (c : ascii) :
  is_special c = true -> has_special (escape_char c) = true.
Proof.
  destruct c as [[|] [|] [|] [|] [|] [|] [|] [|]]; intros H;
    try reflexivity; discriminate H.
Qed.

Lemma escape_keeps_special (t : string) :
  has_special t = true -> has_special (substitute escape_char t) = true.
Proof.
  induction t as [|c t IH]; [discriminate|].
  cbn [has_special substitute]. rewrite has_special_app.
  intros H. apply orb_prop in H. destruct H as [H|H].
  - now rewrite escape_char_special.
  - rewrite IH by exact H. apply orb_true_r.
Qed.

(** escaping is not idempotent: a text that holds one of the five
    characters, an ampersand in particular, is changed again by a second
    escaping, because every entity starts with an ampersand. *)
Lemma escape_twice_differs (t : string) :
  has_special t = true ->
  _escape_html (_escape_html t) <> _escape_html t.
Proof.
  intros H E. rewrite !escape_is_simultaneous in E.
  pose proof (proj2 (escape_length (substitute escape_char t))
                (escape_keeps_special t H)) as Hlt.
  rewrite E in Hlt. lia.
Qed.

End EscapeFacts.

Module EscapeProps.
Import RunConsolidator Invariants Reference EscapeFacts.

(** X1: the five replacements of [_escape_html], made one after the other
    with the ampersand first, act as one substitution that replaces every
    character of the text by its entity at once: no entity written by an
    earlier replacement is touched by a later one. *)
Theorem X1_escape_is_simultaneous (t : string) :
  _escape_html t = substitute escape_char t.
Proof. exact (escape_is_simultaneous t). Qed.

(** X2: escaping distributes over concatenation, so escaping the run texts
    one by one and joining them gives the escaped joined text. *)
Theorem X2_escape_distributes (x y : string) :
  _escape_html (x ++ y) = _escape_html x ++ _escape_html y.
Proof. exact (escape_app x y). Qed.

(** X3: an escaped text holds no angle bracket, no double quote and no
    apostrophe, whatever the text was. *)
Theorem X3_escape_output_is_inert (t : string) :
  has_char "<"%char (_escape_html t) = false
  /\ has_char ">"%char (_escape_html t) = false
  /\ has_char HyperlinkExtractor.quote (_escape_html t) = false
  /\ has_char "'"%char (_escape_html t) = false.
Proof. exact (escape_output_is_inert t). Qed.

(** X4: a text with none of the five characters is left as it is, and a
    text that holds one of them, an ampersand in particular, is changed
    again by a second escaping: escaping is not idempotent, because every
    entity starts with an ampersand. *)
Theorem X4_escape_twice (t : string) :
  (has_special t = false -> _escape_html t = t)
  /\ (has_special t = true -> _escape_html (_escape_html t) <> _escape_html t).
Proof. split; [apply escape_plain_text|apply escape_twice_differs]. Qed.

Lemma X4_escape_twice_witness :
  _escape_html "Hello World" = "Hello World"
  /\ _escape_html (_escape_html "R&D") <> _escape_html "R&D".
Proof.
  split.
  - exact (proj1 (X4_escape_twice "Hello World") eq_refl).
  - exact (proj2 (X4_escape_twice "R&D") eq_refl).
Defined.

End EscapeProps.

(** ** List Builder: flat lists and lost items *)

Module ListBuilderMore.
Import ListBuilder ListBuilderFacts Reference.

Lemma nth_error_after {A : Type} (pre : list A) (x : A) (rest : list A) :
  nth_error (pre ++ x :: rest) (length pre + 1)
  = match rest with [] => None | y :: _ => Some y end.
Proof.
  rewrite nth_error_app2 by lia.
  replace (length pre + 1 - length pre) with 1 by lia.
  destruct rest; reflexivity.
Qed.

(** One loop iteration on an item of the frame's level that is not followed
    by a deeper item. *)
Lemma build_while_simple fuel pre it rest cur parts ty started :
  item_level it = cur ->
  match rest with
  | [] => True
  | next :: _ => (item_level next <= cur)%Z
  end ->
  build_while (S fuel) (pre ++ it :: rest) cur parts (length pre) ty started
  = build_while fuel (pre ++ it :: rest) cur
      (PyList.append (PyList.extend parts (open_list started ty (item_kind it)))
                     (li_line it))
      (length pre + 1) (Some (item_kind it)) true.
Proof.
  intros Hl Hnext. cbn [build_while].
  rewrite HyperlinkFacts.nth_error_middle.
  destruct it as [[level kind] txt]. unfold item_level in Hl. cbn in Hl. subst level.
  rewrite Z.ltb_irrefl, Z.eqb_refl, nth_error_after.
  destruct rest as [|next rest]; [reflexivity|].
  assert (E : (item_level next >? cur)%Z = false).
  { rewrite Z.gtb_ltb. apply Z.ltb_ge. exact Hnext. }
  rewrite E. reflexivity.
Qed.

(** A block of items of one level and one kind, not followed by a deeper
    item: the loop writes the opening lines once and one line per item. *)
Lemma build_while_flat (block : list item) :
  forall fuel pre it post cur kind parts ty started,
    Forall (flat_item cur kind) (it :: block) ->
    match post with
    | [] => True
    | next :: _ => (item_level next <= cur)%Z
    end ->
    build_while (S (length block) + fuel) (pre ++ (it :: block) ++ post) cur parts
      (length pre) ty started
    = build_while fuel (pre ++ (it :: block) ++ post) cur
        (PyList.extend (PyList.extend parts (open_list started ty kind))
                       (map li_line (it :: block)))
        (length pre + S (length block)) (Some kind) true.
Proof.
  induction block as [|it' block IH];
    intros fuel pre it post cur kind parts ty started Hall Hpost.
  - inversion Hall as [|? ? [Hl Hk] _]; subst.
    cbn [length Nat.add app]. rewrite build_while_simple; [|reflexivity|exact Hpost].
    unfold PyList.append, PyList.extend. cbn [map]. reflexivity.
  - inversion Hall as [|? ? [Hl Hk] Hrest]; subst.
    inversion Hrest as [|? ? [Hl' Hk'] _]; subst.
    cbn [length Nat.add].
    change (pre ++ (it :: it' :: block) ++ post)%list
      with (pre ++ it :: (it' :: block) ++ post)%list.
    rewrite build_while_simple; [|reflexivity|cbn; lia].
    replace (pre ++ it :: (it' :: block) ++ post)%list
      with ((pre ++ [it]) ++ (it' :: block) ++ post)%list
      by (rewrite <- app_assoc; reflexivity).
    replace (length pre + 1) with (length (pre ++ [it]))
      by (rewrite length_app; reflexivity).
    rewrite (IH fuel (pre ++ [it])%list it' post (item_level it) (item_kind it));
      [|exact Hrest|exact Hpost].
    rewrite length_app. cbn [length].
    replace (length pre + 1 + S (length block)) with (length pre + S (S (length block)))
      by lia.
    f_equal. unfold PyList.append, PyList.extend, open_list.
    cbn [negb]. destruct (item_kind it); cbn [list_type_eqb map];
      rewrite <- ?app_assoc; reflexivity.
Qed.

Lemma min_level_flat (level : Z) (kind : list_type) (first : item) (others : list item) :
  Forall (flat_item level kind) (first :: others) -> min_level first others = level.
Proof.
  intros Hall. inversion Hall as [|? ? [Hl _] Hrest]; subst.
  unfold min_level. clear Hall.
  induction Hrest as [|x others [Hx _] _ IH]; [reflexivity|].
  cbn [fold_left]. rewrite Hx, Z.min_id. exact IH.
Qed.

(** A list whose items all have one level and one kind. *)
Lemma flat_list (level : Z) (kind : list_type) (first : item) (others : list item)
      (ty : option list_type) :
  Forall (flat_item level kind) (first :: others) ->
  _create_list_html (first :: others) ty
  = PyStr.join PyStr.nl (list_block kind (first :: others)).
Proof.
  intros Hall. unfold _create_list_html.
  rewrite (min_level_flat level kind) by exact Hall.
  unfold build_fuel. cbn [length].
  replace (2 * S (length others) + 3)
    with (S (S (length others) + (S (length others) + 2))) by lia.
  cbn [_build_nested_list length Nat.leb].
  pose proof (build_while_flat others (S (length others) + 2) [] first [] level kind
                [] None false Hall I) as H.
  cbn [app length Nat.add] in H. rewrite app_nil_r in H.
  cbn [Nat.add]. rewrite H.
  rewrite build_while_end.
  - unfold list_block, PyList.append, PyList.extend, open_list, close_list.
    cbn [negb app]. reflexivity.
  - apply nth_error_None. cbn [length]. lia.
Qed.

(** Two blocks of one level, of different kinds. *)
Lemma two_kinds (level : Z) (kind1 kind2 : list_type) (it1 : item) (block1 : list item)
      (it2 : item) (block2 : list item) (ty : option list_type) :
  kind1 <> kind2 ->
  Forall (flat_item level kind1) (it1 :: block1) ->
  Forall (flat_item level kind2) (it2 :: block2) ->
  _create_list_html ((it1 :: block1) ++ it2 :: block2) ty
  = PyStr.join PyStr.nl
      (PyList.extend (list_block kind1 (it1 :: block1))
                     (list_block kind2 (it2 :: block2))).
Proof.
  intros Hne H1 H2.
  assert (Hmin : min_level it1 (block1 ++ it2 :: block2) = level).
  { pose proof (min_level_fold (block1 ++ it2 :: block2) (item_level it1))
      as (Hle & Hall & Hex).
    fold (min_level it1 (block1 ++ it2 :: block2)) in Hle, Hall, Hex.
    assert (Hlev : forall it, In it (it1 :: block1 ++ it2 :: block2) ->
                              item_level it = level).
    { intros it [<-|Hin].
      - inversion H1 as [|? ? [Hl _] _]. exact Hl.
      - apply in_app_or in Hin. destruct Hin as [Hin|Hin].
        + inversion H1 as [|? ? _ Hr]; subst. rewrite Forall_forall in Hr.
          exact (proj1 (Hr it Hin)).
        + rewrite Forall_forall in H2. exact (proj1 (H2 it Hin)). }
    destruct Hex as [Hex|(it & Hin & Hex)].
    - rewrite Hex. apply Hlev. now left.
    - rewrite Hex. apply Hlev. now right. }
  unfold _create_list_html. cbn [app]. rewrite Hmin.
  unfold build_fuel. cbn [length]. rewrite length_app. cbn [length].
  replace (2 * S (length block1 + S (length block2)) + 3)
    with (S (S (length block1)
             + (S (length block2) + (S (length block1 + length block2 + 3))))) by lia.
  cbn [_build_nested_list length Nat.leb].
  assert (Hpost : (item_level it2 <= level)%Z).
  { inversion H2 as [|? ? [Hl _] _]. lia. }
  pose proof (build_while_flat block1
                (S (length block2) + (S (length block1 + length block2 + 3)))
                [] it1 (it2 :: block2) level kind1 [] None false H1 Hpost) as E1.
  cbn [app length Nat.add] in E1. cbn [Nat.add]. rewrite E1. clear E1.
  pose proof (build_while_flat block2 (S (length block1 + length block2 + 3))
                (it1 :: block1) it2 [] level kind2
                (PyList.extend (PyList.extend [] (open_list false None kind1))
                               (map li_line (it1 :: block1)))
                (Some kind1) true H2 I) as E2.
  cbn [app length Nat.add] in E2. rewrite app_nil_r in E2.
  cbn [Nat.add] in E2 |- *. rewrite E2. clear E2.
  rewrite build_while_end.
  - unfold list_block, PyList.append, PyList.extend, open_list, close_list.
    cbn [negb app].
    assert (Hk : list_type_eqb kind1 kind2 = false)
      by (destruct kind1, kind2; try reflexivity; now elim Hne).
    rewrite Hk. cbn [app]. rewrite <- !app_assoc. reflexivity.
  - apply nth_error_None. cbn [length]. rewrite length_app. cbn [length]. lia.
Qed.

(** A first item above the minimum level: nothing is written at all. *)
Lemma first_item_above_minimum (first : item) (others : list item)
      (ty : option list_type) :
  (min_level first others < item_level first)%Z ->
  _create_list_html (first :: others) ty = EmptyString.
Proof.
  intros Hlt. unfold _create_list_html, build_fuel. cbn [length].
  replace (2 * S (length others) + 3) with (S (S (2 * length others + 3))) by lia.
  cbn [_build_nested_list length Nat.leb].
  rewrite (build_while_higher (2 * length others + 3) (first :: others)
             (min_level first others) [] 0 None false first eq_refl Hlt).
  reflexivity.
Qed.

End ListBuilderMore.

(** ** Hyperlink Extractor: what every extracted span satisfies *)

Module HyperlinkMore.
Import Docx HyperlinkExtractor RunConsolidator Invariants HyperlinkFacts Reference RunFacts.

Lemma search_hyperlink_nonempty (s url : string) :
  search_hyperlink s = Some url -> PyStr.nonempty url = true.
Proof.
  induction s as [|c s IH]; cbn [search_hyperlink].
  - cbn. discriminate.
  - destruct (match_hyperlink_at (String c s)) as [u|] eqn:E; [|exact IH].
    intros [= <-]. unfold match_hyperlink_at in E.
    destruct (String.prefix "HYPERLINK" (String c s)); [|discriminate].
    destruct (String.eqb _ _); [discriminate|].
    destruct (PyStr.lstrip _) as [|q rest]; [discriminate|].
    destruct (Ascii.eqb q quote); [|discriminate].
    destruct (until_quote rest) as [[|g0 g] [|a0 a]]; try discriminate.
    now injection E as <-.
Qed.

Lemma scan_instruction_nonempty (rs : list RunElem) :
  forall j url j',
    scan_instruction rs j = (Some url, j') -> PyStr.nonempty url = true.
Proof.
  induction rs as [|r rs IH]; intros j url j'; cbn [scan_instruction]; [discriminate|].
  destruct (hyperlink_instruction r) as [found|] eqn:E.
  - intros [= -> _]. unfold hyperlink_instruction in E.
    destruct (instrText r) as [t|]; [|discriminate].
    destruct (PyStr.nonempty t); [|discriminate].
    destruct (PyStr.startswith _ _); [|discriminate].
    injection E as E. eapply search_hyperlink_nonempty. eassumption.
  - destruct (is_fld r "separate" || is_fld r "end"); [discriminate|apply IH].
Qed.

Lemma collect_link_runs_members (rs : list RunElem) :
  forall j,
    Forall (fun r => In r rs /\ is_fld r "end" = false)
           (fst (collect_link_runs rs j)).
Proof.
  induction rs as [|r rs IH]; intros j; cbn [collect_link_runs]; [constructor|].
  destruct (is_fld r "end") eqn:E; [constructor|].
  specialize (IH (S j)). destruct (collect_link_runs rs (S j)) as [l j'].
  cbn [fst] in *. constructor; [split; [now left|exact E]|].
  eapply Forall_impl; [|exact IH]. intros x [Hin Hx]. split; [now right|exact Hx].
Qed.

Lemma in_skipn {A : Type} (x : A) (l : list A) :
  forall n, In x (skipn n l) -> In x l.
Proof.
  induction l as [|y l IH]; intros [|n] H; try exact H.
  right. exact (IH n H).
Qed.

(** The outer loop only appends spans that are sound, numbered from the
    field counter on. *)
Lemma field_loop_appends fuel all_runs :
  forall i field_idx hyperlinks spans,
    field_loop fuel all_runs i field_idx hyperlinks = Some spans ->
    exists added,
      spans = (hyperlinks ++ added)%list
      /\ Forall (field_span_ok all_runs) added
      /\ map link_id added = map field_name (seq field_idx (length added)).
Proof.
  induction fuel as [|fuel IH]; intros i field_idx hyperlinks spans; [discriminate|].
  cbn [field_loop].
  destruct (nth_error all_runs i) as [run|].
  2:{ intros [= <-]. exists []. rewrite app_nil_r. repeat split; constructor. }
  destruct (is_fld run "begin"); [|apply IH].
  destruct (scan_instruction (skipn (i + 1) all_runs) (i + 1)) as [[url|] j] eqn:Es;
    [|apply IH].
  pose proof (collect_link_runs_members
                (skipn (skip_to_separate (skipn j all_runs) j) all_runs)
                (skip_to_separate (skipn j all_runs) j)) as Hm.
  destruct (collect_link_runs _ _) as [[|r l] j2]; [apply IH|].
  cbn [fst] in Hm. intros H. apply IH in H.
  destruct H as (added & -> & Hall & Hids).
  exists (("field_" ++ PyStr.of_nat field_idx, url, r :: l, field_link_text (r :: l))
            :: added).
  split; [unfold PyList.append; now rewrite <- app_assoc|]. split.
  - constructor; [|exact Hall].
    split; [|split; [discriminate|split; [|reflexivity]]].
    + eapply scan_instruction_nonempty. exact Es.
    + eapply Forall_impl; [|exact Hm].
      intros x [Hin Hx]. split; [eapply in_skipn; exact Hin|exact Hx].
  - cbn [map length seq]. f_equal.
    replace (S field_idx) with (field_idx + 1) by lia. exact Hids.
Qed.

(** The spans of [_extract_field_hyperlinks]. *)
Lemma field_spans_sound (p : Paragraph) :
  Forall (field_span_ok (all_runs p)) (_extract_field_hyperlinks p)
  /\ map link_id (_extract_field_hyperlinks p)
     = map field_name (seq 0 (length (_extract_field_hyperlinks p))).
Proof.
  unfold _extract_field_hyperlinks.
  destruct (field_loop (S (length (all_runs p))) (all_runs p) 0 0 []) as [spans|] eqn:E.
  - apply field_loop_appends in E. destruct E as (added & -> & Hall & Hids).
    now split.
  - split; [constructor|reflexivity].
Qed.

Lemma explicit_span_url rels idx h :
  Forall (fun s => PyStr.nonempty (link_url s) = true /\ link_runs s = h_runs h)
         (explicit_span rels idx h).
Proof.
  unfold explicit_span.
  destruct (if negb _ && _ then _ else _) as [u|]; [|constructor].
  destruct (PyStr.nonempty u) eqn:E; [|constructor].
  constructor; [|constructor]. now split.
Qed.

Lemma explicit_spans_url rels hs :
  forall idx,
    Forall (fun s => PyStr.nonempty (link_url s) = true) (explicit_spans rels idx hs)
    /\ length (explicit_spans rels idx hs) <= length hs.
Proof.
  induction hs as [|h hs IH]; intros idx; cbn [explicit_spans].
  - split; [constructor|reflexivity].
  - destruct (IH (S idx)) as [H1 H2]. split.
    + apply Forall_app. split; [|exact H1].
      eapply Forall_impl; [|exact (explicit_span_url rels idx h)].
      now intros s [Hs _].
    + rewrite length_app. cbn [length].
      assert (length (explicit_span rels idx h) <= 1).
      { unfold explicit_span.
        destruct (if negb _ && _ then _ else _) as [u|]; [|cbn; lia].
        destruct (PyStr.nonempty u); cbn; lia. }
      lia.
Qed.

Lemma rev_app (x y : string) : PyStr.rev (x ++ y) = PyStr.rev y ++ PyStr.rev x.
Proof.
  induction x as [|c x IH]; cbn [String.append PyStr.rev].
  - now rewrite append_empty_r.
  - now rewrite IH, append_assoc.
Qed.

Lemma rev_involutive (x : string) : PyStr.rev (PyStr.rev x) = x.
Proof.
  induction x as [|c x IH]; [reflexivity|].
  cbn [PyStr.rev]. rewrite rev_app, IH. reflexivity.
Qed.

Lemma until_quote_stop (url rest : string) :
  has_char quote url = false ->
  until_quote (url ++ String quote rest) = (url, String quote rest).
Proof.
  induction url as [|c url IH]; intros H.
  - reflexivity.
  - cbn [has_char] in H. apply orb_false_elim in H. destruct H as [Hc Hu].
    cbn [String.append until_quote]. rewrite Hc, (IH Hu). reflexivity.
Qed.

(** Trimming leaves the text of an instruction as it is: it starts with a
    letter and ends with a double quote. *)
Lemma strip_instruction_text (url : string) :
  PyStr.strip (hyperlink_instruction_text url) = hyperlink_instruction_text url.
Proof.
  unfold PyStr.strip.
  assert (E : PyStr.lstrip (hyperlink_instruction_text url)
              = hyperlink_instruction_text url) by reflexivity.
  rewrite E. unfold PyStr.rstrip.
  assert (R : PyStr.rev (hyperlink_instruction_text url)
              = String quote (PyStr.rev ("HYPERLINK " ++ dq ++ url))).
  { unfold hyperlink_instruction_text.
    replace ("HYPERLINK " ++ dq ++ url ++ dq) with (("HYPERLINK " ++ dq ++ url) ++ dq)
      by now rewrite !append_assoc.
    now rewrite rev_app. }
  rewrite R.
  assert (F : forall n r, PyStr.rstrip_fuel n (String quote r) = String quote r).
  { intros [|n] r; reflexivity. }
  rewrite F, <- R. apply rev_involutive.
Qed.

Lemma search_hyperlink_first (s url : string) :
  match_hyperlink_at s = Some url -> search_hyperlink s = Some url.
Proof. intros H. destruct s; cbn [search_hyperlink]; now rewrite H. Qed.

Lemma match_instruction_text (url : string) :
  PyStr.nonempty url = true ->
  has_char quote url = false ->
  match_hyperlink_at (hyperlink_instruction_text url) = Some url.
Proof.
  intros Hne Hq. unfold match_hyperlink_at.
  assert (P : String.prefix "HYPERLINK" (hyperlink_instruction_text url) = true)
    by reflexivity.
  assert (D : PyStr.drop 9 (hyperlink_instruction_text url)
              = String " " (String quote (url ++ String quote EmptyString)))
    by reflexivity.
  assert (L : PyStr.lstrip (String " " (String quote (url ++ String quote EmptyString)))
              = String quote (url ++ String quote EmptyString)).
  { unfold PyStr.lstrip. cbn [String.length PyStr.lstrip_fuel]. reflexivity. }
  rewrite P, D, L.
  assert (N : String.eqb (String quote (url ++ String quote EmptyString))
                         (String " " (String quote (url ++ String quote EmptyString)))
              = false) by reflexivity.
  rewrite N, Ascii.eqb_refl, until_quote_stop by exact Hq.
  destruct url; [discriminate|reflexivity].
Qed.

(** Reading back the URL written into a field instruction. *)
Lemma instruction_round_trip (r : RunElem) (url : string) :
  instrText r = Some (hyperlink_instruction_text url) ->
  PyStr.nonempty url = true ->
  has_char quote url = false ->
  hyperlink_instruction r = Some (Some url).
Proof.
  intros Hi Hne Hq. unfold hyperlink_instruction. rewrite Hi.
  rewrite strip_instruction_text.
  change (PyStr.nonempty (hyperlink_instruction_text url)) with true.
  change (PyStr.startswith (hyperlink_instruction_text url) "HYPERLINK") with true.
  cbv iota. do 2 f_equal.
  now apply search_hyperlink_first, match_instruction_text.
Qed.

Lemma skipn_exact {A : Type} (before rest : list A) (n : nat) :
  n = length before -> skipn n (before ++ rest) = rest.
Proof.
  intros ->. induction before as [|x before IH]; [reflexivity|exact IH].
Qed.

Lemma skip_to_separate_found (block : list RunElem) :
  forall sep rest j,
    Forall (fun r => is_fld r "separate" = false) block ->
    is_fld sep "separate" = true ->
    skip_to_separate (block ++ sep :: rest) j = j + length block + 1.
Proof.
  induction block as [|r block IH]; intros sep rest j Hall Hsep.
  - cbn [app skip_to_separate length]. rewrite Hsep. lia.
  - inversion Hall as [|? ? Hr Hrest]; subst.
    cbn [app skip_to_separate length]. rewrite Hr, IH by assumption. lia.
Qed.

Lemma collect_link_runs_found (members : list RunElem) :
  forall endm rest j,
    Forall (fun r => is_fld r "end" = false) members ->
    is_fld endm "end" = true ->
    collect_link_runs (members ++ endm :: rest) j = (members, j + length members).
Proof.
  induction members as [|r members IH]; intros endm rest j Hall Hend.
  - cbn [app collect_link_runs length]. rewrite Hend. f_equal. lia.
  - inversion Hall as [|? ? Hr Hrest]; subst.
    cbn [app collect_link_runs length]. rewrite Hr, IH by assumption.
    f_equal. lia.
Qed.

(** A complete field: begin marker, runs without effect, the HYPERLINK
    instruction, runs up to the separate marker, member runs, end marker. *)
Lemma field_loop_complete_field fuel pre begin_run mid instr between sep member
      members endm post field_idx hyperlinks url :
  is_fld begin_run "begin" = true ->
  Forall inert mid ->
  hyperlink_instruction instr = Some (Some url) ->
  Forall (fun r => is_fld r "separate" = false) (instr :: between) ->
  is_fld sep "separate" = true ->
  Forall (fun r => is_fld r "end" = false) (member :: members) ->
  is_fld endm "end" = true ->
  let field := (begin_run :: mid ++ instr :: between ++ sep :: (member :: members)
                ++ [endm])%list in
  field_loop (S fuel) (pre ++ field ++ post) (length pre) field_idx hyperlinks
  = field_loop fuel (pre ++ field ++ post) (length pre + length field) (field_idx + 1)
      (PyList.append hyperlinks
         (field_name field_idx, url, member :: members,
          field_link_text (member :: members))).
Proof.
  intros Hb Hmid Hinstr Hnosep Hsep Hmem Hend field.
  set (all_runs := (pre ++ field ++ post)%list).
  assert (Shape1 : all_runs
                   = (pre ++ begin_run
                          :: mid ++ instr :: between ++ sep
                          :: (member :: members) ++ endm :: post)%list).
  { unfold all_runs, field. cbn [app]. repeat (rewrite <- ?app_assoc; cbn [app]).
    reflexivity. }
  set (j := length pre + 1 + length mid).
  set (j1 := j + length (instr :: between) + 1).
  assert (E0 : nth_error all_runs (length pre) = Some begin_run)
    by (rewrite Shape1; apply nth_error_middle).
  assert (E1 : scan_instruction (skipn (length pre + 1) all_runs) (length pre + 1)
               = (Some url, j)).
  { rewrite Shape1, skipn_middle, scan_instruction_inert by exact Hmid.
    cbn [scan_instruction]. now rewrite Hinstr. }
  assert (E2 : skip_to_separate (skipn j all_runs) j = j1).
  { replace all_runs
      with ((pre ++ begin_run :: mid)
            ++ (instr :: between) ++ sep
            :: (member :: members) ++ endm :: post)%list.
    2:{ rewrite Shape1. cbn [app]. repeat (rewrite <- ?app_assoc; cbn [app]).
        reflexivity. }
    rewrite skipn_exact by (unfold j; rewrite length_app; cbn [length]; lia).
    now rewrite skip_to_separate_found. }
  assert (E3 : collect_link_runs (skipn j1 all_runs) j1
               = (member :: members, j1 + length (member :: members))).
  { replace all_runs
      with ((pre ++ begin_run :: mid ++ instr :: between ++ [sep])
            ++ (member :: members) ++ endm :: post)%list.
    2:{ rewrite Shape1. cbn [app]. repeat (rewrite <- ?app_assoc; cbn [app]).
        reflexivity. }
    rewrite skipn_exact
      by (unfold j1, j; repeat (rewrite length_app; cbn [length]); lia).
    now rewrite collect_link_runs_found. }
  cbn [field_loop]. rewrite E0, Hb, E1, E2, E3.
  f_equal. unfold j1, j, field. cbn [length].
  repeat (rewrite length_app; cbn [length]). lia.
Qed.

End HyperlinkMore.

(** ** Run Consolidator: runs inside one hyperlink *)

Module RunMore.
Import Docx HyperlinkExtractor RunConsolidator Invariants Reference RunFacts.

#[local] Arguments _escape_html : simpl never.

Lemma link_eqb_refl (l : link) : link_eqb l l = true.
Proof.
  destruct l as [[id url] txt]. cbn. now rewrite !String.eqb_refl.
Qed.

Lemma escaped_text_in_link (t : string) :
  (if negb (PyStr.nonempty t) && true then EmptyString else _escape_html t)
  = _escape_html t.
Proof. destruct t; reflexivity. Qed.

(** The first run of a link, met in the initial state. *)
Lemma link_inv_first hyperlinks l run :
  owning_link hyperlinks (_element run) = Some l ->
  link_inv l (py_bool (bold run)) (py_bool (italic run)) [text run] 1
           (walk_run hyperlinks initial_state run).
Proof.
  intros Hown. unfold walk_run. rewrite Hown.
  destruct l as [[id url] txt].
  cbn [mark_processed is_some negb andb initial_state].
  rewrite andb_false_r. unfold switch_hyperlink.
  cbn [current_hyperlink is_some opt_link_eqb negb andb].
  unfold add_to_group, link_inv. rewrite escaped_text_in_link. cbn.
  rewrite andb_false_r. repeat split; reflexivity.
Qed.

(** A further run of the same link with the same flags. *)
Lemma link_inv_step hyperlinks l b i texts n st run :
  texts <> [] ->
  link_inv l b i texts n st ->
  owning_link hyperlinks (_element run) = Some l ->
  py_bool (bold run) = b -> py_bool (italic run) = i ->
  link_inv l b i (texts ++ [text run]) (S n) (walk_run hyperlinks st run).
Proof.
  intros Hne (Hr & Hc & Hh & Hp & Hg) Hown Hb Hi.
  unfold walk_run. rewrite Hown.
  destruct st as [res cur ht pr g]. cbn in Hr, Hc, Hh, Hp, Hg. subst.
  destruct l as [[id url] txt].
  cbn [mark_processed is_some negb andb]. rewrite andb_false_r.
  unfold switch_hyperlink.
  cbn [current_hyperlink is_some opt_link_eqb negb andb].
  rewrite (link_eqb_refl (id, url, txt)). cbn [negb andb].
  unfold add_to_group, link_inv. rewrite escaped_text_in_link.
  destruct texts as [|t0 texts]; [now elim Hne|].
  cbn. rewrite !Bool.eqb_reflx, andb_false_r, !String.eqb_refl. cbn.
  unfold PyList.append. rewrite map_app. repeat split; reflexivity.
Qed.

Lemma link_inv_fold hyperlinks l b i rs :
  (forall r, In r rs -> owning_link hyperlinks (_element r) = Some l) ->
  (forall r, In r rs -> py_bool (bold r) = b /\ py_bool (italic r) = i) ->
  forall texts n st,
    texts <> [] ->
    link_inv l b i texts n st ->
    link_inv l b i (texts ++ map text rs) (length rs + n)
             (fold_left (walk_run hyperlinks) rs st).
Proof.
  induction rs as [|r rs IH]; intros Hown Hflags texts n st Hne Hinv.
  - cbn. now rewrite app_nil_r.
  - cbn [fold_left map length].
    replace (texts ++ text r :: map text rs)%list
      with ((texts ++ [text r]) ++ map text rs)%list
      by (rewrite <- app_assoc; reflexivity).
    replace (S (length rs) + n) with (length rs + S n) by lia.
    apply IH.
    + intros r' Hin. apply Hown. now right.
    + intros r' Hin. apply Hflags. now right.
    + destruct texts; discriminate.
    + destruct (Hflags r (or_introl eq_refl)) as [Hb Hi].
      apply link_inv_step; try assumption. apply Hown. now left.
Qed.

Lemma processed_repeat (id : string) (n : nat) (x : string) :
  processed (repeat id (S n)) x = processed [id] x.
Proof.
  unfold processed. induction n as [|n IH]; [reflexivity|].
  change (repeat id (S (S n))) with (id :: repeat id (S n)).
  cbn [existsb] in IH |- *. rewrite IH.
  destruct (String.eqb x id); reflexivity.
Qed.

Lemma unprocessed_links_repeat (id : string) (n : nat) (hyperlinks : list span) :
  unprocessed_links (repeat id (S n)) hyperlinks = unprocessed_links [id] hyperlinks.
Proof.
  induction hyperlinks as [|s hyperlinks IH]; [reflexivity|].
  cbn [unprocessed_links]. now rewrite processed_repeat, IH.
Qed.

(** Runs that all belong to one link and share their bold and italic flags
    give one anchor around one tag group, never underlined. *)
Lemma runs_of_one_link hyperlinks first rs id url txt b i :
  (forall r, In r (first :: rs) ->
             owning_link hyperlinks (_element r) = Some (id, url, txt)) ->
  (forall r, In r (first :: rs) -> py_bool (bold r) = b /\ py_bool (italic r) = i) ->
  process_runs_with hyperlinks (first :: rs)
  = _format_link url
      (SpecWords.tagged b "strong"
         (SpecWords.tagged i "em"
            (String.concat EmptyString (map _escape_html (map text (first :: rs))))))
    ++ String.concat EmptyString (unprocessed_links [id] hyperlinks).
Proof.
  intros Hown Hflags.
  destruct (Hflags first (or_introl eq_refl)) as [Hb Hi].
  pose proof (link_inv_first hyperlinks (id, url, txt) first
                (Hown first (or_introl eq_refl))) as H0.
  rewrite Hb, Hi in H0.
  assert (H : link_inv (id, url, txt) b i ([text first] ++ map text rs)
                       (length rs + 1)
                       (fold_left (walk_run hyperlinks) rs
                                  (walk_run hyperlinks initial_state first))).
  { apply link_inv_fold; try assumption; try discriminate.
    - intros r Hin. apply Hown. now right.
    - intros r Hin. apply Hflags. now right. }
  unfold process_runs_with, walk. cbn [fold_left].
  destruct (fold_left (walk_run hyperlinks) rs
                      (walk_run hyperlinks initial_state first))
    as [res cur ht pr g].
  destruct H as (Hr & Hc & Hh & Hp & Hg). cbn in Hr, Hc, Hh, Hp, Hg. subst.
  unfold flush_group.
  cbn [current_group g_text map app g_hyperlink is_some].
  unfold close_hyperlink.
  cbn [current_hyperlink result hyperlink_text processed_hyperlinks
       PyList.append PyList.extend app closing_anchor].
  rewrite concat_cons. cbn [String.concat].
  rewrite format_group_tagged. f_equal.
  replace (length rs + 1) with (S (length rs)) by lia.
  cbn [fst]. now rewrite unprocessed_links_repeat.
Qed.

Lemma concat_empty_texts (rs : list Run) :
  (forall r, In r rs -> text r = EmptyString) ->
  String.concat EmptyString (map _escape_html (map text rs)) = EmptyString.
Proof.
  induction rs as [|r rs IH]; intros H; [reflexivity|].
  cbn [map]. rewrite concat_cons, (H r (or_introl eq_refl)).
  rewrite IH by (intros r' Hin; apply H; now right).
  reflexivity.
Qed.

(** A link whose runs all have an empty text: an anchor without content,
    the text of the link element is not used. *)
Lemma empty_link_runs hyperlinks first rs id url txt b i :
  (forall r, In r (first :: rs) ->
             owning_link hyperlinks (_element r) = Some (id, url, txt)) ->
  (forall r, In r (first :: rs) -> py_bool (bold r) = b /\ py_bool (italic r) = i) ->
  (forall r, In r (first :: rs) -> text r = EmptyString) ->
  process_runs_with hyperlinks (first :: rs)
  = _format_link url (SpecWords.tagged b "strong" (SpecWords.tagged i "em" EmptyString))
    ++ String.concat EmptyString (unprocessed_links [id] hyperlinks).
Proof.
  intros Hown Hflags Hempty.
  rewrite (runs_of_one_link hyperlinks first rs id url txt b i Hown Hflags).
  now rewrite concat_empty_texts.
Qed.

Lemma unprocessed_same_id (id : string) (hyperlinks : list span) :
  Forall (fun s => link_id s = id) hyperlinks ->
  unprocessed_links [id] hyperlinks = [].
Proof.
  induction 1 as [|s hyperlinks Hs _ IH]; [reflexivity|].
  cbn [unprocessed_links]. unfold processed. cbn [existsb].
  rewrite Hs, String.eqb_refl. exact IH.
Qed.

(** Spans that share the identity of the visited link are not written,
    whatever their text is. *)
Lemma shared_identity hyperlinks first rs id url txt b i :
  (forall r, In r (first :: rs) ->
             owning_link hyperlinks (_element r) = Some (id, url, txt)) ->
  (forall r, In r (first :: rs) -> py_bool (bold r) = b /\ py_bool (italic r) = i) ->
  Forall (fun s => link_id s = id) hyperlinks ->
  process_runs_with hyperlinks (first :: rs)
  = _format_link url
      (SpecWords.tagged b "strong"
         (SpecWords.tagged i "em"
            (String.concat EmptyString (map _escape_html (map text (first :: rs)))))).
Proof.
  intros Hown Hflags Hids.
  rewrite (runs_of_one_link hyperlinks first rs id url txt b i Hown Hflags).
  rewrite unprocessed_same_id by exact Hids.
  apply append_empty_r.
Qed.

End RunMore.

(** ** Block Dispatcher and post-pass: buffering, suppression, failure *)

Module DispatcherMore.
Import Docx HyperlinkExtractor RunConsolidator ListBuilder Converter Reference.

(** A paragraph that is a list item is only buffered. *)
Lemma dispatch_list_paragraph cfg st p it :
  list_item_of p = Some it ->
  dispatch cfg st (CT_P p)
  = {| html_parts := html_parts st;
       current_list_items := PyList.append (current_list_items st) it;
       current_list_type :=
         match current_list_type st with
         | None => Some (snd (fst it))
         | Some t => Some t
         end |}.
Proof.
  unfold list_item_of, dispatch.
  destruct (_get_list_info p) as [[[list_type level] list_text]|]; [|discriminate].
  intros [= <-]. reflexivity.
Qed.

(** A sequence of list paragraphs grows the buffer and emits nothing. *)
Lemma dispatch_list_paragraphs cfg ps :
  Forall (fun p => list_item_of p <> None) ps ->
  forall st,
    html_parts (fold_left (dispatch cfg) (map CT_P ps) st) = html_parts st
    /\ current_list_items (fold_left (dispatch cfg) (map CT_P ps) st)
       = (current_list_items st ++ list_items_of ps)%list.
Proof.
  induction 1 as [|p ps Hp _ IH]; intros st.
  - cbn. now rewrite app_nil_r.
  - cbn [map fold_left list_items_of].
    destruct (list_item_of p) as [it|] eqn:E; [|now elim Hp].
    rewrite (dispatch_list_paragraph cfg st p it E).
    destruct (IH {| html_parts := html_parts st;
                    current_list_items := PyList.append (current_list_items st) it;
                    current_list_type :=
                      match current_list_type st with
                      | None => Some (snd (fst it))
                      | Some t => Some t
                      end |}) as [H1 H2].
    split; [exact H1|]. rewrite H2. cbn [current_list_items].
    unfold PyList.append. now rewrite <- app_assoc.
Qed.

Lemma create_list_html_ignores_type items ty ty' :
  _create_list_html items ty = _create_list_html items ty'.
Proof. reflexivity. Qed.

(** A document of list paragraphs only: one fragment, the list of all. *)
Lemma only_list_paragraphs cfg p ps :
  Forall (fun p => list_item_of p <> None) (p :: ps) ->
  dispatch_all cfg (map CT_P (p :: ps))
  = [_create_list_html (list_items_of (p :: ps)) None].
Proof.
  intros Hall. unfold dispatch_all.
  destruct (dispatch_list_paragraphs cfg (p :: ps) Hall idle) as [H1 H2].
  cbn [idle html_parts current_list_items app] in H1, H2.
  rewrite H1, H2.
  inversion Hall as [|? ? Hp _]; subst.
  cbn [list_items_of]. destruct (list_item_of p) as [it|]; [|now elim Hp].
  reflexivity.
Qed.

(** A paragraph that is no list item and whose trimmed text is empty, and a
    table without rows: nothing is emitted, but the open list is closed. *)
Lemma dispatch_suppressed cfg st :
  (forall p,
      _get_list_info p = None ->
      PyStr.nonempty (PyStr.strip (p_text p)) = false ->
      dispatch cfg st (CT_P p) = close_open_list st)
  /\ dispatch cfg st (CT_Tbl []) = close_open_list st.
Proof.
  split; [|reflexivity].
  intros p Hn He. unfold dispatch. rewrite Hn.
  unfold _convert_paragraph. rewrite He. reflexivity.
Qed.

(** An empty paragraph between two list paragraphs splits the list. *)
Lemma empty_paragraph_splits_list cfg p1 e p2 it1 it2 :
  list_item_of p1 = Some it1 ->
  list_item_of p2 = Some it2 ->
  _get_list_info e = None ->
  PyStr.nonempty (PyStr.strip (p_text e)) = false ->
  dispatch_all cfg [CT_P p1; CT_P e; CT_P p2]
  = [_create_list_html [it1] None; _create_list_html [it2] None].
Proof.
  intros H1 H2 Hn He. unfold dispatch_all. cbn [fold_left].
  rewrite (dispatch_list_paragraph cfg idle p1 it1 H1).
  rewrite (proj1 (dispatch_suppressed cfg _) e Hn He).
  unfold close_open_list. cbn [idle current_list_items html_parts PyList.append app].
  rewrite (dispatch_list_paragraph cfg _ p2 it2 H2).
  reflexivity.
Qed.

Section PostPassTotal.

Variable re_sub : bool -> string -> string -> string -> option string.

Lemma apply_char_configs_skipped configs :
  forallb skipped_char configs = true ->
  forall html, apply_char_configs re_sub configs html = Some html.
Proof.
  induction configs as [|config configs IH]; intros H html; [reflexivity|].
  cbn [forallb] in H. apply andb_prop in H. destruct H as [Hs Hr].
  cbn [apply_char_configs]. unfold skipped_char in Hs.
  destruct (negb (Config.get (Config.char_enabled config) true)); [now apply IH|].
  cbn [orb] in Hs. rewrite Hs. now apply IH.
Qed.

Lemma apply_replacements_literal rules :
  forallb literal_only rules = true ->
  forall html,
    apply_replacements re_sub rules html = Some (fold_left apply_literal rules html).
Proof.
  induction rules as [|rule rules IH]; intros H html; [reflexivity|].
  cbn [forallb] in H. apply andb_prop in H. destruct H as [Hl Hr].
  cbn [apply_replacements fold_left].
  assert (E : apply_replacement re_sub rule html = Some (apply_literal html rule)).
  { unfold apply_replacement, apply_literal, literal_only in *.
    destruct (PyStr.nonempty (Config.get (Config.search rule) EmptyString));
      [|reflexivity].
    cbn [negb orb] in Hl. now rewrite Hl. }
  rewrite E. now apply IH.
Qed.

(** Without a character to wrap and without a case-insensitive rule the
    two passes do not depend on what [re.sub] does, and no error of it can
    reach them. *)
Lemma passes_without_re_sub cfg html :
  forallb skipped_char (char_configs (Config.special_characters cfg)) = true ->
  forallb literal_only (Config.replacements cfg) = true ->
  _apply_special_characters re_sub cfg html = Some html
  /\ _apply_replacements re_sub cfg html
     = Some (fold_left apply_literal (Config.replacements cfg) html).
Proof.
  intros Hc Hr. unfold _apply_special_characters, _apply_replacements. split.
  - now apply apply_char_configs_skipped.
  - now apply apply_replacements_literal.
Qed.

End PostPassTotal.

End DispatcherMore.

(** ** Indentation of nested lists and the wrap tag *)

Module LayoutMore.
Import ListBuilder Converter Invariants Reference RunFacts.

Lemma append_cancel_l (p x y : string) : p ++ x = p ++ y -> x = y.
Proof.
  induction p as [|c p IH]; intros H; [exact H|].
  cbn in H. injection H as H. now apply IH.
Qed.

(** [sep.join] of a list with one more element in front. *)
Lemma join_cons (sep x : string) (l : list string) :
  PyStr.join sep (x :: l)
  = x ++ match l with [] => EmptyString | _ :: _ => sep ++ PyStr.join sep l end.
Proof.
  unfold PyStr.join. destruct l; cbn [String.concat];
    [now rewrite append_empty_r|reflexivity].
Qed.

Lemma split_nonempty (c : ascii) (s : string) : PyStr.split c s <> [].
Proof.
  destruct s as [|x s]; cbn [PyStr.split]; [discriminate|].
  destruct (Ascii.eqb x c); [discriminate|].
  destruct (PyStr.split c s); discriminate.
Qed.

(** Indenting a block line by line is putting four spaces in front and
    after every newline. *)
Lemma indent_nested_replace (s : string) :
  indent_nested s = "    " ++ PyStr.replace s PyStr.nl (PyStr.nl ++ "    ").
Proof.
  unfold indent_nested, PyStr.replace, PyStr.nl.
  induction s as [|c s IH]; [reflexivity|].
  cbn [PyStr.split PyStr.replace_from String.prefix String.length Nat.sub].
  rewrite NestingFacts.prefix_empty.
  destruct (ascii_dec PyStr.newline c) as [<-|Hne].
  - rewrite Ascii.eqb_refl. cbn [map]. rewrite join_cons.
    destruct (map (fun line => "    " ++ line) (PyStr.split PyStr.newline s)) eqn:E.
    + apply map_eq_nil in E. now elim (split_nonempty PyStr.newline s).
    + rewrite IH. unfold PyStr.nl. now rewrite !append_assoc.
  - assert (E : Ascii.eqb c PyStr.newline = false)
      by (apply Ascii.eqb_neq; congruence).
    rewrite E.
    destruct (PyStr.split PyStr.newline s) as [|h t] eqn:Es;
      [now elim (split_nonempty PyStr.newline s)|].
    cbn [map] in IH |- *. rewrite join_cons in IH |- *.
    rewrite append_assoc in IH |- *. apply append_cancel_l in IH.
    cbn [String.append]. do 5 f_equal. exact IH.
Qed.

Lemma prefix_of_self (s : string) : String.prefix s s = true.
Proof.
  induction s as [|c s IH]; [reflexivity|].
  cbn. destruct (ascii_dec c c) as [_|Hne]; [exact IH|now elim Hne].
Qed.

Lemma leading_space_at_space (rest : string) :
  PyStr.leading_space (String " " rest) <> None.
Proof. destruct rest; discriminate. Qed.

Lemma first_word_is_prefix (s : string) : String.prefix (first_word s) s = true.
Proof.
  induction s as [|c s IH]; [reflexivity|].
  cbn [first_word]. destruct (PyStr.leading_space (String c s)); [reflexivity|].
  cbn. destruct (ascii_dec c c) as [_|Hne]; [exact IH|now elim Hne].
Qed.

Lemma first_word_no_space (s : string) : has_char " "%char (first_word s) = false.
Proof.
  induction s as [|c s IH]; [reflexivity|].
  cbn [first_word].
  destruct (PyStr.leading_space (String c s)) eqn:E; [reflexivity|].
  cbn [has_char]. rewrite IH, orb_false_r.
  destruct (Ascii.eqb c " ") eqn:Ec; [|reflexivity].
  apply Ascii.eqb_eq in Ec. subst c. now elim (leading_space_at_space s).
Qed.

Lemma contains_char (c : ascii) (s : string) :
  PyStr.contains (String c EmptyString) s = has_char c s.
Proof.
  induction s as [|x s IH]; [reflexivity|].
  cbn [PyStr.contains has_char String.prefix]. rewrite NestingFacts.prefix_empty, IH.
  destruct (ascii_dec c x) as [->|Hne].
  - now rewrite Ascii.eqb_refl.
  - assert (E : Ascii.eqb x c = false) by (apply Ascii.eqb_neq; congruence).
    now rewrite E.
Qed.

(** The two tags of [_parse_wrap_tag]: the opening tag carries the trimmed
    text with its attributes, the closing tag a name without a space that
    the trimmed text starts with. *)
Lemma parse_wrap_tag_shape (wrap_tag : string) :
  exists name,
    _parse_wrap_tag wrap_tag
    = ("<" ++ PyStr.strip wrap_tag ++ ">", "</" ++ name ++ ">")
    /\ has_char " "%char name = false
    /\ String.prefix name (PyStr.strip wrap_tag) = true
    /\ (has_char " "%char (PyStr.strip wrap_tag) = false ->
        name = PyStr.strip wrap_tag).
Proof.
  unfold _parse_wrap_tag. cbv zeta.
  change " " with (String " "%char EmptyString) at 1.
  rewrite contains_char.
  destruct (has_char " " (PyStr.strip wrap_tag)) eqn:E.
  - exists (first_word (PyStr.strip wrap_tag)).
    split; [reflexivity|]. split; [apply first_word_no_space|].
    split; [apply first_word_is_prefix|discriminate].
  - exists (PyStr.strip wrap_tag).
    split; [reflexivity|]. split; [exact E|]. split; [apply prefix_of_self|reflexivity].
Qed.

End LayoutMore.

(** ** Table Renderer and style levels *)

Module TableMore.
Import Docx RunConsolidator Converter Invariants Reference RunFacts LayoutMore.

#[local] Arguments _escape_html : simpl never.

Lemma contains_skip (c : ascii) (needle x : string) :
  has_char c x = false ->
  forall rest,
    PyStr.contains (String c needle) (x ++ rest) = PyStr.contains (String c needle) rest.
Proof.
  induction x as [|a x IH]; intros H rest; [reflexivity|].
  cbn [has_char] in H. apply orb_false_elim in H. destruct H as [Ha Hx].
  cbn [String.append]. rewrite <- (IH Hx rest).
  cbn [PyStr.contains String.prefix].
  destruct (ascii_dec c a) as [->|Hne]; [|reflexivity].
  rewrite Ascii.eqb_refl in Ha. discriminate.
Qed.

Lemma tbody_free_text (x : string) : has_char "<"%char x = false -> tbody_free x.
Proof. intros H rest. now apply contains_skip. Qed.

Lemma tbody_free_app (x y : string) : tbody_free x -> tbody_free y -> tbody_free (x ++ y).
Proof. intros Hx Hy rest. now rewrite append_assoc, Hx, Hy. Qed.

Lemma tbody_free_join (lines : list string) :
  Forall tbody_free lines -> tbody_free (PyStr.join PyStr.nl lines).
Proof.
  induction 1 as [|x lines Hx Hl IH]; [intros rest; reflexivity|].
  rewrite join_cons. apply tbody_free_app; [exact Hx|].
  destruct lines; [intros rest; reflexivity|].
  apply tbody_free_app; [intros rest; reflexivity|exact IH].
Qed.

Lemma tbody_free_cell (cell_text : string) : tbody_free (table_cell "th" cell_text).
Proof.
  unfold table_cell.
  apply (tbody_free_app "      <th>"); [intros rest; reflexivity|].
  apply tbody_free_app.
  - apply tbody_free_text. apply NestingFacts.escape_no_lt.
  - intros rest. reflexivity.
Qed.

(** A table of one row has no tbody. *)
Lemma header_only (header_row : list string) :
  PyStr.contains "<tbody>" (_convert_table [header_row]) = false.
Proof.
  unfold _convert_table, table_row, PyList.append, PyList.extend.
  rewrite <- (append_empty_r (PyStr.join _ _)).
  rewrite tbody_free_join; [reflexivity|].
  cbn [app]. repeat (constructor; [intros rest; reflexivity|]).
  rewrite <- !app_assoc. cbn [app].
  apply Forall_app. split.
  - apply Forall_forall. intros line Hin. apply in_map_iff in Hin.
    destruct Hin as (cell & <- & _). apply tbody_free_cell.
  - repeat (constructor; [intros rest; reflexivity|]). constructor.
Qed.

Lemma prefix_app (n y : string) : String.prefix n (n ++ y) = true.
Proof.
  induction n as [|c n IH]; [apply NestingFacts.prefix_empty|].
  cbn. destruct (ascii_dec c c) as [_|Hne]; [exact IH|now elim Hne].
Qed.

Lemma contains_found (needle x y : string) :
  PyStr.contains needle (x ++ needle ++ y) = true.
Proof.
  induction x as [|c x IH].
  - cbn [String.append]. destruct (needle ++ y) eqn:E.
    + cbn. destruct needle; [reflexivity|discriminate].
    + cbn [PyStr.contains]. rewrite <- E, prefix_app. reflexivity.
  - cbn [String.append PyStr.contains]. rewrite IH. apply orb_true_r.
Qed.

Lemma join_holds_line (before : list string) (line : string) (after : list string) :
  exists x y, PyStr.join PyStr.nl (before ++ line :: after) = x ++ line ++ y.
Proof.
  induction before as [|l before (x & y & IH)].
  - cbn [app]. rewrite join_cons. exists EmptyString. eexists. reflexivity.
  - cbn [app]. rewrite join_cons.
    destruct (before ++ line :: after)%list eqn:E;
      [now destruct before|].
    rewrite IH. exists (l ++ PyStr.nl ++ x), y. now rewrite !append_assoc.
Qed.

Lemma join_holds_member (line : string) (lines : list string) :
  In line lines -> exists x y, PyStr.join PyStr.nl lines = x ++ line ++ y.
Proof.
  intros Hin. apply in_split in Hin. destruct Hin as (before & after & ->).
  apply join_holds_line.
Qed.

(** A table of two or more rows has a tbody. *)
Lemma body_present (header_row row : list string) (rows : list (list string)) :
  PyStr.contains "<tbody>" (_convert_table (header_row :: row :: rows)) = true.
Proof.
  unfold _convert_table, PyList.append, PyList.extend.
  match goal with
  | |- PyStr.contains _ (PyStr.join _ ?lines) = true =>
      destruct (join_holds_member "  <tbody>" lines) as (x & y & E)
  end.
  { apply in_or_app. left. apply in_or_app. left. apply in_or_app. left.
    apply in_or_app. right. now left. }
  rewrite E.
  change ("  <tbody>" ++ y) with ("  " ++ "<tbody>" ++ y).
  rewrite <- append_assoc. apply contains_found.
Qed.

Lemma all_digits_app (x y : string) :
  all_digits (x ++ y) = all_digits x && all_digits y.
Proof.
  induction x as [|c x IH]; [reflexivity|]. cbn. now rewrite IH, andb_assoc.
Qed.

Lemma all_digits_rev (x : string) : all_digits (PyStr.rev x) = all_digits x.
Proof.
  induction x as [|c x IH]; [reflexivity|].
  cbn [PyStr.rev all_digits]. rewrite all_digits_app, IH. cbn.
  rewrite andb_true_r. apply andb_comm.
Qed.

Lemma chars_cons (c : ascii) (rest : string) :
  PyStr.chars (String c rest)
  = match rest with
    | String d _ =>
        if PyStr.is_continuation d then
          match PyStr.chars rest with
          | h :: t => String c h :: t
          | [] => [String c EmptyString]
          end
        else String c EmptyString :: PyStr.chars rest
    | EmptyString => [String c EmptyString]
    end.
Proof. destruct rest; reflexivity. Qed.

Lemma chars_nonempty (c : ascii) (rest : string) : PyStr.chars (String c rest) <> [].
Proof.
  rewrite chars_cons. destruct rest as [|d r]; [discriminate|].
  destruct (PyStr.is_continuation d); [|discriminate].
  destruct (PyStr.chars (String d r)); discriminate.
Qed.

(** Cutting a string where a code point starts cuts its list of code
    points. *)
Lemma chars_app (x y : string) :
  match y with
  | String d _ => PyStr.is_continuation d = false
  | EmptyString => True
  end ->
  PyStr.chars (x ++ y) = (PyStr.chars x ++ PyStr.chars y)%list.
Proof.
  intros Hy. induction x as [|c x IH]; [reflexivity|].
  cbn [String.append]. rewrite !chars_cons.
  destruct x as [|e x].
  - cbn [String.append]. destruct y as [|d y]; [reflexivity|].
    rewrite Hy. reflexivity.
  - cbn [String.append].
    change (String e (x ++ y)) with (String e x ++ y). rewrite IH.
    destruct (PyStr.is_continuation e); [|reflexivity].
    destruct (PyStr.chars (String e x)) eqn:E; [now elim (chars_nonempty e x)|].
    reflexivity.
Qed.

(** The code points of a string, joined, are the string. *)
Lemma concat_chars (s : string) : String.concat EmptyString (PyStr.chars s) = s.
Proof.
  induction s as [|c s IH]; [reflexivity|].
  rewrite chars_cons. destruct s as [|d s]; [reflexivity|].
  destruct (PyStr.is_continuation d).
  - destruct (PyStr.chars (String d s)) as [|h t] eqn:E;
      [now elim (chars_nonempty d s)|].
    rewrite concat_cons in IH |- *. cbn [String.append]. now rewrite IH.
  - rewrite concat_cons. cbn [String.append]. now rewrite IH.
Qed.

(** Among the code points of one byte, the decimal digits are 0 to 9. *)
Lemma decimal_of_byte (c : ascii) :
  Nat.ltb (nat_of_ascii c) 128 = true ->
  PyStr.is_decimal (String c EmptyString) = PyStr.is_digit c.
Proof.
  destruct c as [[|] [|] [|] [|] [|] [|] [|] [|]]; intros H;
    try reflexivity; discriminate H.
Qed.

Lemma digit_is_byte (c : ascii) :
  PyStr.is_digit c = true ->
  Nat.ltb (nat_of_ascii c) 128 = true /\ PyStr.is_continuation c = false.
Proof.
  destruct c as [[|] [|] [|] [|] [|] [|] [|] [|]]; intros H;
    try discriminate H; split; reflexivity.
Qed.

Lemma byte_starts_char (c : ascii) :
  Nat.ltb (nat_of_ascii c) 128 = true -> PyStr.is_continuation c = false.
Proof.
  unfold PyStr.is_continuation. intros H. apply Nat.ltb_lt in H.
  apply andb_false_iff. left. apply Nat.leb_gt. exact H.
Qed.

Lemma digit_is_not_newline (c : ascii) :
  PyStr.is_digit c = true -> Ascii.eqb c PyStr.newline = false.
Proof.
  destruct (Ascii.eqb c PyStr.newline) eqn:E; [|reflexivity].
  apply Ascii.eqb_eq in E. subst c. discriminate.
Qed.

(** The code points of a text of digits 0 to 9: one per byte, each a
    decimal digit and none a newline. *)
Lemma chars_of_digits (d : string) :
  all_digits d = true ->
  Forall (fun ch => PyStr.is_decimal ch = true /\ String.eqb ch PyStr.nl = false)
         (PyStr.chars d).
Proof.
  induction d as [|c d IH]; intros H; [constructor|].
  cbn [all_digits] in H. apply andb_prop in H. destruct H as [Hc Hd].
  assert (Hch : PyStr.is_decimal (String c EmptyString) = true
                /\ String.eqb (String c EmptyString) PyStr.nl = false).
  { destruct (digit_is_byte c Hc) as [Hb _]. split.
    - now rewrite decimal_of_byte.
    - unfold PyStr.nl. cbn [String.eqb]. now rewrite (digit_is_not_newline c Hc). }
  rewrite chars_cons. destruct d as [|e d]; [constructor; [exact Hch|constructor]|].
  assert (He : PyStr.is_digit e = true)
    by (cbn [all_digits] in Hd; now apply andb_prop in Hd).
  rewrite (proj2 (digit_is_byte e He)).
  constructor; [exact Hch|exact (IH Hd)].
Qed.

Lemma take_digits_app (digits others : list string) :
  Forall (fun ch => PyStr.is_decimal ch = true) digits ->
  match others with [] => True | ch :: _ => PyStr.is_decimal ch = false end ->
  take_digits (digits ++ others) = digits.
Proof.
  intros Hd Ho. induction Hd as [|ch digits Hch _ IH].
  - destruct others as [|ch others]; [reflexivity|].
    cbn [app take_digits]. now rewrite Ho.
  - cbn [app take_digits]. now rewrite Hch, IH.
Qed.

(** The code points of a text that is empty or ends with a byte that is
    no digit: the last one is no decimal digit. *)
Lemma no_final_digit_last (base : string) :
  no_final_digit base = true ->
  match List.rev (PyStr.chars base) with
  | [] => True
  | ch :: _ => PyStr.is_decimal ch = false
  end.
Proof.
  unfold no_final_digit. intros H.
  destruct (PyStr.rev base) as [|c r] eqn:E.
  - assert (Hb : base = EmptyString).
    { rewrite <- (HyperlinkMore.rev_involutive base), E. reflexivity. }
    subst base. exact I.
  - apply andb_prop in H. destruct H as [Hd Hb].
    assert (Eb : base = PyStr.rev r ++ String c EmptyString).
    { rewrite <- (HyperlinkMore.rev_involutive base), E. reflexivity. }
    rewrite Eb, chars_app by (now apply byte_starts_char).
    rewrite rev_app_distr. cbn [PyStr.chars List.rev app].
    rewrite decimal_of_byte by exact Hb. now apply negb_true_iff.
Qed.

(** The digits that end a style name are found, and they give the level. *)
Lemma style_level_of_number (base digits : string) :
  PyStr.nonempty digits = true ->
  all_digits digits = true ->
  no_final_digit base = true ->
  trailing_digits (base ++ digits) = Some digits
  /\ style_level (base ++ digits) = (int_of_digits digits - 1)%Z.
Proof.
  intros Hne Hd Hb.
  assert (T : trailing_digits (base ++ digits) = Some digits).
  { unfold trailing_digits.
    assert (Hstart : match digits with
                     | String d _ => PyStr.is_continuation d = false
                     | EmptyString => True
                     end).
    { destruct digits as [|d ds]; [exact I|].
      cbn [all_digits] in Hd. apply andb_prop in Hd.
      exact (proj2 (digit_is_byte d (proj1 Hd))). }
    rewrite (chars_app base digits Hstart), rev_app_distr.
    pose proof (chars_of_digits digits Hd) as Hall.
    apply Forall_rev in Hall.
    assert (Hn : List.rev (PyStr.chars digits) <> []).
    { destruct digits as [|d ds]; [discriminate|].
      intros Hr. apply (f_equal (@List.rev string)) in Hr.
      rewrite rev_involutive in Hr. now elim (chars_nonempty d ds). }
    destruct (List.rev (PyStr.chars digits)) as [|ch chs] eqn:E; [now elim Hn|].
    cbn [app]. inversion Hall as [|? ? [Hdec Hnl] _]; subst.
    rewrite Hnl.
    change (ch :: (chs ++ List.rev (PyStr.chars base))%list)
      with ((ch :: chs) ++ List.rev (PyStr.chars base))%list.
    rewrite take_digits_app.
    - rewrite <- E, rev_involutive, concat_chars. reflexivity.
    - eapply Forall_impl; [|exact Hall]. now intros x [Hx _].
    - pose proof (no_final_digit_last base Hb) as Hl.
      destruct (List.rev (PyStr.chars base)); [exact I|exact Hl]. }
  split; [exact T|]. unfold style_level. now rewrite T.
Qed.

(** A style name that ends with an ASCII character that is no digit and no
    newline, and the empty name, give level 0. *)
Lemma style_level_without_number (name : string) :
  no_final_digit name = true ->
  match PyStr.rev name with
  | String c _ => Ascii.eqb c PyStr.newline = false
  | EmptyString => True
  end ->
  style_level name = 0%Z.
Proof.
  intros Hd Hn. unfold style_level, trailing_digits.
  unfold no_final_digit in Hd.
  destruct (PyStr.rev name) as [|c r] eqn:E.
  - assert (Hb : name = EmptyString).
    { rewrite <- (HyperlinkMore.rev_involutive name), E. reflexivity. }
    subst name. reflexivity.
  - apply andb_prop in Hd. destruct Hd as [Hdig Hb].
    assert (Eb : name = PyStr.rev r ++ String c EmptyString).
    { rewrite <- (HyperlinkMore.rev_involutive name), E. reflexivity. }
    rewrite Eb, chars_app by (now apply byte_starts_char).
    rewrite rev_app_distr. cbn [PyStr.chars List.rev app].
    unfold PyStr.nl. cbn [String.eqb]. rewrite Hn.
    cbn [take_digits]. rewrite decimal_of_byte by exact Hb.
    apply negb_true_iff in Hdig. now rewrite Hdig.
Qed.

Lemma prefix_lower (p s : string) :
  String.prefix p s = true -> String.prefix (PyStr.lower p) (PyStr.lower s) = true.
Proof.
  revert s. induction p as [|a p IH]; intros s H; [apply NestingFacts.prefix_empty|].
  destruct s as [|b s]; [discriminate|].
  cbn [String.prefix PyStr.lower] in H |- *.
  destruct (ascii_dec a b) as [->|]; [|discriminate].
  destruct (ascii_dec (PyStr.lower_char b) (PyStr.lower_char b)) as [_|Hne];
    [now apply IH|now elim Hne].
Qed.

Lemma prefix_contains (p s : string) :
  String.prefix p s = true -> PyStr.contains p s = true.
Proof. intros H. destruct s; cbn [PyStr.contains]; now rewrite H. Qed.

(** The test on the start of the style name never decides: a name that
    starts with the capitalised words has the lower-case words in its
    lower-case form. *)
Lemma startswith_redundant (name : string) :
  (PyStr.startswith name "List Bullet" = true ->
   PyStr.contains "list bullet" (PyStr.lower name) = true)
  /\ (PyStr.startswith name "List Number" = true ->
      PyStr.contains "list number" (PyStr.lower name) = true).
Proof.
  unfold PyStr.startswith.
  split; intros H; apply prefix_lower in H; apply prefix_contains; exact H.
Qed.

(** The classification by style name reads the lower-case name only, and
    the bullet words are looked for first. *)
Lemma style_classification (p : Paragraph) :
  unnumbered p = true ->
  _get_list_info p
  = if PyStr.contains "list bullet" (PyStr.lower (style_name p))
    then Some (ListBuilder.bullet, style_level (style_name p), _process_runs p)
    else if PyStr.contains "list number" (PyStr.lower (style_name p))
    then Some (ListBuilder.number, style_level (style_name p), _process_runs p)
    else None.
Proof.
  intros Hu. unfold _get_list_info, unnumbered in *.
  assert (E : match numPr p with
              | Some np =>
                  if has_numId np
                  then Some (ListBuilder.bullet,
                             match ilvl np with
                             | Some val => Config.get val 0%Z
                             | None => 0%Z
                             end, _process_runs p)
                  else None
              | None => None
              end = None).
  { destruct (numPr p) as [np|]; [|reflexivity].
    destruct (has_numId np); [discriminate|reflexivity]. }
  cbv zeta. rewrite E.
  destruct (startswith_redundant (style_name p)) as [Hb Hn].
  destruct (PyStr.contains "list bullet" (PyStr.lower (style_name p))); [reflexivity|].
  destruct (PyStr.startswith (style_name p) "List Bullet");
    [now specialize (Hb eq_refl)|].
  destruct (PyStr.contains "list number" (PyStr.lower (style_name p))); [reflexivity|].
  destruct (PyStr.startswith (style_name p) "List Number");
    [now specialize (Hn eq_refl)|reflexivity].
Qed.

End TableMore.

(** ** Numbering properties and list kinds *)

Module NumberingFacts.
Import Docx HyperlinkExtractor RunConsolidator ListBuilder Converter Reference.

Lemma numbered_info (p : Paragraph) (np : NumPr) :
  numPr p = Some np -> has_numId np = true ->
  _get_list_info p = Some (bullet, numbering_level np, _process_runs p).
Proof.
  intros Hnp Hid. unfold _get_list_info, numbering_level. rewrite Hnp, Hid.
  destruct (ilvl np) as [[l|]|]; reflexivity.
Qed.

Lemma items_of_flat (kind : list_type) (level : Z) (ps : list Paragraph) :
  Forall (fun q => _get_list_info q = Some (kind, level, _process_runs q)) ps ->
  list_items_of ps = map (fun q => (level, kind, _process_runs q)) ps
  /\ Forall (fun q => list_item_of q <> None) ps.
Proof.
  induction 1 as [|q ps Hq _ [IH1 IH2]]; [split; [reflexivity|constructor]|].
  cbn [list_items_of map]. unfold list_item_of at 1. rewrite Hq, IH1.
  split; [reflexivity|]. constructor; [|exact IH2].
  unfold list_item_of. rewrite Hq. discriminate.
Qed.

(** Paragraphs that are list items of one kind at one level give one list
    of that kind, with a line per paragraph. *)
Lemma flat_paragraphs (cfg : Config.t) (kind : list_type) (level : Z)
      (p : Paragraph) (ps : list Paragraph) :
  Forall (fun q => _get_list_info q = Some (kind, level, _process_runs q)) (p :: ps) ->
  dispatch_all cfg (map CT_P (p :: ps))
  = [PyStr.join PyStr.nl
       (("<" ++ list_tag kind ++ ">")
          :: PyList.append (map paragraph_line (p :: ps))
               ("</" ++ list_tag kind ++ ">"))].
Proof.
  intros Hall. destruct (items_of_flat kind level (p :: ps) Hall) as [Hitems Hlist].
  rewrite (DispatcherMore.only_list_paragraphs cfg p ps Hlist), Hitems.
  cbn [map].
  rewrite (ListBuilderMore.flat_list level kind).
  - unfold list_block. cbn [map]. rewrite map_map. reflexivity.
  - change (Forall (flat_item level kind)
              (map (fun q => (level, kind, _process_runs q)) (p :: ps))).
    apply Forall_map. apply Forall_forall. intros q _. split; reflexivity.
Qed.

Lemma items_of_numbered (ps : list Paragraph) :
  Forall numbered ps ->
  Forall (fun q => list_item_of q <> None) ps
  /\ Forall (fun it => item_kind it = bullet) (list_items_of ps).
Proof.
  induction 1 as [|q ps (np & Hnp & Hid) _ [IH1 IH2]]; [split; constructor|].
  pose proof (numbered_info q np Hnp Hid) as Hq.
  split.
  - constructor; [|exact IH1]. unfold list_item_of. rewrite Hq. discriminate.
  - cbn [list_items_of]. unfold list_item_of at 1. rewrite Hq.
    constructor; [reflexivity|exact IH2].
Qed.

(** On a buffer of bullet items the builder is the builder that writes
    only [ul] tags: in the loop the type is unset before the first item
    and bullet after it. *)
Lemma bullets_only (items : list item) :
  Forall (fun it => item_kind it = bullet) items ->
  forall fuel,
    (forall i lvl,
        _build_nested_list fuel items i lvl = build_bullets fuel items i lvl)
    /\ (forall lvl parts i (started : bool),
          build_while fuel items lvl parts i
            (if started then Some bullet else None) started
          = bullets_while fuel items lvl parts i started).
Proof.
  intros Hall. induction fuel as [|fuel [IHb IHw]]; [split; reflexivity|].
  split.
  - intros i lvl. cbn [_build_nested_list build_bullets].
    destruct (Nat.leb (length items) i); [reflexivity|].
    exact (IHw lvl [] i false).
  - intros lvl parts i started. cbn [build_while bullets_while].
    destruct (nth_error items i) as [[[level ty] txt]|] eqn:E.
    + assert (Hty : ty = bullet).
      { apply nth_error_In in E.
        exact (proj1 (Forall_forall _ items) Hall _ E). }
      subst ty.
      assert (Hclose : close_list started (if started then Some bullet else None)
                       = if started then ["</ul>"] else []).
      { now destruct started. }
      assert (Hopen : open_list started (if started then Some bullet else None) bullet
                      = if started then [] else ["<ul>"]).
      { now destruct started. }
      rewrite Hclose, Hopen.
      destruct (level <? lvl)%Z; [reflexivity|].
      destruct (level =? lvl)%Z; [|reflexivity].
      destruct (match nth_error items (i + 1) with
                | Some next => if (item_level next >? level)%Z
                               then Some (item_level next) else None
                | None => None
                end) as [next_level|].
      * rewrite IHb.
        destruct (build_bullets fuel items (i + 1) next_level) as [[nested next_i]|];
          [|reflexivity].
        exact (IHw lvl _ next_i true).
      * exact (IHw lvl _ (i + 1) true).
    + now destruct started.
Qed.

(** Paragraphs that are list items through their numbering properties are
    emitted as the lists of bullet items. *)
Lemma numbered_paragraphs (cfg : Config.t) (p : Paragraph) (ps : list Paragraph) :
  Forall numbered (p :: ps) ->
  dispatch_all cfg (map CT_P (p :: ps)) = [bullet_lists (list_items_of (p :: ps))].
Proof.
  intros Hall. destruct (items_of_numbered (p :: ps) Hall) as [Hlist Hkinds].
  rewrite (DispatcherMore.only_list_paragraphs cfg p ps Hlist).
  unfold _create_list_html, bullet_lists.
  destruct (list_items_of (p :: ps)) as [|first others]; [reflexivity|].
  now rewrite (proj1 (bullets_only (first :: others) Hkinds _)).
Qed.

End NumberingFacts.

Module NumberingClaims.
Import Docx HyperlinkExtractor RunConsolidator ListBuilder Converter Reference
  Examples FurtherExamples.

(** C10: a paragraph with numbering properties that contain a numId is a
    list item of kind bullet, at the level of its ilvl (0 when absent),
    whatever the numbering format of the document; kind number comes from
    the style-name path and only from it: a list item of kind number has no
    such numbering properties and a style name that contains list number,
    and not list bullet, in any case, and every paragraph without such
    numbering properties whose style name is of that form is a list item of
    kind number; paragraphs classified through their numbering properties
    are buffered as bullet items, whatever their levels, and emitted by the
    builder that writes no list tag but ul, nested as their levels say; at
    one level they are emitted as one ul with an li for each, where
    paragraphs classified as number through their style are emitted as one
    ol. *)
Theorem C10_numbering_is_bullet :
  (forall (p : Paragraph) (np : NumPr),
      numPr p = Some np -> has_numId np = true ->
      _get_list_info p = Some (bullet, numbering_level np, _process_runs p))
  /\ (forall (p : Paragraph) (level : Z) (txt : string),
        _get_list_info p = Some (number, level, txt) ->
        unnumbered p = true
        /\ PyStr.contains "list number" (PyStr.lower (style_name p)) = true
        /\ PyStr.contains "list bullet" (PyStr.lower (style_name p)) = false
        /\ level = style_level (style_name p))
  /\ (forall p : Paragraph,
        unnumbered p = true ->
        PyStr.contains "list bullet" (PyStr.lower (style_name p)) = false ->
        PyStr.contains "list number" (PyStr.lower (style_name p)) = true ->
        _get_list_info p
        = Some (number, style_level (style_name p), _process_runs p))
  /\ (forall (cfg : Config.t) (p : Paragraph) (ps : list Paragraph),
        Forall numbered (p :: ps) ->
        current_list_items (fold_left (dispatch cfg) (map CT_P (p :: ps)) idle)
        = list_items_of (p :: ps)
        /\ Forall (fun it => item_kind it = bullet) (list_items_of (p :: ps)))
  /\ (forall (cfg : Config.t) (level : Z) (p : Paragraph) (ps : list Paragraph),
        Forall (fun q => exists np, numPr q = Some np /\ has_numId np = true
                                    /\ numbering_level np = level) (p :: ps) ->
        dispatch_all cfg (map CT_P (p :: ps))
        = [PyStr.join PyStr.nl
             ("<ul>" :: PyList.append (map paragraph_line (p :: ps)) "</ul>")])
  /\ (forall (cfg : Config.t) (level : Z) (p : Paragraph) (ps : list Paragraph),
        Forall (fun q => unnumbered q = true
                         /\ PyStr.contains "list bullet" (PyStr.lower (style_name q))
                            = false
                         /\ PyStr.contains "list number" (PyStr.lower (style_name q))
                            = true
                         /\ style_level (style_name q) = level) (p :: ps) ->
        dispatch_all cfg (map CT_P (p :: ps))
        = [PyStr.join PyStr.nl
             ("<ol>" :: PyList.append (map paragraph_line (p :: ps)) "</ol>")])
  /\ (forall (cfg : Config.t) (p : Paragraph) (ps : list Paragraph),
        Forall numbered (p :: ps) ->
        dispatch_all cfg (map CT_P (p :: ps))
        = [bullet_lists (list_items_of (p :: ps))]).
Proof.
  assert (Hnum : forall p : Paragraph,
             unnumbered p = true ->
             PyStr.contains "list bullet" (PyStr.lower (style_name p)) = false ->
             PyStr.contains "list number" (PyStr.lower (style_name p)) = true ->
             _get_list_info p
             = Some (number, style_level (style_name p), _process_runs p)).
  { intros p Hu Hb Hn. rewrite (TableMore.style_classification p Hu).
    now rewrite Hb, Hn. }
  split; [exact NumberingFacts.numbered_info|].
  split; [|split; [exact Hnum|split; [|split; [|split]]]].
  - intros p level txt H.
    assert (Hu : unnumbered p = true).
    { unfold unnumbered. destruct (numPr p) as [np|] eqn:Hnp; [|reflexivity].
      destruct (has_numId np) eqn:Hid; [|reflexivity].
      rewrite (NumberingFacts.numbered_info p np Hnp Hid) in H. discriminate. }
    split; [exact Hu|].
    rewrite (TableMore.style_classification p Hu) in H.
    destruct (PyStr.contains "list bullet" (PyStr.lower (style_name p)));
      [discriminate|].
    destruct (PyStr.contains "list number" (PyStr.lower (style_name p)));
      [|discriminate].
    injection H as <- _. repeat split; reflexivity.
  - intros cfg p ps Hall.
    destruct (NumberingFacts.items_of_numbered (p :: ps) Hall) as [Hlist Hkinds].
    split; [|exact Hkinds].
    exact (proj2 (DispatcherMore.dispatch_list_paragraphs cfg (p :: ps) Hlist idle)).
  - intros cfg level p ps Hall.
    apply (NumberingFacts.flat_paragraphs cfg bullet level p ps).
    eapply Forall_impl; [|exact Hall].
    intros q (np & Hnp & Hid & <-). now apply NumberingFacts.numbered_info.
  - intros cfg level p ps Hall.
    apply (NumberingFacts.flat_paragraphs cfg number level p ps).
    eapply Forall_impl; [|exact Hall].
    intros q (Hu & Hb & Hn & <-). now apply Hnum.
  - exact NumberingFacts.numbered_paragraphs.
Qed.

Lemma C10_numbering_is_bullet_witness :
  _get_list_info numbered_item = Some (bullet, 0%Z, "First")
  /\ _get_list_info (simple_paragraph "List Number 2" "Second" None)
     = Some (number, 1%Z, "Second")
  /\ dispatch_all empty_config [CT_P numbered_item; CT_P numbered_item]
     = [PyStr.join PyStr.nl ["<ul>"; "  <li>First</li>"; "  <li>First</li>"; "</ul>"]]
  /\ dispatch_all empty_config
       [CT_P (simple_paragraph "List Number" "One" None);
        CT_P (simple_paragraph "List Number" "Two" None)]
     = [PyStr.join PyStr.nl ["<ol>"; "  <li>One</li>"; "  <li>Two</li>"; "</ol>"]]
  /\ dispatch_all empty_config
       [CT_P numbered_item; CT_P numbered_subitem; CT_P numbered_item]
     = [PyStr.join PyStr.nl
          ["<ul>"; "  <li>First"; "    <ul>"; "      <li>Second</li>"; "    </ul>";
           "  </li>"; "  <li>First</li>"; "</ul>"]].
Proof.
  split; [|split; [|split; [|split]]].
  - exact (proj1 C10_numbering_is_bullet numbered_item _ eq_refl eq_refl).
  - exact (proj1 (proj2 (proj2 C10_numbering_is_bullet))
             (simple_paragraph "List Number 2" "Second" None)
             eq_refl eq_refl eq_refl).
  - apply (proj1 (proj2 (proj2 (proj2 (proj2 C10_numbering_is_bullet))))
             empty_config 0%Z numbered_item [numbered_item]).
    repeat constructor; eexists; repeat split; reflexivity.
  - apply (proj1 (proj2 (proj2 (proj2 (proj2 (proj2 C10_numbering_is_bullet)))))
             empty_config 0%Z (simple_paragraph "List Number" "One" None)
             [simple_paragraph "List Number" "Two" None]).
    repeat constructor; reflexivity.
  - etransitivity.
    + apply (proj2 (proj2 (proj2 (proj2 (proj2 (proj2 C10_numbering_is_bullet)))))
               empty_config numbered_item [numbered_subitem; numbered_item]).
      repeat constructor; eexists; split; reflexivity.
    + vm_compute. reflexivity.
Defined.

End NumberingClaims.

(** ** Identities of the extracted spans *)

Module IdMore.
Import Docx HyperlinkExtractor RunConsolidator Invariants Reference RunFacts.

Lemma string_of_uint_value (d1 d2 : Decimal.uint) :
  NilZero.string_of_uint d1 = NilZero.string_of_uint d2 ->
  Nat.of_uint d1 = Nat.of_uint d2.
Proof.
  intros H.
  assert (N : forall d,
             NilZero.string_of_uint d
             = NilEmpty.string_of_uint
                 (match d with Decimal.Nil => Decimal.D0 Decimal.Nil | _ => d end))
    by (intros []; reflexivity).
  rewrite (N d1), (N d2) in H.
  apply (f_equal NilEmpty.uint_of_string) in H.
  rewrite !NilEmpty.usu in H. injection H as H.
  destruct d1, d2; try discriminate H; try reflexivity; inversion H; reflexivity.
Qed.

(** [str] gives different texts for different numbers. *)
Lemma of_nat_inj (n m : nat) : PyStr.of_nat n = PyStr.of_nat m -> n = m.
Proof.
  intros H. apply string_of_uint_value in H.
  now rewrite !DecimalNat.Unsigned.of_to in H.
Qed.

Lemma uint_digits (d : Decimal.uint) :
  all_digits (NilEmpty.string_of_uint d) = true.
Proof.
  induction d; cbn [NilEmpty.string_of_uint all_digits]; try reflexivity;
    rewrite IHd; reflexivity.
Qed.

Lemma of_nat_digits (n : nat) : all_digits (PyStr.of_nat n) = true.
Proof.
  unfold PyStr.of_nat.
  destruct (Nat.to_uint n) eqn:E; try reflexivity;
    match goal with
    | |- all_digits (NilZero.string_of_uint ?d) = true => exact (uint_digits d)
    end.
Qed.

(** Two texts that start with digits followed by an underscore agree on
    the digits. *)
Lemma digits_then_underscore (a : string) :
  forall b x y,
    all_digits a = true -> all_digits b = true ->
    a ++ "_" ++ x = b ++ "_" ++ y -> a = b.
Proof.
  induction a as [|c a IH]; intros [|c' b] x y Ha Hb H.
  - reflexivity.
  - cbn in H. injection H as <- _. cbn in Hb. discriminate.
  - cbn in H. injection H as -> _. cbn in Ha. discriminate.
  - cbn [String.append] in H. injection H as -> H.
    cbn [all_digits] in Ha, Hb.
    apply andb_prop in Ha. apply andb_prop in Hb.
    f_equal. exact (IH b x y (proj2 Ha) (proj2 Hb) H).
Qed.

Lemma explicit_id_inj (k1 k2 : nat) (id : string) :
  explicit_id k1 id -> explicit_id k2 id -> k1 = k2.
Proof.
  intros (n1 & E1) (n2 & E2). subst id.
  apply (f_equal PyStr.rev) in E2.
  rewrite !HyperlinkMore.rev_app in E2.
  change (PyStr.rev "_") with "_" in E2.
  rewrite !append_assoc in E2.
  apply digits_then_underscore in E2.
  - apply (f_equal PyStr.rev) in E2.
    rewrite !HyperlinkMore.rev_involutive in E2. now apply of_nat_inj.
  - rewrite TableMore.all_digits_rev. apply of_nat_digits.
  - rewrite TableMore.all_digits_rev. apply of_nat_digits.
Qed.

Lemma explicit_span_id rels idx h :
  Forall (fun s => explicit_id idx (link_id s)) (explicit_span rels idx h)
  /\ length (explicit_span rels idx h) <= 1.
Proof.
  unfold explicit_span.
  destruct (if negb _ && _ then _ else _) as [u|]; [|cbn; split; [constructor|lia]].
  destruct (PyStr.nonempty u); [|cbn; split; [constructor|lia]].
  split; [|cbn; lia].
  constructor; [|constructor]. eexists. reflexivity.
Qed.

Lemma explicit_spans_ids rels hs :
  forall idx,
    Forall (fun s => exists k, idx <= k /\ explicit_id k (link_id s))
           (explicit_spans rels idx hs).
Proof.
  induction hs as [|h hs IH]; intros idx; cbn [explicit_spans]; [constructor|].
  apply Forall_app. split.
  - eapply Forall_impl; [|exact (proj1 (explicit_span_id rels idx h))].
    intros s Hs. exists idx. split; [lia|exact Hs].
  - eapply Forall_impl; [|exact (IH (S idx))].
    intros s (k & Hk & Hs). exists k. split; [lia|exact Hs].
Qed.

(** The spans taken from hyperlink elements have different identities. *)
Lemma explicit_spans_nodup rels hs :
  forall idx, NoDup (map link_id (explicit_spans rels idx hs)).
Proof.
  induction hs as [|h hs IH]; intros idx; cbn [explicit_spans]; [constructor|].
  destruct (explicit_span_id rels idx h) as [Hid Hlen].
  destruct (explicit_span rels idx h) as [|s [|s' l]];
    [exact (IH (S idx))| |cbn in Hlen; lia].
  cbn [app map]. constructor; [|exact (IH (S idx))].
  intros Hin. apply in_map_iff in Hin. destruct Hin as (s' & Heq & Hin).
  pose proof (explicit_spans_ids rels hs (S idx)) as Hall.
  rewrite Forall_forall in Hall. destruct (Hall s' Hin) as (k & Hk & Hs').
  inversion Hid as [|? ? Hs _]; subst.
  rewrite Heq in Hs'. pose proof (explicit_id_inj _ _ _ Hs Hs'). lia.
Qed.

Lemma field_name_inj (n m : nat) : field_name n = field_name m -> n = m.
Proof.
  unfold field_name. intros H. apply LayoutMore.append_cancel_l in H.
  now apply of_nat_inj.
Qed.

Lemma nodup_map_injective {A B : Type} (f : A -> B) (l : list A) :
  (forall x y, f x = f y -> x = y) -> NoDup l -> NoDup (map f l).
Proof.
  intros Hinj. induction 1 as [|x l Hx _ IH]; cbn [map]; constructor; [|exact IH].
  intros Hin. apply in_map_iff in Hin. destruct Hin as (y & Hy & Hin).
  apply Hinj in Hy. now subst y.
Qed.

(** The spans taken from field codes have different identities. *)
Lemma field_spans_nodup (p : Paragraph) :
  NoDup (map link_id (_extract_field_hyperlinks p)).
Proof.
  rewrite (proj2 (HyperlinkMore.field_spans_sound p)).
  apply nodup_map_injective; [exact field_name_inj|apply seq_NoDup].
Qed.

(** A hyperlink element without relationship id whose anchor is the word
    field, in the first position, gets the identity of the first field
    span. *)
Lemma identity_collision (p : Paragraph) (h : HyperlinkElem) (hs : list HyperlinkElem) :
  hyperlink_elements p = h :: hs ->
  truthy (r_id h) = false ->
  anchor h = Some "field" ->
  _extract_field_hyperlinks p <> [] ->
  ~ NoDup (map link_id (_extract_hyperlinks p)).
Proof.
  intros Hh Hr Ha Hf Hnd. unfold _extract_hyperlinks in Hnd.
  rewrite Hh in Hnd. cbn [explicit_spans] in Hnd.
  unfold explicit_span in Hnd. rewrite Hr, Ha in Hnd.
  cbn [truthy negb andb PyStr.nonempty String.append app map link_id fst snd] in Hnd.
  pose proof (proj2 (HyperlinkMore.field_spans_sound p)) as Hids.
  destruct (_extract_field_hyperlinks p) as [|f fs]; [now elim Hf|].
  cbn [length seq map] in Hids. injection Hids as Hid _.
  inversion Hnd as [|? ? Hnotin _]; subst.
  apply Hnotin. rewrite map_app. apply in_or_app. right.
  cbn [map]. left. rewrite Hid. reflexivity.
Qed.

End IdMore.

(** ** List Builder *)

Module ListBuilderProps.
Import ListBuilder Reference.

(** X5: a buffer whose items all have one level and one kind becomes one
    list: the opening tag, one line per item in order, the closing tag,
    whatever the level is. *)
Theorem X5_flat_list (level : Z) (kind : list_type) (first : item)
        (others : list item) (ty : option list_type) :
  Forall (flat_item level kind) (first :: others) ->
  _create_list_html (first :: others) ty
  = PyStr.join PyStr.nl (list_block kind (first :: others)).
Proof. exact (ListBuilderMore.flat_list level kind first others ty). Qed.

Lemma X5_flat_list_witness :
  _create_list_html [(2%Z, number, "a"); (2%Z, number, "b")] None
  = PyStr.join PyStr.nl ["<ol>"; "  <li>a</li>"; "  <li>b</li>"; "</ol>"].
Proof.
  apply (X5_flat_list 2%Z number (2%Z, number, "a") [(2%Z, number, "b")] None).
  repeat constructor.
Defined.

(** X6: when the kind changes between two items of one level, the list of
    the first kind is closed and a list of the second kind is opened: two
    lists, one after the other. *)
Theorem X6_two_kinds (level : Z) (kind1 kind2 : list_type) (it1 : item)
        (block1 : list item) (it2 : item) (block2 : list item)
        (ty : option list_type) :
  kind1 <> kind2 ->
  Forall (flat_item level kind1) (it1 :: block1) ->
  Forall (flat_item level kind2) (it2 :: block2) ->
  _create_list_html ((it1 :: block1) ++ it2 :: block2) ty
  = PyStr.join PyStr.nl
      (PyList.extend (list_block kind1 (it1 :: block1))
                     (list_block kind2 (it2 :: block2))).
Proof.
  exact (ListBuilderMore.two_kinds level kind1 kind2 it1 block1 it2 block2 ty).
Qed.

Lemma X6_two_kinds_witness :
  _create_list_html [(0%Z, bullet, "a"); (0%Z, number, "b")] None
  = PyStr.join PyStr.nl
      ["<ul>"; "  <li>a</li>"; "</ul>"; "<ol>"; "  <li>b</li>"; "</ol>"].
Proof.
  apply (X6_two_kinds 0%Z bullet number (0%Z, bullet, "a") [] (0%Z, number, "b") []
           None).
  - discriminate.
  - repeat constructor.
  - repeat constructor.
Defined.

(** X7: when the first item of the buffer lies above the lowest level of
    the buffer, the outer call stops at its first item and the whole buffer
    is rendered as the empty string: every item is lost. *)
Theorem X7_first_item_above_minimum (first : item) (others : list item)
        (ty : option list_type) :
  (min_level first others < item_level first)%Z ->
  _create_list_html (first :: others) ty = EmptyString.
Proof. exact (ListBuilderMore.first_item_above_minimum first others ty). Qed.

Lemma X7_first_item_above_minimum_witness :
  _create_list_html [(1%Z, bullet, "a"); (0%Z, bullet, "b")] None = EmptyString.
Proof.
  apply (X7_first_item_above_minimum (1%Z, bullet, "a") [(0%Z, bullet, "b")] None).
  reflexivity.
Defined.

(** X8: the indentation of a nested list, done by splitting at newlines,
    putting four spaces before every line and joining again, is the text
    with four spaces in front and after every newline; an empty nested
    text becomes four spaces. *)
Theorem X8_indent_nested (s : string) :
  indent_nested s = "    " ++ PyStr.replace s PyStr.nl (PyStr.nl ++ "    ").
Proof. exact (LayoutMore.indent_nested_replace s). Qed.

End ListBuilderProps.

(** ** Hyperlink Extractor *)

Module HyperlinkProps.
Import Docx HyperlinkExtractor RunConsolidator Invariants Reference Examples
  FurtherExamples.

(** X9: every span extracted from field codes has a URL that is not empty,
    at least one member run, member runs that are runs of the paragraph and
    no end markers, and the joined texts of its members as text; the spans
    are named field_0, field_1, ... in order, so their identities differ. *)
Theorem X9_field_spans (p : Paragraph) :
  Forall (field_span_ok (all_runs p)) (_extract_field_hyperlinks p)
  /\ map link_id (_extract_field_hyperlinks p)
     = map field_name (seq 0 (length (_extract_field_hyperlinks p)))
  /\ NoDup (map link_id (_extract_field_hyperlinks p)).
Proof.
  destruct (HyperlinkMore.field_spans_sound p) as [H1 H2].
  split; [exact H1|]. split; [exact H2|]. exact (IdMore.field_spans_nodup p).
Qed.

(** X10: the spans taken from hyperlink elements have URLs that are not
    empty, there is at most one per element, and their identities differ
    from one another. *)
Theorem X10_explicit_spans (rels : string -> option string)
        (hs : list HyperlinkElem) (idx : nat) :
  Forall (fun s => PyStr.nonempty (link_url s) = true) (explicit_spans rels idx hs)
  /\ length (explicit_spans rels idx hs) <= length hs
  /\ NoDup (map link_id (explicit_spans rels idx hs)).
Proof.
  destruct (HyperlinkMore.explicit_spans_url rels hs idx) as [H1 H2].
  split; [exact H1|]. split; [exact H2|]. exact (IdMore.explicit_spans_nodup rels hs idx).
Qed.

(** X11: the identities of the two extraction methods can coincide: a
    hyperlink element in first position that has no relationship id and
    the anchor field gets the identity field_0, which is also that of the
    first field-code span. *)
Theorem X11_identity_collision (p : Paragraph) (h : HyperlinkElem)
        (hs : list HyperlinkElem) :
  hyperlink_elements p = h :: hs ->
  truthy (r_id h) = false ->
  anchor h = Some "field" ->
  _extract_field_hyperlinks p <> [] ->
  ~ NoDup (map link_id (_extract_hyperlinks p)).
Proof. exact (IdMore.identity_collision p h hs). Qed.

Lemma X11_identity_collision_witness :
  ~ NoDup (map link_id (_extract_hyperlinks bookmark_and_field))
  /\ _process_runs bookmark_and_field = _format_link "http://y" "Go"
  /\ _process_runs top_and_field
     = _format_link "http://y" "Go" ++ " " ++ _format_link "#top" "Top".
Proof.
  split; [|split; reflexivity].
  apply (X11_identity_collision bookmark_and_field bookmark_wrapper []).
  - reflexivity.
  - reflexivity.
  - reflexivity.
  - vm_compute. discriminate.
Defined.

(** X12: a field instruction made of the word HYPERLINK, a space and a URL
    between double quotes is read back as that URL, when the URL is not
    empty and holds no double quote. *)
Theorem X12_instruction_round_trip (r : RunElem) (url : string) :
  instrText r = Some (hyperlink_instruction_text url) ->
  PyStr.nonempty url = true ->
  has_char quote url = false ->
  hyperlink_instruction r = Some (Some url).
Proof. exact (HyperlinkMore.instruction_round_trip r url). Qed.

Lemma X12_instruction_round_trip_witness :
  hyperlink_instruction (instruction 1 (hyperlink_code "http://y"))
  = Some (Some "http://y").
Proof.
  apply (X12_instruction_round_trip (instruction 1 (hyperlink_code "http://y"))
           "http://y"); reflexivity.
Defined.

(** X13: a complete field (begin marker, runs without effect, the
    HYPERLINK instruction, runs up to the separate marker, one or more
    member runs, the end marker) adds exactly one span, named after the
    field counter, with the URL of the instruction, the member runs and
    their joined texts; the scan goes on after the end marker with the
    counter raised by one. *)
Theorem X13_complete_field (fuel : nat) (pre : list RunElem) (begin_run : RunElem)
        (mid : list RunElem) (instr : RunElem) (between : list RunElem)
        (sep member : RunElem) (members : list RunElem) (endm : RunElem)
        (post : list RunElem) (field_idx : nat) (hyperlinks : list span)
        (url : string) :
  is_fld begin_run "begin" = true ->
  Forall inert mid ->
  hyperlink_instruction instr = Some (Some url) ->
  Forall (fun r => is_fld r "separate" = false) (instr :: between) ->
  is_fld sep "separate" = true ->
  Forall (fun r => is_fld r "end" = false) (member :: members) ->
  is_fld endm "end" = true ->
  let field := (begin_run :: mid ++ instr :: between ++ sep :: (member :: members)
                ++ [endm])%list in
  field_loop (S fuel) (pre ++ field ++ post) (length pre) field_idx hyperlinks
  = field_loop fuel (pre ++ field ++ post) (length pre + length field) (field_idx + 1)
      (PyList.append hyperlinks
         (field_name field_idx, url, member :: members,
          field_link_text (member :: members))).
Proof.
  exact (HyperlinkMore.field_loop_complete_field fuel pre begin_run mid instr between
           sep member members endm post field_idx hyperlinks url).
Qed.

Lemma X13_complete_field_witness :
  field_loop 6 go_field 0 0 []
  = field_loop 5 go_field 5 1 [("field_0", "http://y", [text_elem 3 "Go"], "Go")].
Proof.
  apply (X13_complete_field 5 [] (marker 0 "begin") []
           (instruction 1 (hyperlink_code "http://y")) [] (marker 2 "separate")
           (text_elem 3 "Go") [] (marker 4 "end") [] 0 [] "http://y").
  - reflexivity.
  - constructor.
  - reflexivity.
  - repeat constructor.
  - reflexivity.
  - repeat constructor.
  - reflexivity.
Defined.

End HyperlinkProps.

(** ** Run Consolidator *)

Module RunProps.
Import Docx HyperlinkExtractor RunConsolidator Invariants Reference Examples
  FurtherExamples.

(** X14: runs that all belong to one link and agree on bold and italic give
    one anchor around one tag group (strong outside em) that holds the
    escaped texts in order; a link is never underlined, and the text of the
    link element is not used.  The spans the walk did not meet follow. *)
Theorem X14_runs_of_one_link (hyperlinks : list span) (first : Run) (rs : list Run)
        (id url txt : string) (b i : bool) :
  (forall r, In r (first :: rs) ->
             owning_link hyperlinks (_element r) = Some (id, url, txt)) ->
  (forall r, In r (first :: rs) -> py_bool (bold r) = b /\ py_bool (italic r) = i) ->
  process_runs_with hyperlinks (first :: rs)
  = _format_link url
      (SpecWords.tagged b "strong"
         (SpecWords.tagged i "em"
            (String.concat EmptyString (map _escape_html (map text (first :: rs))))))
    ++ String.concat EmptyString (unprocessed_links [id] hyperlinks).
Proof. exact (RunMore.runs_of_one_link hyperlinks first rs id url txt b i). Qed.

Lemma X14_runs_of_one_link_witness :
  process_runs_with [("field_0", "http://x", [text_elem 0 "R&D "; text_elem 1 "<2>"],
                      "R&D <2>")]
    [plain_run 0 "R&D " (Some true); plain_run 1 "<2>" (Some true)]
  = _format_link "http://x" "<strong>R&amp;D &lt;2&gt;</strong>".
Proof.
  apply (X14_runs_of_one_link
           [("field_0", "http://x", [text_elem 0 "R&D "; text_elem 1 "<2>"], "R&D <2>")]
           (plain_run 0 "R&D " (Some true)) [plain_run 1 "<2>" (Some true)]
           "field_0" "http://x" "R&D <2>" true false).
  - intros r [<-|[<-|[]]]; reflexivity.
  - intros r [<-|[<-|[]]]; split; reflexivity.
Defined.

(** X15: a link whose runs all have an empty text is written as an anchor
    without content (around empty strong or em tags when the runs are bold
    or italic): the branch that would use the text of the link element or
    the URL as link text is not taken. *)
Theorem X15_empty_link_runs (hyperlinks : list span) (first : Run) (rs : list Run)
        (id url txt : string) (b i : bool) :
  (forall r, In r (first :: rs) ->
             owning_link hyperlinks (_element r) = Some (id, url, txt)) ->
  (forall r, In r (first :: rs) -> py_bool (bold r) = b /\ py_bool (italic r) = i) ->
  (forall r, In r (first :: rs) -> text r = EmptyString) ->
  process_runs_with hyperlinks (first :: rs)
  = _format_link url (SpecWords.tagged b "strong" (SpecWords.tagged i "em" EmptyString))
    ++ String.concat EmptyString (unprocessed_links [id] hyperlinks).
Proof. exact (RunMore.empty_link_runs hyperlinks first rs id url txt b i). Qed.

Lemma X15_empty_link_runs_witness :
  process_runs_with [("field_0", "http://x", [text_elem 0 EmptyString], EmptyString)]
    [plain_run 0 EmptyString None]
  = _format_link "http://x" EmptyString.
Proof.
  apply (X15_empty_link_runs
           [("field_0", "http://x", [text_elem 0 EmptyString], EmptyString)]
           (plain_run 0 EmptyString None) [] "field_0" "http://x" EmptyString
           false false).
  - intros r [<-|[]]; reflexivity.
  - intros r [<-|[]]; split; reflexivity.
  - intros r [<-|[]]; reflexivity.
Defined.

(** X16: the spans that were met are remembered by identity, so a span
    that shares its identity with the link the runs belong to is never
    written, although no run of it was met and its text is not empty. *)
Theorem X16_shared_identity (hyperlinks : list span) (first : Run) (rs : list Run)
        (id url txt : string) (b i : bool) :
  (forall r, In r (first :: rs) ->
             owning_link hyperlinks (_element r) = Some (id, url, txt)) ->
  (forall r, In r (first :: rs) -> py_bool (bold r) = b /\ py_bool (italic r) = i) ->
  Forall (fun s => link_id s = id) hyperlinks ->
  process_runs_with hyperlinks (first :: rs)
  = _format_link url
      (SpecWords.tagged b "strong"
         (SpecWords.tagged i "em"
            (String.concat EmptyString (map _escape_html (map text (first :: rs)))))).
Proof. exact (RunMore.shared_identity hyperlinks first rs id url txt b i). Qed.

Lemma X16_shared_identity_witness :
  process_runs_with shared_spans [elem_run (text_elem 3 "Go") "Go"]
  = _format_link "http://y" "Go".
Proof.
  apply (X16_shared_identity shared_spans (elem_run (text_elem 3 "Go") "Go") []
           "field_0" "http://y" "Go" false false).
  - intros r [<-|[]]; reflexivity.
  - intros r [<-|[]]; split; reflexivity.
  - repeat constructor.
Defined.

End RunProps.

(** ** Block Dispatcher, Table Renderer and post-pass *)

Module DispatcherProps.
Import Docx HyperlinkExtractor RunConsolidator ListBuilder Converter Invariants
  Reference Examples FurtherExamples.

(** X17: while a document made of list paragraphs only is read, nothing is
    emitted and every paragraph is buffered, in document order; the flush
    after the loop renders the whole buffer, and when that call returns,
    with whatever number of frames the interpreter has left, what it
    returns is the one fragment of the document. *)
Theorem X17_only_list_paragraphs (cfg : Config.t) (p : Paragraph)
        (ps : list Paragraph) :
  Forall (fun p => list_item_of p <> None) (p :: ps) ->
  html_parts (fold_left (dispatch cfg) (map CT_P (p :: ps)) idle) = []
  /\ current_list_items (fold_left (dispatch cfg) (map CT_P (p :: ps)) idle)
     = list_items_of (p :: ps)
  /\ forall frames html,
       _create_list_html_within frames (list_items_of (p :: ps)) None = Returned html ->
       dispatch_all cfg (map CT_P (p :: ps)) = [html].
Proof.
  intros Hall.
  destruct (DispatcherMore.dispatch_list_paragraphs cfg (p :: ps) Hall idle)
    as [H1 H2].
  split; [exact H1|]. split; [exact H2|].
  intros frames html Hw.
  rewrite (DispatcherMore.only_list_paragraphs cfg p ps Hall).
  now rewrite (ListBuilderLimits.create_within_agrees frames _ None html Hw).
Qed.

Lemma X17_only_list_paragraphs_witness :
  dispatch_all empty_config [CT_P numbered_item; CT_P numbered_item]
  = [PyStr.join PyStr.nl ["<ul>"; "  <li>First</li>"; "  <li>First</li>"; "</ul>"]].
Proof.
  refine (proj2 (proj2 (X17_only_list_paragraphs empty_config numbered_item
                          [numbered_item] _)) 1 _ eq_refl).
  repeat constructor; intros H; vm_compute in H; discriminate H.
Defined.

(** X18: a paragraph that is no list item and has only blanks, between two
    list paragraphs, writes nothing itself but closes the list: the two
    items end up in two lists. *)
Theorem X18_empty_paragraph_splits_list (cfg : Config.t) (p1 e p2 : Paragraph)
        (it1 it2 : item) :
  list_item_of p1 = Some it1 ->
  list_item_of p2 = Some it2 ->
  _get_list_info e = None ->
  PyStr.nonempty (PyStr.strip (p_text e)) = false ->
  dispatch_all cfg [CT_P p1; CT_P e; CT_P p2]
  = [_create_list_html [it1] None; _create_list_html [it2] None].
Proof. exact (DispatcherMore.empty_paragraph_splits_list cfg p1 e p2 it1 it2). Qed.

Lemma X18_empty_paragraph_splits_list_witness :
  dispatch_all empty_config [CT_P numbered_item; CT_P blank_paragraph; CT_P numbered_item]
  = [PyStr.join PyStr.nl ["<ul>"; "  <li>First</li>"; "</ul>"];
     PyStr.join PyStr.nl ["<ul>"; "  <li>First</li>"; "</ul>"]].
Proof.
  apply (X18_empty_paragraph_splits_list empty_config numbered_item blank_paragraph
           numbered_item (0%Z, bullet, "First") (0%Z, bullet, "First"));
    reflexivity.
Defined.

(** X19: when every configured character is disabled or empty and every
    replacement rule is case-sensitive or has no search term, the two
    passes over the joined text do not depend on what re.sub does and no
    error of it reaches them: the first pass gives back its input, and the
    second gives the input with the literal replacements made in order. *)
Theorem X19_passes_without_re_sub
        (re_sub : bool -> string -> string -> string -> option string)
        (cfg : Config.t) (html : string) :
  forallb skipped_char (char_configs (Config.special_characters cfg)) = true ->
  forallb literal_only (Config.replacements cfg) = true ->
  _apply_special_characters re_sub cfg html = Some html
  /\ _apply_replacements re_sub cfg html
     = Some (fold_left apply_literal (Config.replacements cfg) html).
Proof. exact (DispatcherMore.passes_without_re_sub re_sub cfg html). Qed.

Lemma X19_passes_without_re_sub_witness :
  _apply_special_characters re_raises
    (config_with_rules [literal_rule "World" "There"]) "<p>Hello World</p>"
  = Some "<p>Hello World</p>"
  /\ _apply_replacements re_raises
       (config_with_rules [literal_rule "World" "There"]) "<p>Hello World</p>"
     = Some "<p>Hello There</p>".
Proof.
  exact (X19_passes_without_re_sub re_raises
           (config_with_rules [literal_rule "World" "There"]) "<p>Hello World</p>"
           eq_refl eq_refl).
Defined.

(** X20: a table without rows gives the empty string; a table of one row
    has a thead and no tbody; a table of two or more rows has a tbody. *)
Theorem X20_table_sections :
  _convert_table [] = EmptyString
  /\ (forall header_row,
         PyStr.contains "<tbody>" (_convert_table [header_row]) = false)
  /\ (forall header_row row rows,
         PyStr.contains "<tbody>" (_convert_table (header_row :: row :: rows)) = true).
Proof.
  split; [reflexivity|]. split.
  - exact TableMore.header_only.
  - exact TableMore.body_present.
Qed.

End DispatcherProps.

(** ** Styles and wrap tag *)

Module StyleProps.
Import Docx HyperlinkExtractor RunConsolidator ListBuilder Converter Invariants
  Reference Examples FurtherExamples.

(** X21: the opening tag of the quote wrapper holds the trimmed
    configuration text with its attributes; the closing tag holds a name
    without a space that the trimmed text starts with, and the whole
    trimmed text when it has no space (also when it has a tab). *)
Theorem X21_parse_wrap_tag (wrap_tag : string) :
  exists name,
    _parse_wrap_tag wrap_tag
    = ("<" ++ PyStr.strip wrap_tag ++ ">", "</" ++ name ++ ">")
    /\ has_char " "%char name = false
    /\ String.prefix name (PyStr.strip wrap_tag) = true
    /\ (has_char " "%char (PyStr.strip wrap_tag) = false ->
        name = PyStr.strip wrap_tag).
Proof. exact (LayoutMore.parse_wrap_tag_shape wrap_tag). Qed.

Lemma X21_parse_wrap_tag_witness :
  exists name,
    _parse_wrap_tag " blockquote " = ("<blockquote>", "</" ++ name ++ ">")
    /\ name = "blockquote".
Proof.
  destruct (X21_parse_wrap_tag " blockquote ") as (name & E & _ & _ & H).
  exists name. split; [exact E|exact (H eq_refl)].
Defined.

(** X22: for a paragraph without numbering, the classification by style
    name depends on the lower-case name only: the test on the start of the
    name never decides, and the bullet words are looked for before the
    number words. *)
Theorem X22_style_classification (p : Paragraph) :
  unnumbered p = true ->
  _get_list_info p
  = if PyStr.contains "list bullet" (PyStr.lower (style_name p))
    then Some (bullet, style_level (style_name p), _process_runs p)
    else if PyStr.contains "list number" (PyStr.lower (style_name p))
    then Some (number, style_level (style_name p), _process_runs p)
    else None.
Proof. exact (TableMore.style_classification p). Qed.

Lemma X22_style_classification_witness :
  _get_list_info (simple_paragraph "My List Number then LIST BULLET 2" "x" None)
  = Some (bullet, 1%Z, "x")
  /\ _get_list_info
       (simple_paragraph ("List Bullet " ++ PyStr.of_bytes [217; 163]) "x" None)
     = Some (bullet, 2%Z, "x").
Proof.
  split.
  - exact (X22_style_classification
             (simple_paragraph "My List Number then LIST BULLET 2" "x" None) eq_refl).
  - exact (X22_style_classification
             (simple_paragraph ("List Bullet " ++ PyStr.of_bytes [217; 163]) "x" None)
             eq_refl).
Defined.

(** X23: a style name that ends with decimal digits, after an ASCII
    character that is no digit, gives the number they spell minus one as
    level. *)
Theorem X23_style_level_of_number (base digits : string) :
  PyStr.nonempty digits = true ->
  all_digits digits = true ->
  no_final_digit base = true ->
  trailing_digits (base ++ digits) = Some digits
  /\ style_level (base ++ digits) = (int_of_digits digits - 1)%Z.
Proof. exact (TableMore.style_level_of_number base digits). Qed.

Lemma X23_style_level_of_number_witness :
  trailing_digits "List Bullet 12" = Some "12"
  /\ style_level "List Bullet 12" = 11%Z.
Proof.
  exact (X23_style_level_of_number "List Bullet " "12" eq_refl eq_refl eq_refl).
Defined.

(** X24: a style name that is empty, or ends with an ASCII character that
    is no digit and no newline, gives level 0. *)
Theorem X24_style_level_without_number (name : string) :
  no_final_digit name = true ->
  match PyStr.rev name with
  | String c _ => Ascii.eqb c PyStr.newline = false
  | EmptyString => True
  end ->
  style_level name = 0%Z.
Proof. exact (TableMore.style_level_without_number name). Qed.

Lemma X24_style_level_without_number_witness :
  style_level "List Bullet" = 0%Z.
Proof.
  exact (X24_style_level_without_number "List Bullet" eq_refl eq_refl).
Defined.

End StyleProps.

(** ** The loop variables and the built-in configuration *)

Module LoopMore.
Import Docx HyperlinkExtractor RunConsolidator ListBuilder Converter Reference Defaults.

Lemma buffer_inv_close (st : dispatch_state) :
  buffer_inv st -> buffer_inv (close_open_list st).
Proof.
  unfold close_open_list. intros H.
  destruct (current_list_items st) eqn:E; [exact H|].
  unfold buffer_inv. reflexivity.
Qed.

Lemma buffer_inv_emit (st : dispatch_state) (html : string) :
  buffer_inv st -> buffer_inv (emit st html).
Proof.
  unfold emit. intros H. destruct (PyStr.nonempty html); exact H.
Qed.

(** One iteration of the loop keeps the two list variables in step. *)
Lemma buffer_inv_dispatch (cfg : Config.t) (st : dispatch_state) (e : Element) :
  buffer_inv st -> buffer_inv (dispatch cfg st e).
Proof.
  intros H. destruct e as [p|t|]; cbn [dispatch].
  - destruct (_get_list_info p) as [[[lt lvl] txt]|].
    + unfold buffer_inv in *. cbn [current_list_items current_list_type].
      unfold PyList.append.
      destruct (current_list_items st) as [|it its]; cbn [app]; rewrite H; reflexivity.
    + now apply buffer_inv_emit, buffer_inv_close.
  - now apply buffer_inv_emit, buffer_inv_close.
  - exact H.
Qed.

Lemma buffer_inv_loop (cfg : Config.t) (body : list Element) :
  forall st, buffer_inv st -> buffer_inv (fold_left (dispatch cfg) body st).
Proof.
  induction body as [|e body IH]; intros st H; [exact H|].
  cbn [fold_left]. now apply IH, buffer_inv_dispatch.
Qed.

(** With the built-in configuration the two passes change nothing and a
    paragraph is never wrapped as a quote. *)
Lemma default_config_passes
      (re_sub : bool -> string -> string -> string -> option string)
      (html : string) :
  _apply_special_characters re_sub get_default_config html = Some html
  /\ _apply_replacements re_sub get_default_config html = Some html.
Proof.
  exact (DispatcherMore.passes_without_re_sub re_sub get_default_config html
           eq_refl eq_refl).
Qed.

Lemma default_config_paragraph (p : Paragraph) :
  PyStr.nonempty (PyStr.strip (p_text p)) = true ->
  _convert_paragraph get_default_config p
  = if PyStr.startswith (style_name p) "Heading"
    then "<h3>" ++ _escape_html (PyStr.strip (p_text p)) ++ "</h3>"
    else "<p>" ++ _process_runs p ++ "</p>".
Proof.
  intros H. unfold _convert_paragraph. rewrite H. cbn [negb].
  destruct (PyStr.startswith (style_name p) "Heading"); reflexivity.
Qed.

End LoopMore.

Module LoopProps.
Import Docx HyperlinkExtractor RunConsolidator ListBuilder Converter Reference Defaults
  Examples.

(** X25: with the built-in configuration of [get_default_config], each
    of the two passes over the joined text gives back its input, whatever
    re.sub would do, and a paragraph with text is a heading in h3 or its
    runs in p, never wrapped as a quote. *)
Theorem X25_default_config :
  (forall re_sub html,
      _apply_special_characters re_sub get_default_config html = Some html
      /\ _apply_replacements re_sub get_default_config html = Some html)
  /\ (forall p,
         PyStr.nonempty (PyStr.strip (p_text p)) = true ->
         _convert_paragraph get_default_config p
         = if PyStr.startswith (style_name p) "Heading"
           then "<h3>" ++ _escape_html (PyStr.strip (p_text p)) ++ "</h3>"
           else "<p>" ++ _process_runs p ++ "</p>").
Proof.
  split.
  - exact LoopMore.default_config_passes.
  - exact LoopMore.default_config_paragraph.
Qed.

Lemma X25_default_config_witness :
  _apply_replacements re_raises get_default_config "<p>&quot;hi&quot;</p>"
  = Some "<p>&quot;hi&quot;</p>"
  /\ _convert_paragraph get_default_config quoted_hi = "<p>&quot;hi&quot;</p>".
Proof.
  split.
  - exact (proj2 (proj1 X25_default_config re_raises "<p>&quot;hi&quot;</p>")).
  - exact (proj2 X25_default_config quoted_hi eq_refl).
Defined.

(** X26: after every iteration of the loop of [convert_docx_to_html], the
    list type is unset exactly when the buffer is empty, and otherwise it
    is the kind of the first buffered item: this is the type every flush
    passes to [_create_list_html]. *)
Theorem X26_list_variables (cfg : Config.t) (body : list Element) :
  buffer_inv (fold_left (dispatch cfg) body idle).
Proof. exact (LoopMore.buffer_inv_loop cfg body idle eq_refl). Qed.

End LoopProps.
